(** * Performance monitor of the synthetic arbitrage detection engine

    A shallow embedding of [src/utils/performance_monitor.cpp] together with
    the metric records of [include/types.hpp].

    - [uint64_t] fields are integers in [Z] reduced modulo [2^64] after every
      arithmetic operation ([U64]).
    - [double] fields are the kernel's binary64 floats, so every arithmetic
      operation rounds exactly like the compiled program ([Double]).
    - [std::function] members are optional callbacks whose call either returns
      or raises; every call, log line, thread spawn, join and sleep is an
      [Event] of the trace an operation produces. *)

From Stdlib Require Import ZArith List Bool Lia Floats String.
Import ListNotations.

(** ** 64-bit unsigned arithmetic *)

Module U64.
Definition modulus : Z := 2 ^ 64.

Definition wrap (z : Z) : Z := z mod modulus.

Definition add (a b : Z) : Z := wrap (a + b).

Definition sub (a b : Z) : Z := wrap (a - b).

(** [std::atomic<uint64_t>::fetch_add]: the value returned (the one held
    before) and the value stored. *)
Definition fetch_add (a d : Z) : Z * Z := (a, add a d).

Definition in_range (z : Z) : Prop := (0 <= z < modulus)%Z.
End U64.

(** ** IEEE-754 binary64 values *)

Module Double.
Open Scope float_scope.

(** [static_cast<double>] of a [uint64_t]. Values below [2^63] fit the
    signed conversion; above, the value is halved with a sticky low bit,
    converted and doubled, which yields the correctly rounded result. *)
Definition of_u64 (z : Z) : float :=
  if (z <? 2 ^ 63)%Z then of_uint63 (Uint63.of_Z z)
  else of_uint63 (Uint63.of_Z (Z.lor (Z.shiftr z 1) (Z.land z 1))) * 2.

(** The binary64 value nearest to an integer, ties to even: what the
    conversion has to produce. *)
Definition nearest (z : Z) : float := SF2Prim (binary_normalize prec emax z 0 false).

(** Conversion of a signed [long]. *)
Definition of_i64 (z : Z) : float :=
  if (z <? 0)%Z then - of_u64 (- z) else of_u64 z.

(** C++ [a > b] on doubles. *)
Definition gtb (a b : float) : bool := b <? a.

(** The classes of binary64 values used to state sign invariants:
    [not_negative] holds of every value that does not compare below zero
    (NaN included), [positive_sign] additionally excludes [-0.0]. *)
Definition SF_not_negative (x : spec_float) : bool :=
  match x with
  | S754_zero _ => true
  | S754_infinity s => negb s
  | S754_nan => true
  | S754_finite s _ _ => negb s
  end.

Definition SF_positive_sign (x : spec_float) : bool :=
  match x with
  | S754_zero s => negb s
  | S754_infinity s => negb s
  | S754_nan => true
  | S754_finite s _ _ => negb s
  end.

(** [nonneg] holds of the values that compare at or above zero. *)
Definition SF_nonneg (x : spec_float) : bool :=
  match x with
  | S754_zero _ => true
  | S754_infinity s => negb s
  | S754_nan => false
  | S754_finite s _ _ => negb s
  end.
End Double.

(** ** Data model *)

(** [AtomicPerformanceMetrics] of [types.hpp]; the [last_update] time stamp is
    never written by the monitor and is left out. *)
Record AtomicPerformanceMetrics := mkAtomicMetrics {
  messages_processed : Z;
  opportunities_detected : Z;
  trades_executed : Z;
  average_latency_ms : float;
  max_latency_ms : float;
  memory_usage_mb : float;
  cpu_usage_percentage : float
}.

(** [PerformanceMetrics], the plain copy returned by [getMetrics]. *)
Module Snapshot.
Record PerformanceMetrics := mkMetrics {
  messages_processed : Z;
  opportunities_detected : Z;
  trades_executed : Z;
  average_latency_ms : float;
  max_latency_ms : float;
  memory_usage_mb : float;
  cpu_usage_percentage : float;
  last_update : Z
}.
End Snapshot.

(** What a call can raise: something derived from [std::exception], or any
    other thrown object. *)
Inductive Exn :=
| StdException (what : string)
| ForeignException.

Inductive Outcome (A : Type) :=
| Normal (a : A)
| Raised (e : Exn).
Arguments Normal {A} a.
Arguments Raised {A} e.

(** The text handed to an alert callback: the pieces the source concatenates,
    where [Num x] stands for [std::to_string(x)]. *)
Inductive Piece :=
| Str (s : string)
| Num (x : float).

Definition Message := list Piece.

(** A non-empty [std::function<void(const std::string&, const std::string&)>]. *)
Definition AlertCallback := string -> Message -> Outcome unit.

Inductive MetricKind := LatencyKind | MemoryKind | CpuKind.

Inductive CounterKind := MessagesCounter | OpportunitiesCounter | TradesCounter.

Inductive Level := INFO | WARN | ERROR.

Inductive Event :=
| Log (lvl : Level) (text : string)
| LogPerformance (m : Snapshot.PerformanceMetrics)
| Invoke (k : MetricKind) (alert : string) (msg : Message)
| Spawn (tid : nat)
| Join (tid : nat)
| Sleep (ms : Z).

(** The [std::thread] object behind [monitoring_thread_]. *)
Record Thread := mkThread { tid : nat; joinable : bool }.

Record PerformanceMonitor := mkMonitor {
  metrics_ : AtomicPerformanceMetrics;
  running_ : bool;
  monitoring_enabled_ : bool;
  monitoring_thread_ : option Thread;
  monitoring_interval_ms_ : Z;
  latency_count_ : Z;
  latency_sum_ : float;
  latency_alert_callback_ : option AlertCallback;
  memory_alert_callback_ : option AlertCallback;
  cpu_alert_callback_ : option AlertCallback;
  latency_threshold_ms_ : float;
  memory_threshold_mb_ : float;
  cpu_threshold_percentage_ : float;
  last_cpu_check_ : Z;
  last_cpu_time_ : Z
}.

(** The member initialisers of [performance_monitor.hpp]. *)
Definition zero_metrics : AtomicPerformanceMetrics :=
  mkAtomicMetrics 0 0 0 0%float 0%float 0%float 0%float.

Definition default_monitor : PerformanceMonitor :=
  {| metrics_ := zero_metrics;
     running_ := false;
     monitoring_enabled_ := false;
     monitoring_thread_ := None;
     monitoring_interval_ms_ := 1000;
     latency_count_ := 0;
     latency_sum_ := 0%float;
     latency_alert_callback_ := None;
     memory_alert_callback_ := None;
     cpu_alert_callback_ := None;
     latency_threshold_ms_ := 0%float;
     memory_threshold_mb_ := 0%float;
     cpu_threshold_percentage_ := 0%float;
     last_cpu_check_ := 0;
     last_cpu_time_ := 0 |}.

(** ** Field updates *)

Definition set_messages_processed (v : Z) (m : AtomicPerformanceMetrics) :=
  mkAtomicMetrics v (opportunities_detected m) (trades_executed m)
    (average_latency_ms m) (max_latency_ms m) (memory_usage_mb m) (cpu_usage_percentage m).

Definition set_opportunities_detected (v : Z) (m : AtomicPerformanceMetrics) :=
  mkAtomicMetrics (messages_processed m) v (trades_executed m)
    (average_latency_ms m) (max_latency_ms m) (memory_usage_mb m) (cpu_usage_percentage m).

Definition set_trades_executed (v : Z) (m : AtomicPerformanceMetrics) :=
  mkAtomicMetrics (messages_processed m) (opportunities_detected m) v
    (average_latency_ms m) (max_latency_ms m) (memory_usage_mb m) (cpu_usage_percentage m).

Definition set_average_latency_ms (v : float) (m : AtomicPerformanceMetrics) :=
  mkAtomicMetrics (messages_processed m) (opportunities_detected m) (trades_executed m)
    v (max_latency_ms m) (memory_usage_mb m) (cpu_usage_percentage m).

Definition set_max_latency_ms (v : float) (m : AtomicPerformanceMetrics) :=
  mkAtomicMetrics (messages_processed m) (opportunities_detected m) (trades_executed m)
    (average_latency_ms m) v (memory_usage_mb m) (cpu_usage_percentage m).

Definition set_memory_usage_mb (v : float) (m : AtomicPerformanceMetrics) :=
  mkAtomicMetrics (messages_processed m) (opportunities_detected m) (trades_executed m)
    (average_latency_ms m) (max_latency_ms m) v (cpu_usage_percentage m).

Definition set_cpu_usage_percentage (v : float) (m : AtomicPerformanceMetrics) :=
  mkAtomicMetrics (messages_processed m) (opportunities_detected m) (trades_executed m)
    (average_latency_ms m) (max_latency_ms m) (memory_usage_mb m) v.

Definition with_metrics (f : AtomicPerformanceMetrics -> AtomicPerformanceMetrics)
    (pm : PerformanceMonitor) : PerformanceMonitor :=
  mkMonitor (f (metrics_ pm)) (running_ pm) (monitoring_enabled_ pm) (monitoring_thread_ pm)
    (monitoring_interval_ms_ pm) (latency_count_ pm) (latency_sum_ pm)
    (latency_alert_callback_ pm) (memory_alert_callback_ pm) (cpu_alert_callback_ pm)
    (latency_threshold_ms_ pm) (memory_threshold_mb_ pm) (cpu_threshold_percentage_ pm)
    (last_cpu_check_ pm) (last_cpu_time_ pm).

Definition with_lifecycle (run enabled : bool) (t : option Thread)
    (pm : PerformanceMonitor) : PerformanceMonitor :=
  mkMonitor (metrics_ pm) run enabled t
    (monitoring_interval_ms_ pm) (latency_count_ pm) (latency_sum_ pm)
    (latency_alert_callback_ pm) (memory_alert_callback_ pm) (cpu_alert_callback_ pm)
    (latency_threshold_ms_ pm) (memory_threshold_mb_ pm) (cpu_threshold_percentage_ pm)
    (last_cpu_check_ pm) (last_cpu_time_ pm).

Definition with_interval (ms : Z) (pm : PerformanceMonitor) : PerformanceMonitor :=
  mkMonitor (metrics_ pm) (running_ pm) (monitoring_enabled_ pm) (monitoring_thread_ pm)
    ms (latency_count_ pm) (latency_sum_ pm)
    (latency_alert_callback_ pm) (memory_alert_callback_ pm) (cpu_alert_callback_ pm)
    (latency_threshold_ms_ pm) (memory_threshold_mb_ pm) (cpu_threshold_percentage_ pm)
    (last_cpu_check_ pm) (last_cpu_time_ pm).

Definition with_latency (count : Z) (sum : float) (pm : PerformanceMonitor) : PerformanceMonitor :=
  mkMonitor (metrics_ pm) (running_ pm) (monitoring_enabled_ pm) (monitoring_thread_ pm)
    (monitoring_interval_ms_ pm) count sum
    (latency_alert_callback_ pm) (memory_alert_callback_ pm) (cpu_alert_callback_ pm)
    (latency_threshold_ms_ pm) (memory_threshold_mb_ pm) (cpu_threshold_percentage_ pm)
    (last_cpu_check_ pm) (last_cpu_time_ pm).

Definition with_latency_alert (cb : option AlertCallback) (thr : float)
    (pm : PerformanceMonitor) : PerformanceMonitor :=
  mkMonitor (metrics_ pm) (running_ pm) (monitoring_enabled_ pm) (monitoring_thread_ pm)
    (monitoring_interval_ms_ pm) (latency_count_ pm) (latency_sum_ pm)
    cb (memory_alert_callback_ pm) (cpu_alert_callback_ pm)
    thr (memory_threshold_mb_ pm) (cpu_threshold_percentage_ pm)
    (last_cpu_check_ pm) (last_cpu_time_ pm).

Definition with_memory_alert (cb : option AlertCallback) (thr : float)
    (pm : PerformanceMonitor) : PerformanceMonitor :=
  mkMonitor (metrics_ pm) (running_ pm) (monitoring_enabled_ pm) (monitoring_thread_ pm)
    (monitoring_interval_ms_ pm) (latency_count_ pm) (latency_sum_ pm)
    (latency_alert_callback_ pm) cb (cpu_alert_callback_ pm)
    (latency_threshold_ms_ pm) thr (cpu_threshold_percentage_ pm)
    (last_cpu_check_ pm) (last_cpu_time_ pm).

Definition with_cpu_alert (cb : option AlertCallback) (thr : float)
    (pm : PerformanceMonitor) : PerformanceMonitor :=
  mkMonitor (metrics_ pm) (running_ pm) (monitoring_enabled_ pm) (monitoring_thread_ pm)
    (monitoring_interval_ms_ pm) (latency_count_ pm) (latency_sum_ pm)
    (latency_alert_callback_ pm) (memory_alert_callback_ pm) cb
    (latency_threshold_ms_ pm) (memory_threshold_mb_ pm) thr
    (last_cpu_check_ pm) (last_cpu_time_ pm).

Definition with_cpu_baseline (check time : Z) (pm : PerformanceMonitor) : PerformanceMonitor :=
  mkMonitor (metrics_ pm) (running_ pm) (monitoring_enabled_ pm) (monitoring_thread_ pm)
    (monitoring_interval_ms_ pm) (latency_count_ pm) (latency_sum_ pm)
    (latency_alert_callback_ pm) (memory_alert_callback_ pm) (cpu_alert_callback_ pm)
    (latency_threshold_ms_ pm) (memory_threshold_mb_ pm) (cpu_threshold_percentage_ pm)
    check time.

(** ** Metric recording (the producer-facing operations) *)

Section Recording.
Open Scope float_scope.

Definition recordMessageProcessed (pm : PerformanceMonitor) : PerformanceMonitor :=
  with_metrics
    (fun m => set_messages_processed (snd (U64.fetch_add (messages_processed m) 1)) m) pm.

Definition recordOpportunityDetected (pm : PerformanceMonitor) : PerformanceMonitor :=
  with_metrics
    (fun m => set_opportunities_detected (snd (U64.fetch_add (opportunities_detected m) 1)) m) pm.

Definition recordTradeExecuted (pm : PerformanceMonitor) : PerformanceMonitor :=
  with_metrics (fun m => set_trades_executed (snd (U64.fetch_add (trades_executed m) 1)) m) pm.

(** One call of [recordLatency] with no concurrent writer: the
    compare-exchange loop stores [latency_ms] exactly when it exceeds the
    maximum it loaded, then sum, count and average are updated under the
    mutex. *)
Definition recordLatency (latency_ms : float) (pm : PerformanceMonitor) : PerformanceMonitor :=
  let current_max := max_latency_ms (metrics_ pm) in
  let pm1 :=
    if Double.gtb latency_ms current_max
    then with_metrics (set_max_latency_ms latency_ms) pm
    else pm in
  let (previous, stored) := U64.fetch_add (latency_count_ pm1) 1 in
  let count := U64.add previous 1 in
  let current_sum := latency_sum_ pm1 in
  let new_sum := current_sum + latency_ms in
  with_metrics (set_average_latency_ms (new_sum / Double.of_u64 count))
    (with_latency stored new_sum pm1).

Definition recordMemoryUsage (memory_mb : float) (pm : PerformanceMonitor) : PerformanceMonitor :=
  with_metrics (set_memory_usage_mb memory_mb) pm.

Definition recordCpuUsage (cpu_percentage : float) (pm : PerformanceMonitor) : PerformanceMonitor :=
  with_metrics (set_cpu_usage_percentage cpu_percentage) pm.

Definition getMessagesProcessed (pm : PerformanceMonitor) : Z := messages_processed (metrics_ pm).
Definition getOpportunitiesDetected (pm : PerformanceMonitor) : Z :=
  opportunities_detected (metrics_ pm).
Definition getTradesExecuted (pm : PerformanceMonitor) : Z := trades_executed (metrics_ pm).
Definition getAverageLatency (pm : PerformanceMonitor) : float := average_latency_ms (metrics_ pm).
Definition getMaxLatency (pm : PerformanceMonitor) : float := max_latency_ms (metrics_ pm).
Definition getMemoryUsage (pm : PerformanceMonitor) : float := memory_usage_mb (metrics_ pm).
Definition getCpuUsage (pm : PerformanceMonitor) : float := cpu_usage_percentage (metrics_ pm).

(** [getMetrics]; [now] is what [getCurrentTimestamp()] returns. *)
Definition getMetrics (now : Z) (pm : PerformanceMonitor) : Snapshot.PerformanceMetrics :=
  Snapshot.mkMetrics (getMessagesProcessed pm) (getOpportunitiesDetected pm)
    (getTradesExecuted pm) (getAverageLatency pm) (getMaxLatency pm)
    (getMemoryUsage pm) (getCpuUsage pm) now.

(** [AtomicPerformanceMetrics::reset]. *)
Definition reset (m : AtomicPerformanceMetrics) : AtomicPerformanceMetrics :=
  set_cpu_usage_percentage 0
    (set_memory_usage_mb 0
      (set_max_latency_ms 0
        (set_average_latency_ms 0
          (set_trades_executed 0
            (set_opportunities_detected 0
              (set_messages_processed 0 m)))))).

(** [resetMetrics]: the changed monitor and the line it logs. *)
Definition resetMetrics (pm : PerformanceMonitor) : list Event * PerformanceMonitor :=
  ([Log INFO "Performance metrics reset"],
   with_latency 0 0 (with_metrics reset pm)).

Definition isLatencyWithinThreshold (threshold_ms : float) (pm : PerformanceMonitor) : bool :=
  getAverageLatency pm <=? threshold_ms.

Definition isMemoryWithinThreshold (threshold_mb : float) (pm : PerformanceMonitor) : bool :=
  getMemoryUsage pm <=? threshold_mb.

Definition isCpuWithinThreshold (threshold_percentage : float) (pm : PerformanceMonitor) : bool :=
  getCpuUsage pm <=? threshold_percentage.

Definition setLatencyAlertCallback (callback : option AlertCallback) (threshold_ms : float)
    (pm : PerformanceMonitor) : PerformanceMonitor :=
  with_latency_alert callback threshold_ms pm.

Definition setMemoryAlertCallback (callback : option AlertCallback) (threshold_mb : float)
    (pm : PerformanceMonitor) : PerformanceMonitor :=
  with_memory_alert callback threshold_mb pm.

Definition setCpuAlertCallback (callback : option AlertCallback) (threshold_percentage : float)
    (pm : PerformanceMonitor) : PerformanceMonitor :=
  with_cpu_alert callback threshold_percentage pm.
End Recording.

(** ** System sampling *)

(** The eight counters read from the first line of [/proc/stat]. *)
Record CpuTimes := mkCpuTimes {
  user : Z; nice : Z; system : Z; idle : Z;
  iowait : Z; irq : Z; softirq : Z; steal : Z
}.

Section Sampling.
Open Scope float_scope.

(** [getCurrentMemoryUsage]: [ru_maxrss] is the [long] that [getrusage]
    reports, in kilobytes. *)
Definition getCurrentMemoryUsage (ru_maxrss : Z) : float :=
  Double.of_i64 ru_maxrss / 1024.

Definition total_of (c : CpuTimes) : Z :=
  U64.add (U64.add (U64.add (U64.add (U64.add (U64.add (U64.add
    (user c) (nice c)) (system c)) (idle c)) (iowait c)) (irq c)) (softirq c)) (steal c).

Definition idle_of (c : CpuTimes) : Z := U64.add (idle c) (iowait c).

(** [getCurrentCpuUsage]. [stat] is [None] when [/proc/stat] cannot be
    opened; [now] is the steady clock in nanoseconds, and [time_diff] its
    distance from [last_cpu_check_] in whole milliseconds. *)
Definition getCurrentCpuUsage (stat : option CpuTimes) (now : Z)
    (pm : PerformanceMonitor) : float * PerformanceMonitor :=
  match stat with
  | None => (0, pm)
  | Some c =>
    let total_time := total_of c in
    let idle_time := idle_of c in
    let time_diff := Z.quot (now - last_cpu_check_ pm) 1000000 in
    let last := last_cpu_time_ pm in
    let fall_through := (0, with_cpu_baseline now total_time pm) in
    if ((0 <? time_diff)%Z && (0 <? last)%Z)%bool then
      let total_diff := U64.sub total_time last in
      let idle_diff := U64.sub idle_time (U64.sub last (U64.sub total_time idle_time)) in
      if (0 <? total_diff)%Z then
        let cpu_usage := 100 * (1 - Double.of_u64 idle_diff / Double.of_u64 total_diff) in
        (cpu_usage, with_cpu_baseline now total_time pm)
      else fall_through
    else fall_through
  end.
End Sampling.

(** ** Alert evaluation *)

(** Code that emits events and may raise. *)
Definition Eff (A : Type) : Type := list Event * Outcome A.

Definition ret {A} (a : A) : Eff A := ([], Normal a).

Definition bind {A B} (m : Eff A) (k : A -> Eff B) : Eff B :=
  match m with
  | (t, Normal a) => let (t', r) := k a in (t ++ t', r)
  | (t, Raised e) => (t, Raised e)
  end.

Notation "m ;;; k" := (bind m (fun _ => k)) (at level 61, right associativity).

Definition callback_of (k : MetricKind) (pm : PerformanceMonitor) : option AlertCallback :=
  match k with
  | LatencyKind => latency_alert_callback_ pm
  | MemoryKind => memory_alert_callback_ pm
  | CpuKind => cpu_alert_callback_ pm
  end.

Definition threshold_of (k : MetricKind) (pm : PerformanceMonitor) : float :=
  match k with
  | LatencyKind => latency_threshold_ms_ pm
  | MemoryKind => memory_threshold_mb_ pm
  | CpuKind => cpu_threshold_percentage_ pm
  end.

Definition current_of (k : MetricKind) (pm : PerformanceMonitor) : float :=
  match k with
  | LatencyKind => getAverageLatency pm
  | MemoryKind => getMemoryUsage pm
  | CpuKind => getCpuUsage pm
  end.

Definition alert_name (k : MetricKind) : string :=
  match k with
  | LatencyKind => "LATENCY_ALERT"
  | MemoryKind => "MEMORY_ALERT"
  | CpuKind => "CPU_ALERT"
  end.

Definition alert_message (k : MetricKind) (current threshold : float) : Message :=
  match k with
  | LatencyKind =>
      [Str "Average latency "; Num current; Str "ms exceeds threshold "; Num threshold; Str "ms"]
  | MemoryKind =>
      [Str "Memory usage "; Num current; Str "MB exceeds threshold "; Num threshold; Str "MB"]
  | CpuKind =>
      [Str "CPU usage "; Num current; Str "% exceeds threshold "; Num threshold; Str "%"]
  end.

(** Calling a callback: the call is recorded, then its outcome decides
    whether the caller continues. *)
Definition invoke (k : MetricKind) (cb : AlertCallback) (alert : string) (msg : Message) : Eff unit :=
  ([Invoke k alert msg], cb alert msg).

(** One of the three blocks of [checkAlerts]. *)
Definition check_alert (k : MetricKind) (pm : PerformanceMonitor) : Eff unit :=
  match callback_of k pm with
  | Some cb =>
    if Double.gtb (threshold_of k pm) 0 then
      let current := current_of k pm in
      if Double.gtb current (threshold_of k pm) then
        invoke k cb (alert_name k) (alert_message k current (threshold_of k pm))
      else ret tt
    else ret tt
  | None => ret tt
  end.

Definition checkAlerts (pm : PerformanceMonitor) : Eff unit :=
  check_alert LatencyKind pm ;;;
  check_alert MemoryKind pm ;;;
  check_alert CpuKind pm.

(** ** The sampler loop *)

(** What one iteration observes of its surroundings: whether [stop] has
    cleared [monitoring_enabled_] before the loop test, the resource readings
    and the two clocks. *)
Record TickEnv := mkTickEnv {
  cancelled : bool;
  ru_maxrss : Z;
  proc_stat : option CpuTimes;
  steady_now : Z;
  wall_now : Z
}.

Inductive LoopStatus :=
| Exited       (* the loop test saw [monitoring_enabled_ = false] *)
| Running      (* every observed iteration ran; the loop is still going *)
| Died.        (* an exception left the thread function *)

(** The first two statements of the loop body. *)
Definition sample_gauges (env : TickEnv) (pm : PerformanceMonitor) : PerformanceMonitor :=
  let pm1 := recordMemoryUsage (getCurrentMemoryUsage (ru_maxrss env)) pm in
  let (cpu, pm2) := getCurrentCpuUsage (proc_stat env) (steady_now env) pm1 in
  recordCpuUsage cpu pm2.

(** The body of the [while] loop, with its [try]/[catch]: the two gauges are
    sampled and stored, then the alerts are checked, the status line is
    logged and the thread sleeps. The result says whether the thread
    function is still running afterwards. *)
Definition loop_body (env : TickEnv) (pm : PerformanceMonitor)
    : list Event * PerformanceMonitor * bool :=
  let pm3 := sample_gauges env pm in
  match checkAlerts pm3 with
  | (t, Normal _) =>
      (t ++ [LogPerformance (getMetrics (wall_now env) pm3);
             Sleep (monitoring_interval_ms_ pm3)], pm3, true)
  | (t, Raised (StdException what)) =>
      (t ++ [Log ERROR ("Error in performance monitoring loop: " ++ what)], pm3, true)
  | (t, Raised ForeignException) => (t, pm3, false)
  end.

Fixpoint monitoringLoop (envs : list TickEnv) (pm : PerformanceMonitor)
    : list Event * PerformanceMonitor * LoopStatus :=
  match envs with
  | [] => ([], pm, Running)
  | env :: rest =>
    let pm0 :=
      if cancelled env
      then with_lifecycle (running_ pm) false (monitoring_thread_ pm) pm
      else pm in
    if monitoring_enabled_ pm0 then
      match loop_body env pm0 with
      | (t, pm1, true) =>
          match monitoringLoop rest pm1 with
          | (t', pm2, st) => (t ++ t', pm2, st)
          end
      | (t, pm1, false) => (t, pm1, Died)
      end
    else ([], pm0, Exited)
  end.

(** ** Lifecycle *)

(** The monitor together with what the process knows about its sampler
    threads: the threads that have been spawned and have not yet finished,
    the next fresh thread id, and the events emitted so far. *)
Record Process := mkProcess {
  monitor : PerformanceMonitor;
  live : list nat;
  next_tid : nat;
  events : list Event
}.

Definition fresh_process : Process := mkProcess default_monitor [] 0 [].

Definition emit (t : list Event) (p : Process) : Process :=
  mkProcess (monitor p) (live p) (next_tid p) (events p ++ t).

Definition on_monitor (f : PerformanceMonitor -> PerformanceMonitor) (p : Process) : Process :=
  mkProcess (f (monitor p)) (live p) (next_tid p) (events p).

(** An operation either returns or ends the process through
    [std::terminate]. *)
Inductive Run :=
| Ok (p : Process)
| Terminate.

(** [initialize]; [now] is the steady clock. It always returns [true]. *)
Definition initialize (monitoring_interval_ms : Z) (now : Z) (p : Process) : bool * Process :=
  (true,
   emit [Log INFO "Performance monitor initialized with {}ms interval"]
     (on_monitor (fun pm => with_cpu_baseline now 0 (with_interval monitoring_interval_ms pm)) p)).

(** [start]. Assigning the new [std::thread] to [monitoring_thread_] destroys
    the thread object held before; destroying a joinable thread terminates
    the process. *)
Definition start (p : Process) : Run :=
  let pm := monitor p in
  if running_ pm then
    Ok (emit [Log WARN "Performance monitor already running"] p)
  else
    let t := next_tid p in
    let pm1 := with_lifecycle true true (Some (mkThread t true)) pm in
    match monitoring_thread_ pm with
    | Some old =>
      if joinable old then Terminate
      else Ok (mkProcess pm1 (t :: live p) (S t)
                 (events p ++ [Spawn t; Log INFO "Performance monitor started"]))
    | None =>
      Ok (mkProcess pm1 (t :: live p) (S t)
            (events p ++ [Spawn t; Log INFO "Performance monitor started"]))
    end.

(** [stop]. Joining waits for the sampler loop to leave, which it does once
    [monitoring_enabled_] is cleared. *)
Definition stop (p : Process) : Process :=
  let pm := monitor p in
  if negb (running_ pm) then p
  else
    match monitoring_thread_ pm with
    | Some t =>
      if joinable t then
        mkProcess (with_lifecycle false false (Some (mkThread (tid t) false)) pm)
          (List.remove Nat.eq_dec (tid t) (live p)) (next_tid p)
          (events p ++ [Join (tid t); Log INFO "Performance monitor stopped"])
      else
        mkProcess (with_lifecycle false false (Some t) pm) (live p) (next_tid p)
          (events p ++ [Log INFO "Performance monitor stopped"])
    | None =>
      mkProcess (with_lifecycle false false None pm) (live p) (next_tid p)
        (events p ++ [Log INFO "Performance monitor stopped"])
    end.

(** The operations a client can call, and their effect on the process. *)
Inductive Op :=
| OpInitialize (interval_ms now : Z)
| OpStart
| OpStop
| OpIncrement (k : CounterKind)
| OpRecordLatency (latency_ms : float)
| OpRecordMemoryUsage (memory_mb : float)
| OpRecordCpuUsage (cpu_percentage : float)
| OpResetMetrics.

Definition incrementCounter (k : CounterKind) (pm : PerformanceMonitor) : PerformanceMonitor :=
  match k with
  | MessagesCounter => recordMessageProcessed pm
  | OpportunitiesCounter => recordOpportunityDetected pm
  | TradesCounter => recordTradeExecuted pm
  end.

Definition counter_of (k : CounterKind) (pm : PerformanceMonitor) : Z :=
  match k with
  | MessagesCounter => getMessagesProcessed pm
  | OpportunitiesCounter => getOpportunitiesDetected pm
  | TradesCounter => getTradesExecuted pm
  end.

Definition apply_op (o : Op) (p : Process) : Run :=
  match o with
  | OpInitialize ms now => Ok (snd (initialize ms now p))
  | OpStart => start p
  | OpStop => Ok (stop p)
  | OpIncrement k => Ok (on_monitor (incrementCounter k) p)
  | OpRecordLatency x => Ok (on_monitor (recordLatency x) p)
  | OpRecordMemoryUsage x => Ok (on_monitor (recordMemoryUsage x) p)
  | OpRecordCpuUsage x => Ok (on_monitor (recordCpuUsage x) p)
  | OpResetMetrics =>
      let (t, pm) := resetMetrics (monitor p) in
      Ok (emit t (on_monitor (fun _ => pm) p))
  end.

Fixpoint run_ops (ops : list Op) (p : Process) : Run :=
  match ops with
  | [] => Ok p
  | o :: rest =>
    match apply_op o p with
    | Ok p' => run_ops rest p'
    | Terminate => Terminate
    end
  end.

(** ** Concurrent producers *)

(** Each producer thread has a list of counter increments still to perform.
    A schedule names, step by step, the thread whose next [fetch_add] takes
    effect; the read-modify-write is a single atomic step. *)
Definition Programs := list (list CounterKind).

Fixpoint step_thread (i : nat) (ps : Programs) {struct ps}
    : option (CounterKind * Programs) :=
  match ps, i with
  | [], _ => None
  | [] :: _, O => None
  | (k :: prog) :: rest, O => Some (k, prog :: rest)
  | prog :: rest, S j =>
    match step_thread j rest with
    | Some (k, rest') => Some (k, prog :: rest')
    | None => None
    end
  end.

Fixpoint run_schedule (sched : list nat) (ps : Programs) (pm : PerformanceMonitor)
    : option (Programs * PerformanceMonitor) :=
  match sched with
  | [] => Some (ps, pm)
  | i :: rest =>
    match step_thread i ps with
    | Some (k, ps') => run_schedule rest ps' (incrementCounter k pm)
    | None => None
    end
  end.

Definition all_done (ps : Programs) : Prop := Forall (fun prog => prog = []) ps.

(** The number of increments not yet performed. *)
Fixpoint remaining (ps : Programs) : nat :=
  match ps with
  | [] => 0
  | prog :: rest => List.length prog + remaining rest
  end.

Definition counter_kind_eqb (k k' : CounterKind) : bool :=
  match k, k' with
  | MessagesCounter, MessagesCounter
  | OpportunitiesCounter, OpportunitiesCounter
  | TradesCounter, TradesCounter => true
  | _, _ => false
  end.

(** The number of increments of counter [k] in a program. *)
Definition calls_of (k : CounterKind) (prog : list CounterKind) : Z :=
  Z.of_nat (List.length (List.filter (counter_kind_eqb k) prog)).

Definition total_calls (k : CounterKind) (ps : Programs) : Z :=
  List.fold_right (fun prog acc => (calls_of k prog + acc)%Z) 0%Z ps.

(** ** Reference notions for the latency accumulator *)

Section LatencySpec.
Open Scope float_scope.

(** The recorded values added up in recording order, as the accumulator
    does. *)
Definition latency_total (l : list float) : float := List.fold_left PrimFloat.add l 0.

(** [m] is a greatest element of [l]. *)
Definition is_maximum_of (m : float) (l : list float) : Prop :=
  List.In m l /\ forall x, List.In x l -> (m <? x) = false.

Definition record_all (l : list float) (pm : PerformanceMonitor) : PerformanceMonitor :=
  List.fold_left (fun acc x => recordLatency x acc) l pm.

(** A fresh or reset latency accumulator. *)
Definition latency_cleared (pm : PerformanceMonitor) : Prop :=
  latency_count_ pm = 0%Z /\ latency_sum_ pm = 0 /\
  getAverageLatency pm = 0 /\ getMaxLatency pm = 0.
End LatencySpec.

(** ** Reference notions for alert evaluation *)

Section AlertSpec.
Open Scope float_scope.

(** A callback is registered for [k], its threshold is positive and the
    current value strictly exceeds the threshold. *)
Definition alert_due (k : MetricKind) (pm : PerformanceMonitor) : bool :=
  match callback_of k pm with
  | Some _ => (0 <? threshold_of k pm) && (threshold_of k pm <? current_of k pm)
  | None => false
  end.

Definition is_invoke (k : MetricKind) (e : Event) : bool :=
  match e, k with
  | Invoke LatencyKind _ _, LatencyKind => true
  | Invoke MemoryKind _ _, MemoryKind => true
  | Invoke CpuKind _ _, CpuKind => true
  | _, _ => false
  end.

(** How often the callback of kind [k] is called in a trace. *)
Definition invocations (k : MetricKind) (t : list Event) : nat :=
  List.length (List.filter (is_invoke k) t).

Definition completes {A} (m : Eff A) : bool :=
  match snd m with
  | Normal _ => true
  | Raised _ => false
  end.

(** The pass gets as far as the block of kind [k]: the blocks before it,
    in the order latency, memory, CPU, have not raised. *)
Definition reached (k : MetricKind) (pm : PerformanceMonitor) : bool :=
  match k with
  | LatencyKind => true
  | MemoryKind => completes (check_alert LatencyKind pm)
  | CpuKind => completes (check_alert LatencyKind pm) && completes (check_alert MemoryKind pm)
  end.

Definition within_threshold (k : MetricKind) (threshold : float) (pm : PerformanceMonitor) : bool :=
  match k with
  | LatencyKind => isLatencyWithinThreshold threshold pm
  | MemoryKind => isMemoryWithinThreshold threshold pm
  | CpuKind => isCpuWithinThreshold threshold pm
  end.

(** Callbacks that raise nothing but objects derived from
    [std::exception]. *)
Definition raises_std_only (cb : option AlertCallback) : Prop :=
  forall f alert msg, cb = Some f -> f alert msg <> Raised ForeignException.

Definition callbacks_std_only (pm : PerformanceMonitor) : Prop :=
  forall k, raises_std_only (callback_of k pm).

(** The outcome of the first block of a pass that raises, if any. *)
Definition first_raised (pm : PerformanceMonitor) : Outcome unit :=
  match snd (check_alert LatencyKind pm) with
  | Raised e => Raised e
  | Normal _ =>
    match snd (check_alert MemoryKind pm) with
    | Raised e => Raised e
    | Normal _ => snd (check_alert CpuKind pm)
    end
  end.
End AlertSpec.

(** ** Reference notions for the lifecycle *)

(** The sampler is running exactly when [running_] is set: then one joinable
    thread is alive and [monitoring_thread_] holds it; otherwise no sampler
    thread is alive and the thread object left behind, if any, has been
    joined. *)
Definition lifecycle_inv (p : Process) : Prop :=
  if running_ (monitor p) then
    monitoring_enabled_ (monitor p) = true /\
    exists t, monitoring_thread_ (monitor p) = Some (mkThread t true) /\ live p = [t]
  else
    monitoring_enabled_ (monitor p) = false /\
    live p = [] /\
    match monitoring_thread_ (monitor p) with
    | Some t => joinable t = false
    | None => True
    end.

Definition is_initialize (o : Op) : bool :=
  match o with
  | OpInitialize _ _ => true
  | _ => false
  end.

Definition never_initialized (ops : list Op) : bool :=
  List.forallb (fun o => negb (is_initialize o)) ops.

(** ** Inputs used in the examples *)

Section Examples.
Open Scope float_scope.

(** Two readings of [/proc/stat]: idle 100 of total 1000, then idle 150 of
    total 1500. *)
Definition first_sample : CpuTimes := mkCpuTimes 900 0 0 100 0 0 0 0.
Definition second_sample : CpuTimes := mkCpuTimes 1350 0 0 150 0 0 0 0.

Definition initialized_monitor : PerformanceMonitor :=
  monitor (snd (initialize 1000 0 fresh_process)).

Definition throwing_callback : AlertCallback :=
  fun _ _ => Raised (StdException "alert handler failed").

Definition foreign_throwing_callback : AlertCallback :=
  fun _ _ => Raised ForeignException.

Definition quiet_callback : AlertCallback := fun _ _ => Normal tt.

(** Average latency 10 against a threshold of 5 with a handler that throws,
    memory 100 against a threshold of 50 with a handler that returns. *)
Definition breaching_monitor : PerformanceMonitor :=
  setMemoryAlertCallback (Some quiet_callback) 50
    (setLatencyAlertCallback (Some throwing_callback) 5
      (recordMemoryUsage 100 (recordLatency 10 default_monitor))).

(** The same with a latency handler that throws an object that is not a
    [std::exception], and the sampler enabled. *)
Definition foreign_monitor : PerformanceMonitor :=
  with_lifecycle true true (Some (mkThread 0 true))
    (setLatencyAlertCallback (Some foreign_throwing_callback) 5
      (recordLatency 10 default_monitor)).

(** Average latency and memory exactly at their thresholds, both handlers
    returning. *)
Definition at_threshold_monitor : PerformanceMonitor :=
  setMemoryAlertCallback (Some quiet_callback) 100
    (setLatencyAlertCallback (Some quiet_callback) 10
      (recordMemoryUsage 100 (recordLatency 10 default_monitor))).

(** A tick that reads no [/proc/stat] and 2 MB of resident memory. *)
Definition plain_tick : TickEnv := mkTickEnv false 2048 None 1000000000 0.

(** [N] producers taking turns, one increment each, for [M] rounds. *)
Definition round_robin (N M : nat) : list nat := List.concat (List.repeat (List.seq 0 N) M).
End Examples.

(** * The remaining code of [types.hpp] *)

Module Types.
Open Scope float_scope.
Open Scope string_scope.

Inductive Exchange := OKX | BINANCE | BYBIT | UNKNOWN.

Module InstrumentType.
Inductive t := SPOT | PERPETUAL_SWAP | FUTURES | OPTION | UNKNOWN.
End InstrumentType.

Definition exchangeToString (exchange : Exchange) : string :=
  match exchange with
  | OKX => "OKX"
  | BINANCE => "BINANCE"
  | BYBIT => "BYBIT"
  | UNKNOWN => "UNKNOWN"
  end.

Definition stringToExchange (str : string) : Exchange :=
  if String.eqb str "OKX" then OKX
  else if String.eqb str "BINANCE" then BINANCE
  else if String.eqb str "BYBIT" then BYBIT
  else UNKNOWN.

Definition instrumentTypeToString (type : InstrumentType.t) : string :=
  match type with
  | InstrumentType.SPOT => "SPOT"
  | InstrumentType.PERPETUAL_SWAP => "PERPETUAL_SWAP"
  | InstrumentType.FUTURES => "FUTURES"
  | InstrumentType.OPTION => "OPTION"
  | InstrumentType.UNKNOWN => "UNKNOWN"
  end.

Definition stringToInstrumentType (str : string) : InstrumentType.t :=
  if String.eqb str "SPOT" then InstrumentType.SPOT
  else if String.eqb str "PERPETUAL_SWAP" then InstrumentType.PERPETUAL_SWAP
  else if String.eqb str "FUTURES" then InstrumentType.FUTURES
  else if String.eqb str "OPTION" then InstrumentType.OPTION
  else InstrumentType.UNKNOWN.

(** [OrderBookEntry] and [OrderBook]; time stamps are clock readings. *)
Record OrderBookEntry := mkEntry {
  price : float;
  volume : float;
  timestamp : Z
}.

Record OrderBook := mkOrderBook {
  bids : list OrderBookEntry;
  asks : list OrderBookEntry;
  book_timestamp : Z;
  instrument_id : string;
  exchange_id : string
}.

Definition getBestBid (b : OrderBook) : float :=
  match bids b with
  | [] => 0
  | e :: _ => price e
  end.

Definition getBestAsk (b : OrderBook) : float :=
  match asks b with
  | [] => 0
  | e :: _ => price e
  end.

Definition getMidPrice (b : OrderBook) : float := (getBestBid b + getBestAsk b) / 2.

Definition getSpread (b : OrderBook) : float := getBestAsk b - getBestBid b.

(** [Instrument]; [expiry_time] is a clock reading. *)
Record Instrument := mkInstrument {
  id : string;
  symbol : string;
  base_asset : string;
  quote_asset : string;
  type : InstrumentType.t;
  exchange : Exchange;
  tick_size : float;
  min_notional : float;
  contract_size : float;
  expiry_time : Z;
  is_active : bool
}.

Record ExchangeConfig := mkExchangeConfig {
  enabled : bool;
  websocket_url : string;
  rest_url : string;
  connection_timeout_ms : Z;
  reconnect_interval_ms : Z;
  max_reconnect_attempts : Z;
  requests_per_second : Z;
  burst_size : Z
}.

Record ArbitrageConfig := mkArbitrageConfig {
  min_profit_threshold : float;
  max_latency_ms : Z;
  signal_strength_threshold : float;
  confidence_threshold : float;
  max_position_size : float;
  max_portfolio_exposure : float;
  max_leverage : float;
  stop_loss_percentage : float;
  take_profit_percentage : float
}.

(** [SystemConfig]. The [std::map] of exchanges is the list of its entries
    in the order the map iterates them, by key. *)
Record SystemConfig := mkSystemConfig {
  log_level : string;
  log_file : string;
  performance_monitoring : bool;
  memory_pool_size : Z;
  thread_pool_size : Z;
  exchanges : list (string * ExchangeConfig);
  instruments : list Instrument;
  arbitrage : ArbitrageConfig
}.

(** An order book side listed from its best price on. *)
Definition bids_descending (b : OrderBook) : Prop :=
  forall i, (i + 1 < List.length (bids b))%nat ->
    (price (List.nth (i + 1) (bids b) (mkEntry 0 0 0)) <=?
     price (List.nth i (bids b) (mkEntry 0 0 0)))%float = true.

Definition asks_ascending (b : OrderBook) : Prop :=
  forall i, (i + 1 < List.length (asks b))%nat ->
    (price (List.nth i (asks b) (mkEntry 0 0 0)) <=?
     price (List.nth (i + 1) (asks b) (mkEntry 0 0 0)))%float = true.
End Types.

(** * The configuration manager *)

Module Config.
Import Types.
Open Scope string_scope.

Record ConfigManager := mkConfigManager {
  system_config_ : SystemConfig;
  config_loaded_ : bool;
  config_file_path_ : string
}.

Definition with_exchanges (m : list (string * ExchangeConfig)) (c : SystemConfig) : SystemConfig :=
  mkSystemConfig (log_level c) (log_file c) (performance_monitoring c) (memory_pool_size c)
    (thread_pool_size c) m (instruments c) (arbitrage c).

Definition with_arbitrage (a : ArbitrageConfig) (c : SystemConfig) : SystemConfig :=
  mkSystemConfig (log_level c) (log_file c) (performance_monitoring c) (memory_pool_size c)
    (thread_pool_size c) (exchanges c) (instruments c) a.

Definition with_enabled (b : bool) (c : ExchangeConfig) : ExchangeConfig :=
  mkExchangeConfig b (websocket_url c) (rest_url c) (connection_timeout_ms c)
    (reconnect_interval_ms c) (max_reconnect_attempts c) (requests_per_second c) (burst_size c).

Definition not_loaded : Exn := StdException "Configuration not loaded".

(** [std::map::find]. *)
Fixpoint find (name : string) (m : list (string * ExchangeConfig)) : option ExchangeConfig :=
  match m with
  | [] => None
  | (k, c) :: rest => if String.eqb k name then Some c else find name rest
  end.

Definition getSystemConfig (cm : ConfigManager) : Outcome SystemConfig :=
  if negb (config_loaded_ cm) then Raised not_loaded
  else Normal (system_config_ cm).

Definition getExchangeConfig (exchange_name : string) (cm : ConfigManager)
    : Outcome ExchangeConfig :=
  if negb (config_loaded_ cm) then Raised not_loaded
  else
    match find exchange_name (exchanges (system_config_ cm)) with
    | None => Raised (StdException ("Exchange configuration not found: " ++ exchange_name))
    | Some c => Normal c
    end.

Definition getArbitrageConfig (cm : ConfigManager) : Outcome ArbitrageConfig :=
  if negb (config_loaded_ cm) then Raised not_loaded
  else Normal (arbitrage (system_config_ cm)).

(** [isExchangeEnabled]: its handler catches what derives from
    [std::exception]. *)
Definition isExchangeEnabled (exchange_name : string) (cm : ConfigManager) : Outcome bool :=
  match getExchangeConfig exchange_name cm with
  | Normal config => Normal (enabled config)
  | Raised (StdException _) => Normal false
  | Raised ForeignException => Raised ForeignException
  end.

Definition getEnabledInstruments (cm : ConfigManager) : Outcome (list Instrument) :=
  if negb (config_loaded_ cm) then Raised not_loaded
  else Normal (List.filter is_active (instruments (system_config_ cm))).

Definition getEnabledExchanges (cm : ConfigManager) : Outcome (list string) :=
  if negb (config_loaded_ cm) then Raised not_loaded
  else
    Normal (List.map fst
              (List.filter (fun entry => enabled (snd entry)) (exchanges (system_config_ cm)))).

Definition updateArbitrageConfig (config : ArbitrageConfig) (cm : ConfigManager) : ConfigManager :=
  mkConfigManager (with_arbitrage config (system_config_ cm)) (config_loaded_ cm)
    (config_file_path_ cm).

(** The entry [find] returns, with its flag overwritten. *)
Fixpoint set_enabled (name : string) (b : bool) (m : list (string * ExchangeConfig))
    : list (string * ExchangeConfig) :=
  match m with
  | [] => []
  | (k, c) :: rest =>
    if String.eqb k name then (k, with_enabled b c) :: rest
    else (k, c) :: set_enabled name b rest
  end.

Definition enableExchange (exchange_name : string) (b : bool) (cm : ConfigManager)
    : ConfigManager :=
  mkConfigManager
    (with_exchanges (set_enabled exchange_name b (exchanges (system_config_ cm)))
       (system_config_ cm))
    (config_loaded_ cm) (config_file_path_ cm).

Definition is_empty (s : string) : bool :=
  match s with
  | EmptyString => true
  | String _ _ => false
  end.

(** The loop of [validateConfiguration] over the exchanges: the line it
    writes when it returns early, or the final [has_enabled_exchange]. *)
Fixpoint validate_exchanges (m : list (string * ExchangeConfig)) (has_enabled_exchange : bool)
    : string + bool :=
  match m with
  | [] => inr has_enabled_exchange
  | (exchange_name, config) :: rest =>
    if enabled config then
      if is_empty (websocket_url config) then
        inl ("WebSocket URL not specified for exchange: " ++ exchange_name)
      else if (connection_timeout_ms config <=? 0)%Z then
        inl ("Invalid connection timeout for exchange: " ++ exchange_name)
      else validate_exchanges rest true
    else validate_exchanges rest has_enabled_exchange
  end.

Fixpoint validate_instruments (l : list Instrument) (has_enabled_instrument : bool)
    : string + bool :=
  match l with
  | [] => inr has_enabled_instrument
  | instrument :: rest =>
    if is_active instrument then
      if is_empty (symbol instrument) then inl "Symbol not specified for instrument"
      else if (tick_size instrument <=? 0)%float then
        inl ("Invalid tick size for instrument: " ++ symbol instrument)
      else validate_instruments rest true
    else validate_instruments rest has_enabled_instrument
  end.

(** [validateConfiguration]: the line written to [std::cerr], if any, and the
    result. *)
Definition validateConfiguration (c : SystemConfig) : option string * bool :=
  if is_empty (log_level c) then (Some "Log level not specified", false)
  else if (thread_pool_size c <=? 0)%Z then (Some "Invalid thread pool size", false)
  else
    match validate_exchanges (exchanges c) false with
    | inl line => (Some line, false)
    | inr false => (Some "No exchanges enabled", false)
    | inr true =>
      match validate_instruments (instruments c) false with
      | inl line => (Some line, false)
      | inr false => (Some "No instruments enabled", false)
      | inr true =>
        if (min_profit_threshold (arbitrage c) <=? 0)%float then
          (Some "Invalid minimum profit threshold", false)
        else if (max_position_size (arbitrage c) <=? 0)%float then
          (Some "Invalid maximum position size", false)
        else (None, true)
      end
    end.

Definition lines_of (line : option string) : list string :=
  match line with
  | Some l => [l]
  | None => []
  end.

(** [loadConfig]. [file_opens] says whether the file could be opened.
    Reading the JSON text and the four [parse...Config] calls run library
    code, so they enter as [parse]: from the [system_config_] held before,
    the [system_config_] they leave behind and what they threw, if anything.
    The result lists the lines written to the console, the manager
    afterwards, and what the call returns. *)
Definition loadConfig (config_file : string) (file_opens : bool)
    (parse : SystemConfig -> SystemConfig * option Exn) (cm : ConfigManager)
    : list string * ConfigManager * Outcome bool :=
  if negb file_opens then
    (["Failed to open config file: " ++ config_file], cm, Normal false)
  else
    match parse (system_config_ cm) with
    | (c, Some (StdException what)) =>
        (["Error loading configuration: " ++ what],
         mkConfigManager c (config_loaded_ cm) (config_file_path_ cm), Normal false)
    | (c, Some ForeignException) =>
        ([], mkConfigManager c (config_loaded_ cm) (config_file_path_ cm),
         Raised ForeignException)
    | (c, None) =>
      let cm' := mkConfigManager c true config_file in
      match validateConfiguration c with
      | (line, false) =>
          (List.app (lines_of line) ["Configuration validation failed"], cm', Normal false)
      | (line, true) =>
          (List.app (lines_of line) ["Configuration loaded successfully from: " ++ config_file],
           cm', Normal true)
      end
    end.

(** The calls a client can make after construction. *)
Inductive Call :=
| CallLoad (config_file : string) (file_opens : bool)
    (parse : SystemConfig -> SystemConfig * option Exn)
| CallUpdateArbitrage (config : ArbitrageConfig)
| CallEnableExchange (exchange_name : string) (b : bool).

Definition apply_call (c : Call) (cm : ConfigManager) : ConfigManager :=
  match c with
  | CallLoad f o p => snd (fst (loadConfig f o p cm))
  | CallUpdateArbitrage a => updateArbitrageConfig a cm
  | CallEnableExchange n b => enableExchange n b cm
  end.

(** What [validateConfiguration] accepts, said without the loops. *)
Definition exchange_ok (entry : string * ExchangeConfig) : Prop :=
  enabled (snd entry) = true ->
  is_empty (websocket_url (snd entry)) = false /\ (0 < connection_timeout_ms (snd entry))%Z.

Definition instrument_ok (i : Instrument) : Prop :=
  is_active i = true ->
  is_empty (symbol i) = false /\ (tick_size i <=? 0)%float = false.

Definition acceptable (c : SystemConfig) : Prop :=
  is_empty (log_level c) = false /\
  (0 < thread_pool_size c)%Z /\
  List.Forall exchange_ok (exchanges c) /\
  List.Exists (fun entry => enabled (snd entry) = true) (exchanges c) /\
  List.Forall instrument_ok (instruments c) /\
  List.Exists (fun i => is_active i = true) (instruments c) /\
  (min_profit_threshold (arbitrage c) <=? 0)%float = false /\
  (max_position_size (arbitrage c) <=? 0)%float = false.

(** The manager as [getInstance] first hands it out: the object has static
    storage, so every field starts at zero. *)
Definition fresh_manager : ConfigManager :=
  mkConfigManager
    (mkSystemConfig "" "" false 0 0 [] [] (mkArbitrageConfig 0 0 0 0 0 0 0 0 0))
    false "".

(** A configuration with one enabled exchange and one active instrument. *)
Definition sample_exchange : ExchangeConfig :=
  mkExchangeConfig true "wss://ws.okx.com:8443/ws/v5/public" "https://www.okx.com"
    5000 1000 10 20 40.

Definition sample_instrument : Instrument :=
  mkInstrument "BTC-USDT" "BTC-USDT" "BTC" "USDT" InstrumentType.SPOT OKX
    0.125 10 1 0 true.

Definition sample_arbitrage : ArbitrageConfig :=
  mkArbitrageConfig 0.125 100 0.5 0.75 10000 100000 3 0.25 0.5.

Definition sample_config : SystemConfig :=
  mkSystemConfig "info" "logs/arbitrage.log" true 1024 4
    [("okx", sample_exchange)] [sample_instrument] sample_arbitrage.

(** The same with a thread pool of size zero, which validation rejects. *)
Definition rejected_config : SystemConfig :=
  mkSystemConfig "info" "logs/arbitrage.log" true 1024 0
    [("okx", sample_exchange)] [sample_instrument] sample_arbitrage.

(** A sequence of calls, applied in order. *)
Definition apply_calls (calls : list Call) (cm : ConfigManager) : ConfigManager :=
  List.fold_left (fun m c => apply_call c m) calls cm.

(** The keys of a [std::map] are distinct. *)
Definition distinct_keys (cm : ConfigManager) : Prop :=
  List.NoDup (List.map fst (exchanges (system_config_ cm))).
End Config.

(** * The logger's level names *)

Module Spdlog.
Open Scope string_scope.

(** [spdlog::level::level_enum]. *)
Inductive level_enum := trace | debug | info | warn | err | critical | off.

Definition stringToLogLevel (level : string) : level_enum :=
  if String.eqb level "trace" then trace
  else if String.eqb level "debug" then debug
  else if String.eqb level "info" then info
  else if String.eqb level "warn" then warn
  else if String.eqb level "error" then err
  else if String.eqb level "critical" then critical
  else info.
End Spdlog.

(** * The engine's main loop *)

Module Engine.
Open Scope float_scope.

(** One pass through the body of the [while] loop of [ArbitrageEngine::run];
    [counter] is the function's [static int]. *)
Definition loop_iteration (counter : Z) (pm : PerformanceMonitor)
    : Z * list Event * PerformanceMonitor :=
  let counter := (counter + 1)%Z in
  if (Z.rem counter 10 =? 0)%Z then
    let pm1 := recordMessageProcessed pm in
    let pm2 := recordLatency (5 + Double.of_i64 (Z.rem counter 10)) pm1 in
    if (Z.rem counter 100 =? 0)%Z then
      (counter,
       [Sleep 100; Log INFO "Simulated opportunity detected (counter: {})"],
       recordOpportunityDetected pm2)
    else (counter, [Sleep 100], pm2)
  else (counter, [Sleep 100], pm).

Fixpoint run_iterations (n : nat) (counter : Z) (pm : PerformanceMonitor)
    : Z * list Event * PerformanceMonitor :=
  match n with
  | O => (counter, [], pm)
  | S n' =>
    match loop_iteration counter pm with
    | (counter', t, pm') =>
      match run_iterations n' counter' pm' with
      | (c, t', pm'') => (c, t ++ t', pm'')
      end
    end
  end.

Definition INT_MAX : Z := 2147483647.

(** The maximum after a latency of 5 ms has been recorded. *)
Definition max_with_five (m : float) : float := if m <? 5 then 5 else m.
End Engine.

(** * Reference notions for the further properties *)

Section FurtherNotions.
Open Scope float_scope.

(** What the producers write: the counters and the latency accumulator. *)
Definition producer_state (pm : PerformanceMonitor)
    : Z * Z * Z * (float * float * Z * float) :=
  (getMessagesProcessed pm, getOpportunitiesDetected pm, getTradesExecuted pm,
   (getAverageLatency pm, getMaxLatency pm, latency_count_ pm, latency_sum_ pm)).

(** The registered alert rules. *)
Definition alert_rules (pm : PerformanceMonitor)
    : option AlertCallback * option AlertCallback * option AlertCallback * (float * float * float) :=
  (latency_alert_callback_ pm, memory_alert_callback_ pm, cpu_alert_callback_ pm,
   (latency_threshold_ms_ pm, memory_threshold_mb_ pm, cpu_threshold_percentage_ pm)).

(** The lifecycle fields. *)
Definition lifecycle_state (pm : PerformanceMonitor) : bool * bool * option Thread * Z :=
  (running_ pm, monitoring_enabled_ pm, monitoring_thread_ pm, monitoring_interval_ms_ pm).

Definition is_sleep (e : Event) : bool :=
  match e with
  | Sleep _ => true
  | _ => false
  end.

Definition is_status_line (e : Event) : bool :=
  match e with
  | LogPerformance _ => true
  | _ => false
  end.

Definition is_error_line (e : Event) : bool :=
  match e with
  | Log ERROR _ => true
  | _ => false
  end.

Definition count_events (f : Event -> bool) (t : list Event) : nat :=
  List.length (List.filter f t).

Definition is_thread_event (e : Event) : bool :=
  match e with
  | Spawn _ | Join _ => true
  | _ => false
  end.

(** The spawns and joins of a trace, in order. *)
Definition thread_events (t : list Event) : list Event := List.filter is_thread_event t.

(** [n] samplers started and joined one after the other. *)
Fixpoint completed_threads (n : nat) : list Event :=
  match n with
  | O => []
  | S n' => completed_threads n' ++ [Spawn n'; Join n']
  end.

(** The increments of counter [k] among the operations after the last
    reset. *)
Fixpoint increments_since_reset (k : CounterKind) (ops : list Op) (acc : Z) : Z :=
  match ops with
  | [] => acc
  | OpIncrement k' :: rest =>
      increments_since_reset k rest (if counter_kind_eqb k k' then acc + 1 else acc)%Z
  | OpResetMetrics :: rest => increments_since_reset k rest 0%Z
  | _ :: rest => increments_since_reset k rest acc
  end.

(** The iterations the sampler loop runs over a list of ticks: those before
    the first tick at which it sees the cancellation. *)
Fixpoint executed (envs : list TickEnv) : nat :=
  match envs with
  | [] => 0
  | env :: rest => if cancelled env then 0 else S (executed rest)
  end.

(** The four fields of the latency accumulator. *)
Definition latency_state (pm : PerformanceMonitor) : float * float * Z * float :=
  (getAverageLatency pm, getMaxLatency pm, latency_count_ pm, latency_sum_ pm).

(** The thread events so far are those of samplers started and joined in
    turn, the last one still running exactly when [running_] is set. *)
Definition thread_history_inv (p : Process) : Prop :=
  if running_ (monitor p) then
    exists n, next_tid p = S n /\
      monitoring_thread_ (monitor p) = Some (mkThread n true) /\
      thread_events (events p) = completed_threads n ++ [Spawn n]
  else
    thread_events (events p) = completed_threads (next_tid p) /\
    match monitoring_thread_ (monitor p) with
    | Some t => joinable t = false
    | None => True
    end.

(** A value that compares equal to itself, that is, not a NaN. *)
Definition comparable (x : float) : bool := x =? x.
End FurtherNotions.

(** * Facts about binary64 comparison and sign *)

Module DoubleFacts.
Open Scope float_scope.

Ltac cmp_cases :=
  repeat match goal with
  | |- context [Z.compare ?a ?b] => destruct (Z.compare_spec a b)
  | H : context [Z.compare ?a ?b] |- _ => destruct (Z.compare_spec a b)
  | |- context [Pos.compare_cont Eq ?a ?b] =>
      change (Pos.compare_cont Eq a b) with (Pos.compare a b);
      destruct (Pos.compare_spec a b)
  | H : context [Pos.compare_cont Eq ?a ?b] |- _ =>
      change (Pos.compare_cont Eq a b) with (Pos.compare a b) in H;
      destruct (Pos.compare_spec a b)
  end.

Lemma SFltb_irrefl (x : spec_float) : SFltb x x = false.
Proof.
  unfold SFltb. destruct x as [s|s| |s m e]; simpl; try reflexivity.
  - destruct s; reflexivity.
  - destruct s; rewrite Z.compare_refl;
      change (Pos.compare_cont Eq m m) with (Pos.compare m m);
      rewrite Pos.compare_refl; reflexivity.
Qed.

Lemma SFltb_trans (x y z : spec_float) :
  SFltb x y = true -> SFltb y z = true -> SFltb x z = true.
Proof.
  unfold SFltb.
  destruct x as [sx|sx| |sx mx ex], y as [sy|sy| |sy my ey], z as [sz|sz| |sz mz ez];
    simpl; try discriminate; try reflexivity;
    try (destruct sx; simpl; try discriminate);
    try (destruct sy; simpl; try discriminate);
    try (destruct sz; simpl; try discriminate);
    try reflexivity;
    intros H1 H2; cmp_cases; simpl in *; try discriminate; try reflexivity; subst; lia.
Qed.

Lemma SFcompare_swap (x y : spec_float) :
  SFcompare y x = option_map CompOpp (SFcompare x y).
Proof.
  destruct x as [sx|sx| |sx mx ex], y as [sy|sy| |sy my ey]; simpl; try reflexivity;
    try (destruct sx; reflexivity); try (destruct sy; reflexivity);
    try (destruct sx, sy; reflexivity).
  destruct sx, sy; simpl; try reflexivity;
    rewrite (Z.compare_antisym ey ex);
    destruct (Z.compare ey ex); simpl; try reflexivity;
    change (Pos.compare_cont Eq my mx) with (Pos.compare my mx);
    change (Pos.compare_cont Eq mx my) with (Pos.compare mx my);
    rewrite (Pos.compare_antisym mx my); destruct (Pos.compare mx my); reflexivity.
Qed.

Lemma ltb_irrefl (x : float) : (x <? x) = false.
Proof. rewrite FloatAxioms.ltb_spec. apply SFltb_irrefl. Qed.

Lemma ltb_trans (x y z : float) :
  (x <? y) = true -> (y <? z) = true -> (x <? z) = true.
Proof. rewrite !FloatAxioms.ltb_spec. apply SFltb_trans. Qed.

Lemma ltb_leb (x y : float) : (x <? y) = true -> (x <=? y) = true.
Proof.
  rewrite FloatAxioms.ltb_spec, FloatAxioms.leb_spec. unfold SFltb, SFleb.
  destruct (SFcompare (Prim2SF x) (Prim2SF y)) as [[]|]; congruence.
Qed.

Lemma leb_not_gt (x y : float) : (x <=? y) = true -> (y <? x) = false.
Proof.
  rewrite FloatAxioms.ltb_spec, FloatAxioms.leb_spec. unfold SFltb, SFleb.
  rewrite (SFcompare_swap (Prim2SF x) (Prim2SF y)).
  destruct (SFcompare (Prim2SF x) (Prim2SF y)) as [[]|]; simpl; congruence.
Qed.

Lemma eqb_leb (x y : float) : (x =? y) = true -> (x <=? y) = true.
Proof.
  rewrite FloatAxioms.eqb_spec, FloatAxioms.leb_spec. unfold SFeqb, SFleb.
  destruct (SFcompare (Prim2SF x) (Prim2SF y)) as [[]|]; congruence.
Qed.

Lemma eqb_not_gt (x y : float) : (x =? y) = true -> (y <? x) = false.
Proof. intros H. apply leb_not_gt, eqb_leb, H. Qed.

Lemma SFleb_ltb_trans (x y z : spec_float) :
  SFleb x y = true -> SFltb y z = true -> SFleb x z = true.
Proof.
  unfold SFltb, SFleb.
  destruct x as [sx|sx| |sx mx ex], y as [sy|sy| |sy my ey], z as [sz|sz| |sz mz ez];
    simpl; try discriminate; try reflexivity;
    try (destruct sx; simpl; try discriminate);
    try (destruct sy; simpl; try discriminate);
    try (destruct sz; simpl; try discriminate);
    try reflexivity;
    intros H1 H2; cmp_cases; simpl in *; try discriminate; try reflexivity; subst; lia.
Qed.

Lemma SFleb_refl_r (x y : spec_float) : SFleb x y = true -> SFleb y y = true.
Proof.
  unfold SFleb.
  destruct x as [sx|sx| |sx mx ex], y as [sy|sy| |sy my ey];
    simpl; try discriminate; try reflexivity; intros _;
    try (destruct sy; reflexivity);
    destruct sy; rewrite Z.compare_refl;
    change (Pos.compare_cont Eq my my) with (Pos.compare my my);
    rewrite Pos.compare_refl; reflexivity.
Qed.

Lemma leb_ltb_trans (x y z : float) :
  (x <=? y) = true -> (y <? z) = true -> (x <=? z) = true.
Proof. rewrite !FloatAxioms.leb_spec, FloatAxioms.ltb_spec. apply SFleb_ltb_trans. Qed.

Lemma leb_refl_r (x y : float) : (x <=? y) = true -> (y <=? y) = true.
Proof. rewrite !FloatAxioms.leb_spec. apply SFleb_refl_r. Qed.

(** ** Signs of sums and quotients *)

Lemma not_negative_ltb (x : float) :
  Double.SF_not_negative (Prim2SF x) = negb (x <? 0).
Proof.
  rewrite FloatAxioms.ltb_spec. change (Prim2SF 0) with (S754_zero false).
  destruct (Prim2SF x) as [s|s| |s m e]; try destruct s; reflexivity.
Qed.

Lemma positive_sign_not_negative (x : spec_float) :
  Double.SF_positive_sign x = true -> Double.SF_not_negative x = true.
Proof. destruct x as [s|s| |s m e]; simpl; auto. Qed.

(** Rounding a magnitude with sign [false] never yields a negative value
    or a negative zero. *)
Lemma binary_round_aux_sign (m e : Z) (l : location) :
  Double.SF_positive_sign (binary_round_aux prec emax false m e l) = true.
Proof.
  unfold binary_round_aux.
  destruct (shr_fexp prec emax m e l) as [mrs' e'].
  destruct (shr_fexp prec emax _ e' loc_Exact) as [mrs'' e''].
  destruct (shr_m mrs''); try reflexivity.
  destruct (Z.leb e'' _); reflexivity.
Qed.

Lemma binary_round_sign (m : positive) (e : Z) :
  Double.SF_positive_sign (binary_round prec emax false m e) = true.
Proof.
  unfold binary_round.
  destruct (shl_align _ _ _) as [mz ez]. apply binary_round_aux_sign.
Qed.

Lemma binary_normalize_sign (m e : Z) :
  (0 <= m)%Z -> Double.SF_positive_sign (binary_normalize prec emax m e false) = true.
Proof.
  destruct m as [|p|p]; intros H; try lia; [reflexivity|].
  apply binary_round_sign.
Qed.

Lemma SFadd_not_negative (x y : spec_float) :
  Double.SF_not_negative x = true -> Double.SF_not_negative y = true ->
  Double.SF_not_negative (SF64add x y) = true.
Proof.
  destruct x as [sx|sx| |sx mx ex], y as [sy|sy| |sy my ey]; simpl;
    try (destruct sx; simpl; try discriminate);
    try (destruct sy; simpl; try discriminate);
    try reflexivity; intros _ _.
  apply positive_sign_not_negative, binary_round_sign.
Qed.

Lemma SFdiv_not_negative (x y : spec_float) :
  Double.SF_not_negative x = true -> Double.SF_positive_sign y = true ->
  Double.SF_not_negative (SF64div x y) = true.
Proof.
  destruct x as [sx|sx| |sx mx ex], y as [sy|sy| |sy my ey]; simpl;
    try (destruct sx; simpl; try discriminate);
    try (destruct sy; simpl; try discriminate);
    try reflexivity; intros _ _.
  unfold SF64div, SFdiv.
  destruct (SFdiv_core_binary _ _ _ _ _ _) as [[mz ez] lz].
  apply positive_sign_not_negative, binary_round_aux_sign.
Qed.

Lemma SFmul_positive_sign (x y : spec_float) :
  Double.SF_positive_sign x = true -> Double.SF_positive_sign y = true ->
  Double.SF_positive_sign (SF64mul x y) = true.
Proof.
  destruct x as [sx|sx| |sx mx ex], y as [sy|sy| |sy my ey]; simpl;
    try (destruct sx; simpl; try discriminate);
    try (destruct sy; simpl; try discriminate);
    try reflexivity; intros _ _.
  apply binary_round_aux_sign.
Qed.

(** The conversion agrees with rounding to nearest at small values, around
    [2^53] where rounding starts, and at the ties on both sides of [2^63]. *)
Example of_u64_nearest :
  List.forallb (fun z => PrimFloat.Leibniz.eqb (Double.of_u64 z) (Double.nearest z))
    [0; 1; 3; 2^53; 2^53+1; 2^53+2; 2^53+3; 2^62+255; 2^62+256; 2^62+257;
     2^63-513; 2^63-512; 2^63-1; 2^63; 2^63+1; 2^63+1024; 2^63+1025;
     2^63+3071; 2^63+3072; 2^63+3073; 2^64-3073; 2^64-3072; 2^64-2049;
     2^64-2048; 2^64-1025; 2^64-1024; 2^64-1]%Z = true.
Proof. vm_compute. reflexivity. Qed.

Lemma of_uint63_sign (n : PrimInt63.int) :
  Double.SF_positive_sign (Prim2SF (of_uint63 n)) = true.
Proof.
  rewrite of_uint63_spec. apply binary_normalize_sign. apply Uint63.to_Z_bounded.
Qed.

Lemma of_u64_sign (z : Z) : Double.SF_positive_sign (Prim2SF (Double.of_u64 z)) = true.
Proof.
  unfold Double.of_u64. destruct (z <? 2 ^ 63)%Z; [apply of_uint63_sign|].
  rewrite mul_spec. apply SFmul_positive_sign; [apply of_uint63_sign|reflexivity].
Qed.

(** A sum of values that are not negative is not negative, and neither is
    its quotient by a converted count. *)
Lemma add_not_negative (x y : float) :
  (x <? 0) = false -> (y <? 0) = false -> (x + y <? 0) = false.
Proof.
  intros Hx Hy. apply negb_true_iff. rewrite <- not_negative_ltb, add_spec.
  apply SFadd_not_negative; rewrite not_negative_ltb; apply negb_true_iff; assumption.
Qed.

Lemma div_count_not_negative (x : float) (n : Z) :
  (x <? 0) = false -> (x / Double.of_u64 n <? 0) = false.
Proof.
  intros Hx. apply negb_true_iff. rewrite <- not_negative_ltb, div_spec.
  apply SFdiv_not_negative; [|apply of_u64_sign].
  rewrite not_negative_ltb. apply negb_true_iff. assumption.
Qed.
End DoubleFacts.

(** * Rounding of positive magnitudes *)

Module RoundingFacts.
Open Scope Z_scope.

Lemma digits2_pos_size (p : positive) : digits2_pos p = Pos.size p.
Proof. induction p as [p IH|p IH|]; simpl; congruence. Qed.

Lemma Zdigits2_log2 (m : Z) : 0 < m -> Zdigits2 m = Z.log2 m + 1.
Proof.
  destruct m as [|p|p]; try lia. intros _. simpl Zdigits2.
  rewrite digits2_pos_size. destruct p as [p|p|]; simpl; lia.
Qed.

Lemma shr_1_m (mrs : shr_record) : 0 <= shr_m mrs -> shr_m (shr_1 mrs) = shr_m mrs / 2.
Proof.
  destruct mrs as [m r s]. cbn [shr_m]. intros H.
  destruct m as [|[p|p|]|p]; cbn [shr_1 shr_m]; try lia; try reflexivity.
  - rewrite Pos2Z.inj_xI. apply Z.div_unique with (r := 1); lia.
  - rewrite Pos2Z.inj_xO. apply Z.div_unique with (r := 0); lia.
Qed.

Lemma iter_shr_1_m (p : positive) :
  forall mrs, 0 <= shr_m mrs ->
    shr_m (iter_pos shr_1 p mrs) = shr_m mrs / 2 ^ Zpos p.
Proof.
  induction p as [p IH|p IH|]; intros mrs H; simpl iter_pos.
  - assert (H1 : 0 <= shr_m (shr_1 mrs)) by (rewrite shr_1_m by assumption; apply Z.div_pos; lia).
    assert (H2 : 0 <= shr_m (iter_pos shr_1 p (shr_1 mrs)))
      by (rewrite IH by assumption; apply Z.div_pos; lia).
    rewrite IH, IH, shr_1_m by assumption.
    rewrite !Z.div_div by lia. f_equal.
    change (Z.pos p~1) with (2 * Z.pos p + 1).
    rewrite Z.pow_add_r, Z.pow_mul_r by lia.
    change (2 ^ 2) with 4. change (2 ^ 1) with 2.
    replace (4 ^ Zpos p) with (2 ^ Zpos p * 2 ^ Zpos p).
    + lia.
    + rewrite <- Z.pow_mul_l. reflexivity.
  - assert (H2 : 0 <= shr_m (iter_pos shr_1 p mrs))
      by (rewrite IH by assumption; apply Z.div_pos; lia).
    rewrite IH, IH by assumption.
    rewrite !Z.div_div by lia. f_equal.
    change (Z.pos p~0) with (2 * Z.pos p).
    rewrite Z.pow_mul_r by lia. change (2 ^ 2) with 4.
    rewrite <- Z.pow_mul_l. reflexivity.
  - rewrite shr_1_m by assumption. reflexivity.
Qed.

Lemma fexp64 (x : Z) : fexp prec emax x = Z.max (x - 53) (-1074).
Proof. reflexivity. Qed.

Lemma shr_record_of_loc_m m l : shr_m (shr_record_of_loc m l) = m.
Proof. destruct l as [|[]]; reflexivity. Qed.

(** One normalising shift keeps the magnitude positive and its scale. *)
Lemma shr_fexp_facts (m e : Z) (l : location) :
  0 < m -> -1074 <= e ->
  0 < shr_m (fst (shr_fexp prec emax m e l)) /\
  snd (shr_fexp prec emax m e l) = Z.max e (fexp prec emax (Zdigits2 m + e)) /\
  Zdigits2 (shr_m (fst (shr_fexp prec emax m e l))) + snd (shr_fexp prec emax m e l)
    = Zdigits2 m + e.
Proof.
  intros Hm He. unfold shr_fexp, shr. rewrite fexp64.
  rewrite (Zdigits2_log2 m Hm).
  pose proof (Z.log2_nonneg m) as Hl.
  destruct (Z.max (Z.log2 m + 1 + e - 53) (-1074) - e) as [|p|p] eqn:En; simpl fst; simpl snd.
  - rewrite shr_record_of_loc_m, (Zdigits2_log2 m Hm). lia.
  - rewrite iter_shr_1_m by (rewrite shr_record_of_loc_m; lia).
    rewrite shr_record_of_loc_m.
    assert (Hp : Zpos p <= Z.log2 m) by lia.
    assert (Hpos : 0 < m / 2 ^ Zpos p).
    { apply Z.div_str_pos. split; [lia|].
      apply Z.le_trans with (2 ^ Z.log2 m); [apply Z.pow_le_mono_r; lia|].
      apply Z.log2_spec, Hm. }
    split; [exact Hpos|]. split; [lia|].
    rewrite (Zdigits2_log2 _ Hpos), <- Z.shiftr_div_pow2, Z.log2_shiftr by lia. lia.
  - rewrite shr_record_of_loc_m, (Zdigits2_log2 m Hm). lia.
Qed.

Lemma round_nearest_even_bounds (m : Z) (l : location) :
  m <= round_nearest_even m l <= m + 1.
Proof. destruct l as [|[]]; simpl; try destruct (Z.even m); lia. Qed.

(** Rounding a positive magnitude within the exponent range gives a
    positive finite value. *)
Lemma binary_round_aux_finite (m e : Z) (l : location) :
  0 < m -> -1074 <= e <= 971 -> Zdigits2 m + e <= 1023 ->
  exists m' e',
    binary_round_aux prec emax false m e l = S754_finite false m' e' /\
    e <= e' <= 971 /\ Zdigits2 (Zpos m') + e' <= Zdigits2 m + e + 1.
Proof.
  intros Hm He Hd. unfold binary_round_aux.
  destruct (shr_fexp_facts m e l Hm (proj1 He)) as (P1 & E1 & D1).
  destruct (shr_fexp prec emax m e l) as [mrs1 e1]. simpl in P1, E1, D1.
  set (m2 := round_nearest_even (shr_m mrs1) (loc_of_shr_record mrs1)).
  pose proof (round_nearest_even_bounds (shr_m mrs1) (loc_of_shr_record mrs1)) as B2.
  fold m2 in B2.
  assert (Hm2 : 0 < m2) by lia.
  assert (He1 : -1074 <= e1) by (rewrite E1; lia).
  assert (D2 : Zdigits2 m2 <= Zdigits2 (shr_m mrs1) + 1).
  { rewrite (Zdigits2_log2 _ Hm2), (Zdigits2_log2 _ P1).
    destruct (Z.eq_dec m2 (shr_m mrs1)) as [->|N]; [lia|].
    replace m2 with (Z.succ (shr_m mrs1)) by lia.
    pose proof (Z.log2_succ_le (shr_m mrs1)). lia. }
  destruct (shr_fexp_facts m2 e1 loc_Exact Hm2 He1) as (P3 & E3 & D3).
  destruct (shr_fexp prec emax m2 e1 loc_Exact) as [mrs3 e3]. simpl in P3, E3, D3.
  rewrite fexp64 in E1, E3.
  destruct (shr_m mrs3) as [|m3|m3] eqn:Em3; try lia.
  assert (Hle : e3 <= 971) by lia.
  replace (e3 <=? emax - prec) with true
    by (symmetry; apply Z.leb_le; exact Hle).
  exists m3, e3. split; [reflexivity|]. split; lia.
Qed.

Lemma digits2_iter_xO (k p : positive) :
  Zpos (digits2_pos (Pos.iter xO p k)) = Zpos (digits2_pos p) + Zpos k.
Proof.
  revert p. induction k as [|k IH] using Pos.peano_ind; intros p.
  - simpl. lia.
  - rewrite Pos.iter_succ. simpl digits2_pos. rewrite Pos2Z.inj_succ, IH. lia.
Qed.

Lemma binary_round_finite (p : positive) (e : Z) :
  -1074 <= e <= 971 -> Zpos (digits2_pos p) + e <= 1023 ->
  exists m' e',
    binary_round prec emax false p e = S754_finite false m' e' /\
    Z.min e (fexp prec emax (Zpos (digits2_pos p) + e)) <= e' <= 971 /\
    Zdigits2 (Zpos m') + e' <= Zpos (digits2_pos p) + e + 1.
Proof.
  intros He Hd. unfold binary_round, shl_align. rewrite fexp64.
  destruct (Z.max (Zpos (digits2_pos p) + e - 53) (-1074) - e) as [|k|k] eqn:Ek.
  - destruct (binary_round_aux_finite (Zpos p) e loc_Exact) as (m' & e' & R & B & D);
      [lia|lia|simpl Zdigits2; lia|].
    exists m', e'. split; [exact R|]. simpl Zdigits2 in *. lia.
  - destruct (binary_round_aux_finite (Zpos p) e loc_Exact) as (m' & e' & R & B & D);
      [lia|lia|simpl Zdigits2; lia|].
    exists m', e'. split; [exact R|]. simpl Zdigits2 in *. lia.
  - set (e0 := Z.max (Zpos (digits2_pos p) + e - 53) (-1074)) in *.
    destruct (binary_round_aux_finite (Zpos (Pos.iter xO p k)) e0 loc_Exact)
      as (m' & e' & R & B & D).
    + lia.
    + lia.
    + simpl Zdigits2. rewrite digits2_iter_xO. lia.
    + exists m', e'. split; [exact R|]. simpl Zdigits2 in *.
      rewrite digits2_iter_xO in D. lia.
Qed.

Lemma Zdigits2_bound (m b : Z) : 0 < m -> 0 <= b -> m < 2 ^ b -> Zdigits2 m <= b.
Proof.
  intros Hm Hb H. rewrite (Zdigits2_log2 m Hm).
  apply (Z.log2_lt_pow2 m b Hm) in H. lia.
Qed.

Lemma binary_normalize_finite (z : Z) :
  0 < z < 2 ^ 63 ->
  exists m' e',
    binary_normalize prec emax z 0 false = S754_finite false m' e' /\
    -52 <= e' <= 971 /\ Zdigits2 (Zpos m') + e' <= 64.
Proof.
  intros Hz. destruct z as [|p|p]; try lia. simpl binary_normalize.
  pose proof (Zdigits2_bound (Zpos p) 63 ltac:(lia) ltac:(lia) (proj2 Hz)) as Hd.
  simpl Zdigits2 in Hd.
  assert (H1 : 1 <= Zpos (digits2_pos p)) by lia.
  destruct (binary_round_finite p 0) as (m' & e' & R & B & D); [lia|lia|].
  exists m', e'. split; [exact R|]. rewrite fexp64 in B. lia.
Qed.

Lemma SFmul_two_finite (m : positive) (e : Z) :
  -52 <= e <= 900 -> Zdigits2 (Zpos m) + e <= 64 ->
  exists m' e', SF64mul (S754_finite false m e) (Prim2SF 2) = S754_finite false m' e'.
Proof.
  intros He Hd. change (Prim2SF 2) with (S754_finite false 4503599627370496 (-51)).
  unfold SF64mul, SFmul. simpl xorb.
  destruct (binary_round_aux_finite (Zpos (m * 4503599627370496)) (e + -51) loc_Exact)
    as (m' & e' & R & _).
  - lia.
  - lia.
  - rewrite Zdigits2_log2 by lia. rewrite Zdigits2_log2 in Hd by lia.
    rewrite Pos2Z.inj_mul. change (Zpos 4503599627370496) with (2 ^ 52).
    rewrite Z.log2_mul_pow2 by lia. lia.
  - exists m', e'. exact R.
Qed.

Lemma to_Z_of_Z_small (z : Z) : 0 <= z < 2 ^ 63 -> Uint63.to_Z (Uint63.of_Z z) = z.
Proof.
  intros H. rewrite Uint63.of_Z_spec. apply Z.mod_small. exact H.
Qed.

Lemma sticky_half_range (z : Z) :
  2 ^ 63 <= z < 2 ^ 64 -> 0 < Z.lor (Z.shiftr z 1) (Z.land z 1) < 2 ^ 63.
Proof.
  intros H.
  assert (Ha : 0 <= Z.shiftr z 1) by (apply Z.shiftr_nonneg; lia).
  assert (Hb : 0 <= Z.land z 1) by (apply Z.land_nonneg; lia).
  assert (Hl : Z.log2 z = 63).
  { apply Z.log2_unique; [lia|]. change (Z.succ 63) with 64. exact H. }
  assert (Hla : Z.log2 (Z.shiftr z 1) = 62) by (rewrite Z.log2_shiftr by lia; lia).
  assert (Hanz : 0 < Z.shiftr z 1).
  { destruct (Z.eq_dec (Z.shiftr z 1) 0) as [E|N]; [|lia].
    rewrite E in Hla. discriminate Hla. }
  assert (Hlb : Z.log2 (Z.land z 1) <= 0).
  { change 1 with (Z.ones 1). rewrite Z.land_ones by lia.
    assert (0 <= z mod 2 ^ 1 < 2) by (apply Z.mod_pos_bound; lia).
    destruct (Z.eq_dec (z mod 2 ^ 1) 0) as [->|N]; [reflexivity|].
    replace (z mod 2 ^ 1) with 1 by lia. reflexivity. }
  assert (Hnn : 0 <= Z.lor (Z.shiftr z 1) (Z.land z 1)) by (apply Z.lor_nonneg; split; lia).
  assert (Hnz : Z.lor (Z.shiftr z 1) (Z.land z 1) <> 0).
  { intros E. apply Z.lor_eq_0_iff in E. lia. }
  split; [lia|].
  apply Z.log2_lt_pow2; [lia|]. rewrite Z.log2_lor by lia. lia.
Qed.

Lemma of_uint63_finite (z : Z) :
  0 < z < 2 ^ 63 ->
  exists m e,
    Prim2SF (of_uint63 (Uint63.of_Z z)) = S754_finite false m e /\
    -52 <= e <= 971 /\ Zdigits2 (Zpos m) + e <= 64.
Proof.
  intros H. rewrite of_uint63_spec, to_Z_of_Z_small by lia.
  apply binary_normalize_finite, H.
Qed.

(** A count between 1 and [2^64 - 1] converts to a positive finite value. *)
Lemma of_u64_finite (z : Z) :
  (0 < z < 2 ^ 64)%Z -> exists m e, Prim2SF (Double.of_u64 z) = S754_finite false m e.
Proof.
  intros H. unfold Double.of_u64. destruct (z <? 2 ^ 63)%Z eqn:E.
  - apply Z.ltb_lt in E.
    destruct (of_uint63_finite z) as (m & e & R & _); [lia|]. eauto.
  - apply Z.ltb_ge in E.
    destruct (of_uint63_finite _ (sticky_half_range z (conj E (proj2 H))))
      as (m & e & R & Be & Bd).
    rewrite mul_spec, R. apply SFmul_two_finite; [|exact Bd].
    assert (1 <= Zdigits2 (Zpos m))%Z by (simpl; lia). lia.
Qed.

Lemma shr_fexp_nonneg (m e : Z) (l : location) :
  (0 <= m)%Z -> (0 <= shr_m (fst (shr_fexp prec emax m e l)))%Z.
Proof.
  intros H. unfold shr_fexp, shr.
  destruct (_ - e)%Z as [|p|p]; simpl fst; try (rewrite shr_record_of_loc_m; exact H).
  rewrite iter_shr_1_m by (rewrite shr_record_of_loc_m; exact H).
  rewrite shr_record_of_loc_m. apply Z.div_pos; lia.
Qed.

Lemma binary_round_aux_nonneg (m e : Z) (l : location) :
  (0 <= m)%Z -> Double.SF_nonneg (binary_round_aux prec emax false m e l) = true.
Proof.
  intros H. unfold binary_round_aux.
  pose proof (shr_fexp_nonneg m e l H) as H1.
  destruct (shr_fexp prec emax m e l) as [mrs1 e1]. simpl in H1.
  pose proof (round_nearest_even_bounds (shr_m mrs1) (loc_of_shr_record mrs1)) as B.
  pose proof (shr_fexp_nonneg (round_nearest_even (shr_m mrs1) (loc_of_shr_record mrs1))
                e1 loc_Exact ltac:(lia)) as H3.
  destruct (shr_fexp prec emax _ e1 loc_Exact) as [mrs3 e3]. simpl in H3.
  destruct (shr_m mrs3) as [|m3|m3]; try lia; [reflexivity|].
  destruct (e3 <=? emax - prec)%Z; reflexivity.
Qed.

Lemma SFadd_nonneg (x y : spec_float) :
  Double.SF_nonneg x = true -> Double.SF_nonneg y = true -> Double.SF_nonneg (SF64add x y) = true.
Proof.
  destruct x as [sx|sx| |sx mx ex], y as [sy|sy| |sy my ey]; simpl;
    try discriminate;
    try (destruct sx; simpl; try discriminate);
    try (destruct sy; simpl; try discriminate);
    try reflexivity; intros _ _.
  unfold binary_round. destruct (shl_align _ _ _) as [mz ez].
  apply binary_round_aux_nonneg. lia.
Qed.

Lemma SFdiv_nonneg (x : spec_float) (my : positive) (ey : Z) :
  Double.SF_nonneg x = true -> Double.SF_nonneg (SF64div x (S754_finite false my ey)) = true.
Proof.
  destruct x as [sx|sx| |sx mx ex]; simpl; try discriminate;
    try (destruct sx; simpl; try discriminate); try reflexivity; intros _.
  unfold SF64div, SFdiv, SFdiv_core_binary.
  set (s := (ex - ey - _)%Z).
  set (m' := match s with Z0 => Zpos mx | Zpos _ => Z.shiftl (Zpos mx) s | Zneg _ => Z0 end).
  assert (Hm' : (0 <= m')%Z).
  { unfold m'. destruct s; try lia. apply Z.shiftl_nonneg. lia. }
  pose proof (Z_div_mod m' (Zpos my) ltac:(lia)) as Hdm.
  destruct (Z.div_eucl m' (Zpos my)) as [q r].
  apply binary_round_aux_nonneg. nia.
Qed.

Lemma nonneg_leb (x : float) : Double.SF_nonneg (Prim2SF x) = (0 <=? x)%float.
Proof.
  rewrite FloatAxioms.leb_spec. change (Prim2SF 0) with (S754_zero false).
  destruct (Prim2SF x) as [s|s| |s m e]; try destruct s; reflexivity.
Qed.

(** A sum of values at or above zero is at or above zero, and so is its
    quotient by a converted count between 1 and [2^64 - 1]. *)
Lemma add_nonneg (x y : float) :
  (0 <=? x)%float = true -> (0 <=? y)%float = true -> (0 <=? x + y)%float = true.
Proof.
  rewrite <- !nonneg_leb, add_spec. apply SFadd_nonneg.
Qed.

Lemma div_count_nonneg (x : float) (n : Z) :
  0 < n < 2 ^ 64 ->
  (0 <=? x)%float = true -> (0 <=? x / Double.of_u64 n)%float = true.
Proof.
  intros Hn. rewrite <- !nonneg_leb, div_spec.
  destruct (of_u64_finite n Hn) as (m & e & ->). apply SFdiv_nonneg.
Qed.

(** A finite non-zero value divided by itself is exactly one. *)
Lemma SFdiv_self (s : bool) (m : positive) (e : Z) :
  SF64div (S754_finite s m e) (S754_finite s m e) = S754_finite false 4503599627370496 (-52).
Proof.
  unfold SF64div, SFdiv, SFdiv_core_binary.
  rewrite !Z.sub_diag.
  change (Z.min (fexp prec emax 0) 0) with (-53).
  change (0 - -53) with 53.
  rewrite Z.shiftl_mul_pow2 by lia.
  pose proof (Z_div_mod (Zpos m * 2 ^ 53) (Zpos m) ltac:(lia)) as H.
  destruct (Z.div_eucl (Zpos m * 2 ^ 53) (Zpos m)) as [q r].
  destruct H as [H1 H2].
  destruct (Z.div_mod_unique (Zpos m) q (2 ^ 53) r 0) as [-> ->]; [lia|lia|lia|].
  replace (xorb s s) with false by (destruct s; reflexivity).
  replace (new_location (Zpos m) 0) with loc_Exact
    by (unfold new_location; destruct (Z.even (Zpos m)); reflexivity).
  reflexivity.
Qed.

Lemma div_self (x : float) (m : positive) (e : Z) :
  Prim2SF x = S754_finite false m e -> (x / x)%float = 1%float.
Proof.
  intros H. apply Prim2SF_inj. rewrite div_spec, H. apply SFdiv_self.
Qed.
End RoundingFacts.

(** * The latency accumulator *)

Section LatencyFacts.
Open Scope float_scope.

Lemma recordLatency_count (x : float) (pm : PerformanceMonitor) :
  latency_count_ (recordLatency x pm) = U64.add (latency_count_ pm) 1.
Proof. unfold recordLatency. destruct (Double.gtb x _); reflexivity. Qed.

Lemma recordLatency_sum (x : float) (pm : PerformanceMonitor) :
  latency_sum_ (recordLatency x pm) = latency_sum_ pm + x.
Proof. unfold recordLatency. destruct (Double.gtb x _); reflexivity. Qed.

Lemma recordLatency_average (x : float) (pm : PerformanceMonitor) :
  getAverageLatency (recordLatency x pm) =
  (latency_sum_ pm + x) / Double.of_u64 (U64.add (latency_count_ pm) 1).
Proof. unfold recordLatency. destruct (Double.gtb x _); reflexivity. Qed.

Lemma recordLatency_max (x : float) (pm : PerformanceMonitor) :
  getMaxLatency (recordLatency x pm) =
  if getMaxLatency pm <? x then x else getMaxLatency pm.
Proof.
  unfold recordLatency, Double.gtb, getMaxLatency.
  destruct (max_latency_ms (metrics_ pm) <? x); reflexivity.
Qed.

Lemma record_all_snoc (l : list float) (x : float) (pm : PerformanceMonitor) :
  record_all (l ++ [x]) pm = recordLatency x (record_all l pm).
Proof. unfold record_all. rewrite fold_left_app. reflexivity. Qed.

Lemma latency_total_snoc (l : list float) (x : float) :
  latency_total (l ++ [x]) = latency_total l + x.
Proof. unfold latency_total. rewrite fold_left_app. reflexivity. Qed.

Lemma add_one (n : nat) :
  (Z.of_nat (S n) < U64.modulus)%Z ->
  U64.add (Z.of_nat n) 1 = Z.of_nat (S n).
Proof.
  intros H. unfold U64.add, U64.wrap.
  rewrite Z.mod_small; unfold U64.modulus in *; lia.
Qed.

(** Recording one more value keeps a greatest element greatest. *)
Lemma is_maximum_of_step (m x : float) (l : list float) :
  is_maximum_of m l ->
  is_maximum_of (if m <? x then x else m) (l ++ [x]).
Proof.
  intros [Hin Hub]. destruct (m <? x) eqn:E; split.
  - apply in_or_app. right. left. reflexivity.
  - intros y Hy. apply in_app_or in Hy. destruct Hy as [Hy|[<-|[]]].
    + destruct (x <? y) eqn:E'; [|reflexivity].
      rewrite <- (Hub y Hy). symmetry. exact (DoubleFacts.ltb_trans _ _ _ E E').
    + apply DoubleFacts.ltb_irrefl.
  - apply in_or_app. left. exact Hin.
  - intros y Hy. apply in_app_or in Hy. destruct Hy as [Hy|[<-|[]]].
    + apply Hub, Hy.
    + exact E.
Qed.

Lemma default_monitor_cleared : latency_cleared default_monitor.
Proof. repeat split. Qed.

(** The state of the accumulator after a run of recordings. *)
Lemma record_all_state (pm : PerformanceMonitor) (l : list float) :
  latency_cleared pm ->
  (Z.of_nat (List.length l) < U64.modulus)%Z ->
  latency_count_ (record_all l pm) = Z.of_nat (List.length l) /\
  latency_sum_ (record_all l pm) = latency_total l /\
  (l <> [] ->
   getAverageLatency (record_all l pm) =
   latency_total l / Double.of_u64 (Z.of_nat (List.length l))) /\
  is_maximum_of (getMaxLatency (record_all l pm)) ((0 :: l)%list).
Proof.
  intros (Hc & Hs & Ha & Hm).
  induction l as [|x l IH] using rev_ind; intros Hlen.
  - simpl. repeat split; try assumption.
    + intros H. contradiction.
    + left. symmetry. exact Hm.
    + intros y [<-|[]]. rewrite Hm. apply DoubleFacts.ltb_irrefl.
  - rewrite length_app in Hlen |- *. simpl in Hlen |- *.
    replace (List.length l + 1)%nat with (S (List.length l)) in * by lia.
    destruct IH as (IHc & IHs & _ & IHm); [lia|].
    rewrite record_all_snoc, latency_total_snoc.
    rewrite recordLatency_count, recordLatency_sum, recordLatency_average, recordLatency_max.
    rewrite IHc, IHs, (add_one _ Hlen).
    repeat split; try reflexivity.
    + exact (proj1 (is_maximum_of_step _ x _ IHm)).
    + exact (proj2 (is_maximum_of_step _ x _ IHm)).
Qed.
End LatencyFacts.

(** * Alert evaluation and the sampler loop *)

Section AlertFacts.
Open Scope float_scope.

(** A block of [checkAlerts] calls its callback exactly when the alert is
    due, and does nothing otherwise. *)
Lemma check_alert_due (k : MetricKind) (pm : PerformanceMonitor) :
  alert_due k pm = true ->
  exists cb, callback_of k pm = Some cb /\
    check_alert k pm =
    invoke k cb (alert_name k) (alert_message k (current_of k pm) (threshold_of k pm)).
Proof.
  unfold alert_due, check_alert, Double.gtb.
  destruct (callback_of k pm) as [cb|]; [|discriminate].
  intros H. apply andb_prop in H. destruct H as [H1 H2].
  exists cb. rewrite H1, H2. split; reflexivity.
Qed.

Lemma check_alert_not_due (k : MetricKind) (pm : PerformanceMonitor) :
  alert_due k pm = false -> check_alert k pm = ret tt.
Proof.
  unfold alert_due, check_alert, Double.gtb.
  destruct (callback_of k pm) as [cb|]; [|reflexivity].
  destruct (0 <? threshold_of k pm); [|reflexivity].
  destruct (threshold_of k pm <? current_of k pm); [discriminate|reflexivity].
Qed.

(** The shape of the result of one block. *)
Lemma check_alert_shape (k : MetricKind) (pm : PerformanceMonitor) :
  (alert_due k pm = false /\ check_alert k pm = ([], Normal tt)) \/
  (alert_due k pm = true /\ exists a m r, check_alert k pm = ([Invoke k a m], r)).
Proof.
  destruct (alert_due k pm) eqn:E.
  - right. split; [reflexivity|].
    destruct (check_alert_due k pm E) as (cb & _ & ->).
    unfold invoke. eauto.
  - left. split; [reflexivity|]. apply check_alert_not_due, E.
Qed.

Lemma invocations_checkAlerts (k : MetricKind) (pm : PerformanceMonitor) :
  invocations k (fst (checkAlerts pm)) =
  if reached k pm && alert_due k pm then 1%nat else 0%nat.
Proof.
  unfold checkAlerts, reached, completes, bind.
  destruct (check_alert_shape LatencyKind pm) as [[E1 C1]|[E1 (a1 & m1 & r1 & C1)]];
  destruct (check_alert_shape MemoryKind pm) as [[E2 C2]|[E2 (a2 & m2 & r2 & C2)]];
  destruct (check_alert_shape CpuKind pm) as [[E3 C3]|[E3 (a3 & m3 & r3 & C3)]];
  rewrite C1, C2, C3;
  try destruct r1 as [[]|e1]; try destruct r2 as [[]|e2];
  destruct k; rewrite ?E1, ?E2, ?E3; reflexivity.
Qed.

Lemma checkAlerts_outcome (pm : PerformanceMonitor) :
  snd (checkAlerts pm) = first_raised pm.
Proof.
  unfold checkAlerts, first_raised, bind.
  destruct (check_alert LatencyKind pm) as [t1 [[]|e1]]; [|reflexivity].
  destruct (check_alert MemoryKind pm) as [t2 [[]|e2]]; [|reflexivity].
  destruct (check_alert CpuKind pm) as [t3 r3]. reflexivity.
Qed.
End AlertFacts.

Section LoopFacts.
Open Scope float_scope.

Lemma getCurrentCpuUsage_frame (stat : option CpuTimes) (now : Z) (pm : PerformanceMonitor) :
  snd (getCurrentCpuUsage stat now pm) = pm \/
  exists t, snd (getCurrentCpuUsage stat now pm) = with_cpu_baseline now t pm.
Proof.
  unfold getCurrentCpuUsage. destruct stat as [c|]; [|left; reflexivity].
  right. exists (total_of c).
  destruct (_ && _)%bool; [destruct (0 <? _)%Z|]; reflexivity.
Qed.

(** Sampling writes gauges and the CPU baseline only. *)
Lemma sample_gauges_frame (env : TickEnv) (pm : PerformanceMonitor) :
  (forall k, callback_of k (sample_gauges env pm) = callback_of k pm) /\
  monitoring_enabled_ (sample_gauges env pm) = monitoring_enabled_ pm /\
  monitoring_interval_ms_ (sample_gauges env pm) = monitoring_interval_ms_ pm.
Proof.
  unfold sample_gauges.
  destruct (getCurrentCpuUsage_frame (proc_stat env) (steady_now env)
              (recordMemoryUsage (getCurrentMemoryUsage (ru_maxrss env)) pm)) as [E|[t E]];
    destruct (getCurrentCpuUsage _ _ _) as [cpu pm2]; simpl in E; subst pm2;
    (split; [intros []; reflexivity | split; reflexivity]).
Qed.

Lemma callbacks_std_only_sample (env : TickEnv) (pm : PerformanceMonitor) :
  callbacks_std_only pm -> callbacks_std_only (sample_gauges env pm).
Proof.
  intros H k. rewrite (proj1 (sample_gauges_frame env pm) k). apply H.
Qed.

Lemma check_alert_std_only (k : MetricKind) (pm : PerformanceMonitor) :
  callbacks_std_only pm -> snd (check_alert k pm) <> Raised ForeignException.
Proof.
  intros H. destruct (alert_due k pm) eqn:E.
  - destruct (check_alert_due k pm E) as (cb & Hcb & ->). simpl.
    apply (H k cb _ _ Hcb).
  - rewrite (check_alert_not_due k pm E). discriminate.
Qed.

Lemma checkAlerts_std_only (pm : PerformanceMonitor) :
  callbacks_std_only pm -> snd (checkAlerts pm) <> Raised ForeignException.
Proof.
  intros H. rewrite checkAlerts_outcome. unfold first_raised.
  pose proof (check_alert_std_only LatencyKind pm H) as H1.
  pose proof (check_alert_std_only MemoryKind pm H) as H2.
  pose proof (check_alert_std_only CpuKind pm H) as H3.
  destruct (snd (check_alert LatencyKind pm)) as [[]|e1]; [|exact H1].
  destruct (snd (check_alert MemoryKind pm)) as [[]|e2]; [|exact H2].
  exact H3.
Qed.

(** What one iteration does, by the outcome of its alert pass. *)
Lemma loop_body_cases (env : TickEnv) (pm : PerformanceMonitor) :
  let pm3 := sample_gauges env pm in
  match snd (checkAlerts pm3) with
  | Normal _ =>
      loop_body env pm =
      (fst (checkAlerts pm3) ++
         [LogPerformance (getMetrics (wall_now env) pm3); Sleep (monitoring_interval_ms_ pm3)],
       pm3, true)
  | Raised (StdException what) =>
      loop_body env pm =
      (fst (checkAlerts pm3) ++ [Log ERROR ("Error in performance monitoring loop: " ++ what)],
       pm3, true)
  | Raised ForeignException => loop_body env pm = (fst (checkAlerts pm3), pm3, false)
  end.
Proof.
  unfold loop_body. simpl.
  destruct (checkAlerts (sample_gauges env pm)) as [t [[]|[w|]]]; reflexivity.
Qed.

Lemma loop_body_continues (env : TickEnv) (pm : PerformanceMonitor) :
  callbacks_std_only pm ->
  snd (loop_body env pm) = true /\ snd (fst (loop_body env pm)) = sample_gauges env pm.
Proof.
  intros H. pose proof (loop_body_cases env pm) as C. simpl in C.
  pose proof (checkAlerts_std_only _ (callbacks_std_only_sample env pm H)) as N.
  destruct (snd (checkAlerts (sample_gauges env pm))) as [[]|[w|]];
    try (rewrite C; split; reflexivity).
  contradiction.
Qed.

(** With callbacks that raise standard exceptions only, the loop runs every
    iteration up to the first one at which it sees the cancellation. *)
Lemma monitoringLoop_status (envs : list TickEnv) (pm : PerformanceMonitor) :
  callbacks_std_only pm ->
  monitoring_enabled_ pm = true ->
  snd (monitoringLoop envs pm) = if List.existsb cancelled envs then Exited else Running.
Proof.
  revert pm. induction envs as [|env rest IH]; intros pm Hcb Hen; [reflexivity|].
  simpl. destruct (cancelled env); simpl; [reflexivity|].
  rewrite Hen.
  destruct (loop_body_continues env pm Hcb) as [Hgo Hpm].
  destruct (loop_body env pm) as [[t pm1] go]. simpl in Hgo, Hpm. subst go pm1.
  specialize (IH (sample_gauges env pm) (callbacks_std_only_sample env pm Hcb)).
  rewrite (proj1 (proj2 (sample_gauges_frame env pm))) in IH. specialize (IH Hen).
  destruct (monitoringLoop rest (sample_gauges env pm)) as [[t' pm2] st]. exact IH.
Qed.
End LoopFacts.

(** * Lifecycle *)

Section LifecycleFacts.

Lemma fresh_process_inv : lifecycle_inv fresh_process.
Proof. unfold lifecycle_inv. simpl. auto. Qed.

Lemma incrementCounter_lifecycle (k : CounterKind) (pm : PerformanceMonitor) :
  running_ (incrementCounter k pm) = running_ pm /\
  monitoring_enabled_ (incrementCounter k pm) = monitoring_enabled_ pm /\
  monitoring_thread_ (incrementCounter k pm) = monitoring_thread_ pm /\
  monitoring_interval_ms_ (incrementCounter k pm) = monitoring_interval_ms_ pm.
Proof. destruct k; repeat split. Qed.

Lemma recordLatency_lifecycle (x : float) (pm : PerformanceMonitor) :
  running_ (recordLatency x pm) = running_ pm /\
  monitoring_enabled_ (recordLatency x pm) = monitoring_enabled_ pm /\
  monitoring_thread_ (recordLatency x pm) = monitoring_thread_ pm /\
  monitoring_interval_ms_ (recordLatency x pm) = monitoring_interval_ms_ pm.
Proof. unfold recordLatency. destruct (Double.gtb x _); repeat split. Qed.

(** Operations on the metrics leave the lifecycle fields alone. *)
Lemma on_monitor_inv (f : PerformanceMonitor -> PerformanceMonitor) (p : Process) :
  (forall pm, running_ (f pm) = running_ pm /\
              monitoring_enabled_ (f pm) = monitoring_enabled_ pm /\
              monitoring_thread_ (f pm) = monitoring_thread_ pm) ->
  lifecycle_inv p -> lifecycle_inv (on_monitor f p).
Proof.
  intros Hf. unfold lifecycle_inv, on_monitor. simpl.
  destruct (Hf (monitor p)) as (-> & -> & ->). auto.
Qed.

Lemma emit_inv (t : list Event) (p : Process) : lifecycle_inv p -> lifecycle_inv (emit t p).
Proof. unfold lifecycle_inv, emit. simpl. auto. Qed.

Lemma start_inv (p : Process) :
  lifecycle_inv p -> exists p', start p = Ok p' /\ lifecycle_inv p'.
Proof.
  unfold lifecycle_inv, start.
  destruct (running_ (monitor p)) eqn:R.
  - intros H. eexists. split; [reflexivity|].
    unfold lifecycle_inv, emit. simpl. rewrite R. exact H.
  - intros (He & Hl & Ht).
    destruct (monitoring_thread_ (monitor p)) as [old|].
    + rewrite Ht. eexists. split; [reflexivity|].
      unfold lifecycle_inv. simpl. rewrite Hl. eauto.
    + eexists. split; [reflexivity|].
      unfold lifecycle_inv. simpl. rewrite Hl. eauto.
Qed.

Lemma stop_inv (p : Process) : lifecycle_inv p -> lifecycle_inv (stop p).
Proof.
  unfold stop. intros H. pose proof H as H'. unfold lifecycle_inv in H'.
  destruct (running_ (monitor p)) eqn:R; simpl; [|exact H].
  destruct H' as (_ & t & -> & Hl). simpl.
  unfold lifecycle_inv. simpl. rewrite Hl. simpl.
  destruct (Nat.eq_dec t t) as [_|N]; [auto|contradiction].
Qed.

Lemma apply_op_inv (o : Op) (p : Process) :
  lifecycle_inv p -> exists p', apply_op o p = Ok p' /\ lifecycle_inv p'.
Proof.
  intros H. destruct o; simpl.
  - eexists. split; [reflexivity|]. apply emit_inv, on_monitor_inv; [|exact H].
    intros pm. repeat split.
  - apply start_inv, H.
  - eexists. split; [reflexivity|]. apply stop_inv, H.
  - eexists. split; [reflexivity|]. apply on_monitor_inv; [|exact H].
    intros pm. destruct (incrementCounter_lifecycle k pm) as (A & B & C & _). auto.
  - eexists. split; [reflexivity|]. apply on_monitor_inv; [|exact H].
    intros pm. destruct (recordLatency_lifecycle latency_ms pm) as (A & B & C & _). auto.
  - eexists. split; [reflexivity|]. apply on_monitor_inv; [|exact H].
    intros pm. repeat split.
  - eexists. split; [reflexivity|]. apply on_monitor_inv; [|exact H].
    intros pm. repeat split.
  - eexists. split; [reflexivity|]. apply emit_inv.
    unfold lifecycle_inv, on_monitor in *. simpl. exact H.
Qed.

(** No sequence of operations ends the process, and the invariant holds
    after each of them. *)
Lemma run_ops_inv (ops : list Op) (p : Process) :
  lifecycle_inv p -> exists p', run_ops ops p = Ok p' /\ lifecycle_inv p'.
Proof.
  revert p. induction ops as [|o rest IH]; intros p H; simpl.
  - eauto.
  - destruct (apply_op_inv o p H) as (p1 & -> & H1). apply IH, H1.
Qed.

Lemma lifecycle_inv_live (p : Process) :
  lifecycle_inv p ->
  List.length (live p) = if running_ (monitor p) then 1%nat else 0%nat.
Proof.
  unfold lifecycle_inv. destruct (running_ (monitor p)).
  - intros (_ & t & _ & ->). reflexivity.
  - intros (_ & -> & _). reflexivity.
Qed.
End LifecycleFacts.

Section IntervalFacts.

Lemma apply_op_interval (o : Op) (p p' : Process) :
  is_initialize o = false ->
  apply_op o p = Ok p' ->
  monitoring_interval_ms_ (monitor p') = monitoring_interval_ms_ (monitor p).
Proof.
  destruct o; simpl; try discriminate; intros _ E.
  - unfold start in E.
    destruct (running_ (monitor p)); [injection E as <-; reflexivity|].
    destruct (monitoring_thread_ (monitor p)) as [old|];
      [destruct (joinable old); [discriminate|]|]; injection E as <-; reflexivity.
  - injection E as <-. unfold stop.
    destruct (running_ (monitor p)); simpl; [|reflexivity].
    destruct (monitoring_thread_ (monitor p)) as [t|]; [destruct (joinable t)|]; reflexivity.
  - injection E as <-. simpl. apply incrementCounter_lifecycle.
  - injection E as <-. simpl. apply recordLatency_lifecycle.
  - injection E as <-. reflexivity.
  - injection E as <-. reflexivity.
  - injection E as <-. reflexivity.
Qed.

Lemma run_ops_interval (ops : list Op) (p p' : Process) :
  never_initialized ops = true ->
  run_ops ops p = Ok p' ->
  monitoring_interval_ms_ (monitor p') = monitoring_interval_ms_ (monitor p).
Proof.
  revert p. induction ops as [|o rest IH]; simpl; intros p Hn E.
  - injection E as <-. reflexivity.
  - apply andb_prop in Hn. destruct Hn as [Ho Hr].
    apply negb_true_iff in Ho.
    destruct (apply_op o p) as [p1|] eqn:E1; [|discriminate].
    rewrite (IH p1 Hr E). apply (apply_op_interval o p p1 Ho E1).
Qed.
End IntervalFacts.

(** * Counters under concurrent producers *)

Section CounterFacts.
Open Scope Z_scope.

Lemma wrap_range (z : Z) : U64.in_range (U64.wrap z).
Proof. unfold U64.in_range, U64.wrap, U64.modulus. apply Z.mod_pos_bound. lia. Qed.

Lemma wrap_small (z : Z) : U64.in_range z -> U64.wrap z = z.
Proof. unfold U64.in_range, U64.wrap. intros H. apply Z.mod_small, H. Qed.

Lemma wrap_add_l (a b : Z) : U64.wrap (U64.wrap a + b) = U64.wrap (a + b).
Proof. unfold U64.wrap. apply Zplus_mod_idemp_l. Qed.

(** One increment adds one, modulo [2^64], to the counter it names and
    leaves the other two alone. *)
Lemma incrementCounter_counter (k k' : CounterKind) (pm : PerformanceMonitor) :
  counter_of k (incrementCounter k' pm) =
  if counter_kind_eqb k k' then U64.wrap (counter_of k pm + 1) else counter_of k pm.
Proof. destruct k, k'; reflexivity. Qed.

Lemma calls_of_cons (k k' : CounterKind) (prog : list CounterKind) :
  calls_of k (k' :: prog) = (if counter_kind_eqb k k' then 1 else 0) + calls_of k prog.
Proof.
  unfold calls_of. cbn [List.filter].
  destruct (counter_kind_eqb k k'); cbn [List.length]; lia.
Qed.

Lemma step_thread_calls (k : CounterKind) (i : nat) (ps ps' : Programs) (k' : CounterKind) :
  step_thread i ps = Some (k', ps') ->
  total_calls k ps = (if counter_kind_eqb k k' then 1 else 0) + total_calls k ps'.
Proof.
  revert i ps'. induction ps as [|prog rest IH]; intros i ps' E; [discriminate|].
  destruct i as [|j].
  - destruct prog as [|k0 prog]; simpl in E; [discriminate|].
    injection E as <- <-. simpl. rewrite calls_of_cons. lia.
  - simpl in E. destruct (step_thread j rest) as [[k1 rest']|] eqn:E1.
    + assert (E2 : Some (k1, prog :: rest') = Some (k', ps'))
        by (destruct prog; exact E).
      injection E2 as <- <-. simpl. rewrite (IH j rest' E1). lia.
    + destruct prog; discriminate.
Qed.

Lemma total_calls_done (k : CounterKind) (ps : Programs) : all_done ps -> total_calls k ps = 0.
Proof.
  induction 1 as [|prog rest Hp _ IH]; [reflexivity|].
  simpl. rewrite IH, Hp. reflexivity.
Qed.

(** Whatever the interleaving, a counter has advanced by the number of
    increments of it that have been taken out of the programs. *)
Lemma run_schedule_counter (k : CounterKind) (sched : list nat) :
  forall (ps ps' : Programs) (pm pm' : PerformanceMonitor),
    U64.in_range (counter_of k pm) ->
    run_schedule sched ps pm = Some (ps', pm') ->
    counter_of k pm' = U64.wrap (counter_of k pm + (total_calls k ps - total_calls k ps')).
Proof.
  induction sched as [|i rest IH]; intros ps ps' pm pm' Hr E; simpl in E.
  - injection E as <- <-. rewrite Z.sub_diag, Z.add_0_r. symmetry. apply wrap_small, Hr.
  - destruct (step_thread i ps) as [[k' ps1]|] eqn:E1; [|discriminate].
    pose proof (step_thread_calls k i ps ps1 k' E1) as Ht.
    pose proof (incrementCounter_counter k k' pm) as Hc.
    assert (Hr1 : U64.in_range (counter_of k (incrementCounter k' pm))).
    { rewrite Hc. destruct (counter_kind_eqb k k'); [apply wrap_range|exact Hr]. }
    rewrite (IH ps1 ps' _ pm' Hr1 E), Hc, Ht.
    destruct (counter_kind_eqb k k').
    + rewrite wrap_add_l. f_equal. lia.
    + f_equal.
Qed.

Lemma calls_of_repeat (k : CounterKind) (M : nat) : calls_of k (List.repeat k M) = Z.of_nat M.
Proof.
  induction M as [|M IH]; [reflexivity|].
  simpl List.repeat. rewrite calls_of_cons, IH. destruct k; simpl counter_kind_eqb; lia.
Qed.

Lemma total_calls_repeat (k : CounterKind) (N M : nat) :
  total_calls k (List.repeat (List.repeat k M) N) = Z.of_nat N * Z.of_nat M.
Proof.
  induction N as [|N IH]; [reflexivity|].
  simpl List.repeat. simpl total_calls. fold (total_calls k (List.repeat (List.repeat k M) N)).
  rewrite IH, calls_of_repeat. lia.
Qed.

(** Unless every program has ended, some thread can take a step. *)
Lemma step_or_done (ps : Programs) :
  all_done ps \/
  exists i k ps', step_thread i ps = Some (k, ps') /\ S (remaining ps') = remaining ps.
Proof.
  induction ps as [|prog rest IH].
  - left. constructor.
  - destruct prog as [|k prog].
    + destruct IH as [Hd|(i & k & rest' & Hs & Hr)].
      * left. constructor; [reflexivity|exact Hd].
      * right. exists (S i), k, ([] :: rest'). simpl. rewrite Hs. auto.
    + right. exists O, k, (prog :: rest). simpl. auto.
Qed.

(** Every set of programs can be run to its end. *)
Lemma complete_schedule_exists (n : nat) :
  forall (ps : Programs) (pm : PerformanceMonitor),
    remaining ps = n ->
    exists sched ps' pm', run_schedule sched ps pm = Some (ps', pm') /\ all_done ps'.
Proof.
  induction n as [|n IH]; intros ps pm Hn.
  - destruct (step_or_done ps) as [Hd|(i & k & ps1 & _ & Hr)]; [|lia].
    exists [], ps, pm. auto.
  - destruct (step_or_done ps) as [Hd|(i & k & ps1 & Hs & Hr)].
    + exists [], ps, pm. auto.
    + destruct (IH ps1 (incrementCounter k pm)) as (sched & ps' & pm' & Hrun & Hd); [lia|].
      exists (i :: sched), ps', pm'. simpl. rewrite Hs. auto.
Qed.
End CounterFacts.

(** * CPU sampling *)

Section CpuFacts.
Open Scope Z_scope.

(** The idle delta the source computes is the total delta. *)
Lemma idle_diff_is_total_diff (idle_time total_time last : Z) :
  U64.sub idle_time (U64.sub last (U64.sub total_time idle_time)) = U64.sub total_time last.
Proof.
  unfold U64.sub, U64.wrap.
  rewrite Zminus_mod_idemp_r.
  replace (idle_time - (last - (total_time - idle_time) mod U64.modulus))
    with ((total_time - idle_time) mod U64.modulus + (idle_time - last)) by lia.
  rewrite Zplus_mod_idemp_l. f_equal. lia.
Qed.

Lemma getCurrentCpuUsage_baseline (c : CpuTimes) (now : Z) (pm : PerformanceMonitor) :
  last_cpu_time_ (snd (getCurrentCpuUsage (Some c) now pm)) = total_of c /\
  last_cpu_check_ (snd (getCurrentCpuUsage (Some c) now pm)) = now.
Proof.
  unfold getCurrentCpuUsage.
  destruct (_ && _)%bool; [destruct (0 <? _)|]; simpl; auto.
Qed.

(** Since the two deltas coincide, the usage computed is [100 * (1 - 1)]:
    the function returns zero whatever it reads. *)
Lemma getCurrentCpuUsage_zero (stat : option CpuTimes) (now : Z) (pm : PerformanceMonitor) :
  fst (getCurrentCpuUsage stat now pm) = 0%float.
Proof.
  unfold getCurrentCpuUsage. destruct stat as [c|]; [|reflexivity].
  rewrite idle_diff_is_total_diff.
  destruct (_ && _)%bool; [|reflexivity].
  destruct (0 <? U64.sub (total_of c) (last_cpu_time_ pm)) eqn:E; [|reflexivity].
  apply Z.ltb_lt in E. simpl fst.
  pose proof (wrap_range (total_of c - last_cpu_time_ pm)) as R.
  fold (U64.sub (total_of c) (last_cpu_time_ pm)) in R. unfold U64.in_range, U64.modulus in R.
  destruct (RoundingFacts.of_u64_finite (U64.sub (total_of c) (last_cpu_time_ pm)))
    as (m & e & F); [lia|].
  rewrite (RoundingFacts.div_self _ m e F). reflexivity.
Qed.
End CpuFacts.

(** * Sign and monotonicity of the latency accumulator *)

Section LatencyInvariants.
Open Scope float_scope.

Lemma latency_total_nonneg (l : list float) :
  (forall x, List.In x l -> (0 <=? x) = true) -> (0 <=? latency_total l) = true.
Proof.
  induction l as [|x l IH] using rev_ind; intros H; [reflexivity|].
  rewrite latency_total_snoc. apply RoundingFacts.add_nonneg.
  - apply IH. intros y Hy. apply H, in_or_app. left. exact Hy.
  - apply H, in_or_app. right. left. reflexivity.
Qed.

Lemma latency_total_not_negative (l : list float) :
  (forall x, List.In x l -> (x <? 0) = false) -> (latency_total l <? 0) = false.
Proof.
  induction l as [|x l IH] using rev_ind; intros H; [reflexivity|].
  rewrite latency_total_snoc. apply DoubleFacts.add_not_negative.
  - apply IH. intros y Hy. apply H, in_or_app. left. exact Hy.
  - apply H, in_or_app. right. left. reflexivity.
Qed.

(** The stored maximum never drops below zero. *)
Lemma max_latency_nonneg (pm : PerformanceMonitor) (l : list float) :
  latency_cleared pm -> (0 <=? getMaxLatency (record_all l pm)) = true.
Proof.
  intros (_ & _ & _ & Hm).
  induction l as [|x l IH] using rev_ind; [simpl; rewrite Hm; reflexivity|].
  rewrite record_all_snoc, recordLatency_max.
  destruct (getMaxLatency (record_all l pm) <? x) eqn:E; [|exact IH].
  exact (DoubleFacts.leb_ltb_trans _ _ _ IH E).
Qed.

(** One more recording never lowers a maximum that is at or above zero. *)
Lemma max_latency_step (x : float) (pm : PerformanceMonitor) :
  (0 <=? getMaxLatency pm) = true ->
  (getMaxLatency pm <=? getMaxLatency (recordLatency x pm)) = true.
Proof.
  intros H. rewrite recordLatency_max.
  destruct (getMaxLatency pm <? x) eqn:E.
  - apply DoubleFacts.ltb_leb, E.
  - exact (DoubleFacts.leb_refl_r _ _ H).
Qed.
End LatencyInvariants.

(** * Properties of the monitor, by claim of the specification *)

Section Claims.
Open Scope float_scope.

(** C1 (amended). After any non-empty run of [recordLatency] calls on a
    fresh or reset accumulator (fewer than [2^64] calls), the stored average
    is the running sum of the recorded values divided by their count, and
    the stored maximum is the greatest element of the recorded values
    together with the initial [0.0]: it is one of them and none of them
    exceeds it. Recording 10, 20, 30 gives average 20 and maximum 30;
    recording 5 after that gives average 16.25 and maximum 30. *)
Theorem latency_average_and_max :
  (forall (pm : PerformanceMonitor) (l : list float),
     latency_cleared pm ->
     l <> [] ->
     (Z.of_nat (List.length l) < U64.modulus)%Z ->
     getAverageLatency (record_all l pm) =
       latency_total l / Double.of_u64 (Z.of_nat (List.length l)) /\
     is_maximum_of (getMaxLatency (record_all l pm)) ((0 :: l)%list)) /\
  (getAverageLatency (record_all [10; 20; 30] default_monitor) = 20 /\
   getMaxLatency (record_all [10; 20; 30] default_monitor) = 30 /\
   getAverageLatency (recordLatency 5 (record_all [10; 20; 30] default_monitor)) = 16.25 /\
   getMaxLatency (recordLatency 5 (record_all [10; 20; 30] default_monitor)) = 30).
Proof.
  split.
  - intros pm l Hclear Hne Hlen.
    destruct (record_all_state pm l Hclear Hlen) as (_ & _ & Havg & Hmax).
    split; [apply Havg, Hne | exact Hmax].
  - repeat split; vm_compute; reflexivity.
Qed.

(** The general statement at the four recordings 10, 20, 30, 5. *)
Lemma latency_average_and_max_witness :
  getAverageLatency (record_all [10; 20; 30; 5] default_monitor) =
    latency_total [10; 20; 30; 5] / Double.of_u64 4 /\
  is_maximum_of (getMaxLatency (record_all [10; 20; 30; 5] default_monitor))
    [0; 10; 20; 30; 5].
Proof.
  apply (proj1 latency_average_and_max default_monitor [10; 20; 30; 5]).
  - exact default_monitor_cleared.
  - discriminate.
  - reflexivity.
Defined.

(** C1 as stated fails on a negative recording: after [recordLatency(-5)]
    the stored maximum is still [0.0], which is not among the recorded
    values, so it is not their maximum. *)
Lemma latency_max_counterexample :
  getMaxLatency (record_all [-5] default_monitor) = 0 /\
  (is_maximum_of (getMaxLatency (record_all [-5] default_monitor)) [-5] -> False).
Proof.
  split; [vm_compute; reflexivity|].
  intros [[H|[]] _].
  assert (E : (-5 <? 0) = (getMaxLatency (record_all [-5] default_monitor) <? 0))
    by (rewrite <- H; reflexivity).
  vm_compute in E. discriminate E.
Qed.

(** C2. On the two synthetic samples (idle 100 of total 1000, then idle 150
    of total 1500, one second apart) [getCurrentCpuUsage] returns 0 where the
    formula of the claim gives 90. The idle delta it computes is always the
    total delta, so it returns 0 on every input; and every call that reads a
    sample overwrites the stored baseline, also when it reports 0. *)
Theorem cpu_usage_synthetic_samples :
  (let pm1 := snd (getCurrentCpuUsage (Some first_sample) 1000000000 initialized_monitor) in
   fst (getCurrentCpuUsage (Some first_sample) 1000000000 initialized_monitor) = 0 /\
   last_cpu_time_ pm1 = 1000%Z /\
   fst (getCurrentCpuUsage (Some second_sample) 2000000000 pm1) = 0 /\
   100 * (1 - (150 - 100) / (1500 - 1000)) = 90) /\
  (forall (stat : option CpuTimes) (now : Z) (pm : PerformanceMonitor),
     fst (getCurrentCpuUsage stat now pm) = 0) /\
  (forall (c : CpuTimes) (now : Z) (pm : PerformanceMonitor),
     U64.sub (idle_of c) (U64.sub (last_cpu_time_ pm) (U64.sub (total_of c) (idle_of c))) =
       U64.sub (total_of c) (last_cpu_time_ pm) /\
     last_cpu_time_ (snd (getCurrentCpuUsage (Some c) now pm)) = total_of c).
Proof.
  split; [|split].
  - repeat split; vm_compute; reflexivity.
  - exact getCurrentCpuUsage_zero.
  - intros c now pm. split.
    + apply idle_diff_is_total_diff.
    + apply getCurrentCpuUsage_baseline.
Qed.

(** C3 (amended). In one pass of [checkAlerts] that gets as far as the block
    of a metric kind (no callback called earlier in the pass has raised), the
    callback of that kind is called exactly once if a callback is registered,
    its threshold is positive and the current value strictly exceeds the
    threshold, and is not called otherwise; a value equal to the threshold
    and a threshold that is not positive both give no call. *)
Theorem alert_fires_iff_strictly_above (k : MetricKind) (pm : PerformanceMonitor) :
  reached k pm = true ->
  invocations k (fst (checkAlerts pm)) = (if alert_due k pm then 1%nat else 0%nat) /\
  (alert_due k pm = true ->
   List.In (Invoke k (alert_name k) (alert_message k (current_of k pm) (threshold_of k pm)))
     (fst (checkAlerts pm))) /\
  ((current_of k pm =? threshold_of k pm) = true ->
   invocations k (fst (checkAlerts pm)) = 0%nat) /\
  ((threshold_of k pm <=? 0) = true -> invocations k (fst (checkAlerts pm)) = 0%nat) /\
  (callback_of k pm = None -> invocations k (fst (checkAlerts pm)) = 0%nat).
Proof.
  intros Hr. rewrite invocations_checkAlerts, Hr. simpl.
  split; [reflexivity|]. split; [|split; [|split]].
  - intros Hd. destruct (check_alert_due k pm Hd) as (cb & _ & Hk).
    unfold checkAlerts, bind. unfold reached, completes in Hr.
    destruct k.
    + rewrite Hk. simpl. destruct (cb _ _); [|left; reflexivity].
      destruct (check_alert MemoryKind pm) as [t2 [[]|e2]]; [|left; reflexivity].
      destruct (check_alert CpuKind pm) as [t3 r3]. left. reflexivity.
    + destruct (check_alert LatencyKind pm) as [t1 [[]|e1]]; [|discriminate Hr].
      rewrite Hk. simpl.
      destruct (cb _ _); [destruct (check_alert CpuKind pm) as [t3 r3]|];
        apply in_or_app; right; left; reflexivity.
    + destruct (check_alert LatencyKind pm) as [t1 [[]|e1]]; [|discriminate Hr].
      destruct (check_alert MemoryKind pm) as [t2 [[]|e2]]; [|discriminate Hr].
      rewrite Hk. simpl. apply in_or_app; right. apply in_or_app; right. left. reflexivity.
  - intros He. unfold alert_due. destruct (callback_of k pm); [|reflexivity].
    rewrite (DoubleFacts.eqb_not_gt _ _ He), andb_false_r. reflexivity.
  - intros Hle. unfold alert_due. destruct (callback_of k pm); [|reflexivity].
    rewrite (DoubleFacts.leb_not_gt _ _ Hle). reflexivity.
  - intros Hn. unfold alert_due. rewrite Hn. reflexivity.
Qed.

(** The statement at the memory block of a monitor whose latency and
    memory values sit exactly at their thresholds. *)
Lemma alert_fires_iff_strictly_above_witness :
  invocations MemoryKind (fst (checkAlerts at_threshold_monitor)) =
    (if alert_due MemoryKind at_threshold_monitor then 1%nat else 0%nat) /\
  (alert_due MemoryKind at_threshold_monitor = true ->
   List.In (Invoke MemoryKind (alert_name MemoryKind)
              (alert_message MemoryKind (current_of MemoryKind at_threshold_monitor)
                 (threshold_of MemoryKind at_threshold_monitor)))
     (fst (checkAlerts at_threshold_monitor))) /\
  ((current_of MemoryKind at_threshold_monitor =? threshold_of MemoryKind at_threshold_monitor)
     = true ->
   invocations MemoryKind (fst (checkAlerts at_threshold_monitor)) = 0%nat) /\
  ((threshold_of MemoryKind at_threshold_monitor <=? 0) = true ->
   invocations MemoryKind (fst (checkAlerts at_threshold_monitor)) = 0%nat) /\
  (callback_of MemoryKind at_threshold_monitor = None ->
   invocations MemoryKind (fst (checkAlerts at_threshold_monitor)) = 0%nat).
Proof.
  apply (alert_fires_iff_strictly_above MemoryKind at_threshold_monitor).
  vm_compute. reflexivity.
Defined.

(** C3 as stated fails when an earlier callback raises: the memory alert is
    due, but the latency handler called before it throws, and the memory
    callback is never called in that pass. *)
Lemma alert_skipped_counterexample :
  alert_due MemoryKind breaching_monitor = true /\
  invocations LatencyKind (fst (checkAlerts breaching_monitor)) = 1%nat /\
  invocations MemoryKind (fst (checkAlerts breaching_monitor)) = 0%nat.
Proof. repeat split; vm_compute; reflexivity. Qed.

(** C4 (amended). After every [recordLatency] call on an accumulator that
    was fresh or reset (fewer than [2^64] calls in all), the stored maximum
    is at or above zero, is not below the maximum stored before the call,
    and no recorded value exceeds it. When every recorded value is at or
    above zero, so is the stored average; when no recorded value is below
    zero (NaN allowed), the stored average is not below zero either. *)
Theorem latency_invariants (pm : PerformanceMonitor) (l : list float) (x : float) :
  latency_cleared pm ->
  (Z.of_nat (List.length (l ++ [x])) < U64.modulus)%Z ->
  (0 <=? getMaxLatency (recordLatency x (record_all l pm))) = true /\
  (getMaxLatency (record_all l pm) <=? getMaxLatency (recordLatency x (record_all l pm)))
    = true /\
  (forall y, List.In y (l ++ [x]) ->
     (getMaxLatency (recordLatency x (record_all l pm)) <? y) = false) /\
  ((forall y, List.In y (l ++ [x]) -> (0 <=? y) = true) ->
   (0 <=? getAverageLatency (recordLatency x (record_all l pm))) = true) /\
  ((forall y, List.In y (l ++ [x]) -> (y <? 0) = false) ->
   (getAverageLatency (recordLatency x (record_all l pm)) <? 0) = false).
Proof.
  intros Hclear Hlen.
  rewrite <- record_all_snoc.
  destruct (record_all_state pm (l ++ [x]) Hclear Hlen) as (_ & _ & Havg & _ & Hub).
  assert (Hne : l ++ [x] <> []) by (destruct l; discriminate).
  split; [apply max_latency_nonneg, Hclear|]. split; [|split; [|split]].
  - rewrite record_all_snoc. apply max_latency_step, max_latency_nonneg, Hclear.
  - intros y Hy. apply Hub. right. exact Hy.
  - intros Hall. rewrite (Havg Hne).
    apply RoundingFacts.div_count_nonneg.
    + rewrite length_app in *. simpl in *. unfold U64.modulus in Hlen. lia.
    + apply latency_total_nonneg, Hall.
  - intros Hall. rewrite (Havg Hne).
    apply DoubleFacts.div_count_not_negative, latency_total_not_negative, Hall.
Qed.

(** The invariant after the recordings 10, 20, 30 and then 5. *)
Lemma latency_invariants_witness :
  (0 <=? getMaxLatency (recordLatency 5 (record_all [10; 20; 30] default_monitor))) = true /\
  (getMaxLatency (record_all [10; 20; 30] default_monitor) <=?
     getMaxLatency (recordLatency 5 (record_all [10; 20; 30] default_monitor))) = true /\
  (forall y, List.In y ([10; 20; 30] ++ [5]) ->
     (getMaxLatency (recordLatency 5 (record_all [10; 20; 30] default_monitor)) <? y) = false) /\
  ((forall y, List.In y ([10; 20; 30] ++ [5]) -> (0 <=? y) = true) ->
   (0 <=? getAverageLatency (recordLatency 5 (record_all [10; 20; 30] default_monitor))) = true) /\
  ((forall y, List.In y ([10; 20; 30] ++ [5]) -> (y <? 0) = false) ->
   (getAverageLatency (recordLatency 5 (record_all [10; 20; 30] default_monitor)) <? 0) = false).
Proof.
  apply (latency_invariants default_monitor [10; 20; 30] 5).
  - exact default_monitor_cleared.
  - reflexivity.
Defined.

(** C4 as stated fails twice. A negative recording is folded in verbatim, so
    after [recordLatency(-5)] the stored average is [-5], below zero. And the
    stored average is a rounded quotient of a rounded sum: after recording
    0.1 three times it is 0.10000000000000002, above the stored maximum
    0.1. *)
Lemma latency_invariant_counterexample :
  getAverageLatency (record_all [-5] default_monitor) = -5 /\
  (0 <=? getAverageLatency (record_all [-5] default_monitor)) = false /\
  getMaxLatency
    (record_all [0x1.999999999999ap-4; 0x1.999999999999ap-4; 0x1.999999999999ap-4]
       default_monitor) = 0x1.999999999999ap-4 /\
  getAverageLatency
    (record_all [0x1.999999999999ap-4; 0x1.999999999999ap-4; 0x1.999999999999ap-4]
       default_monitor) = 0x1.999999999999bp-4 /\
  (getAverageLatency
     (record_all [0x1.999999999999ap-4; 0x1.999999999999ap-4; 0x1.999999999999ap-4]
        default_monitor) <=?
   getMaxLatency
     (record_all [0x1.999999999999ap-4; 0x1.999999999999ap-4; 0x1.999999999999ap-4]
        default_monitor)) = false.
Proof. repeat split; vm_compute; reflexivity. Qed.

(** C5. After [resetMetrics] the three counters, the two gauges and the
    whole latency accumulator (sum, count, average, maximum) are zero,
    whatever they held before. *)
Theorem reset_zeroes_everything (pm : PerformanceMonitor) :
  let pm' := snd (resetMetrics pm) in
  getMessagesProcessed pm' = 0%Z /\
  getOpportunitiesDetected pm' = 0%Z /\
  getTradesExecuted pm' = 0%Z /\
  getMemoryUsage pm' = 0 /\
  getCpuUsage pm' = 0 /\
  latency_sum_ pm' = 0 /\
  latency_count_ pm' = 0%Z /\
  getAverageLatency pm' = 0 /\
  getMaxLatency pm' = 0 /\
  metrics_ pm' = zero_metrics /\
  latency_cleared pm'.
Proof. simpl. unfold latency_cleared. simpl. repeat split. Qed.

(** C6. Whatever operations have been called before, the process has not
    been terminated and at most one sampler thread is alive, exactly one when
    [running_] is set. [start] while running changes nothing but the log,
    where it adds one warning; [start] otherwise leaves exactly one live
    thread, and a second [start] right after only warns. [stop] while not
    running changes nothing at all; after [stop] nothing is running and no
    thread is alive, and a second [stop] changes nothing. *)
Theorem lifecycle_start_stop_idempotent (ops : list Op) :
  exists p,
    run_ops ops fresh_process = Ok p /\
    List.length (live p) = (if running_ (monitor p) then 1%nat else 0%nat) /\
    (running_ (monitor p) = true ->
     start p = Ok (emit [Log WARN "Performance monitor already running"] p)) /\
    (exists p1,
       start p = Ok p1 /\
       running_ (monitor p1) = true /\
       List.length (live p1) = 1%nat /\
       start p1 = Ok (emit [Log WARN "Performance monitor already running"] p1)) /\
    (running_ (monitor p) = false -> stop p = p) /\
    running_ (monitor (stop p)) = false /\
    live (stop p) = [] /\
    stop (stop p) = stop p.
Proof.
  destruct (run_ops_inv ops fresh_process fresh_process_inv) as (p & Hrun & Hinv).
  exists p. split; [exact Hrun|]. split; [apply lifecycle_inv_live, Hinv|].
  assert (Hwarn : forall q, running_ (monitor q) = true ->
            start q = Ok (emit [Log WARN "Performance monitor already running"] q)).
  { intros q Hq. unfold start. rewrite Hq. reflexivity. }
  assert (Hidle : forall q, running_ (monitor q) = false -> stop q = q).
  { intros q Hq. unfold stop. rewrite Hq. reflexivity. }
  assert (Hstopped : running_ (monitor (stop p)) = false).
  { unfold stop. destruct (running_ (monitor p)) eqn:R; simpl; [|exact R].
    destruct (monitoring_thread_ (monitor p)) as [t|]; [destruct (joinable t)|]; reflexivity. }
  split; [exact (Hwarn p)|]. split; [|split; [exact (Hidle p)|split; [exact Hstopped|split]]].
  - destruct (start_inv p Hinv) as (p1 & Hs & Hinv1).
    assert (R1 : running_ (monitor p1) = true).
    { unfold start in Hs. destruct (running_ (monitor p)) eqn:R.
      - injection Hs as <-. exact R.
      - destruct (monitoring_thread_ (monitor p)) as [old|];
          [destruct (joinable old); [discriminate|]|]; injection Hs as <-; reflexivity. }
    exists p1. split; [exact Hs|]. split; [exact R1|]. split.
    + rewrite (lifecycle_inv_live p1 Hinv1), R1. reflexivity.
    + apply Hwarn, R1.
  - pose proof (lifecycle_inv_live _ (stop_inv p Hinv)) as Hl.
    rewrite Hstopped in Hl. apply length_zero_iff_nil, Hl.
  - apply Hidle, Hstopped.
Qed.

(** C7 (amended). [checkAlerts] has no handler of its own: when the
    callback of a block the pass gets to raises, the pass ends there with
    that exception. The handler is in the sampler loop: for an exception
    derived from [std::exception] the iteration logs an error, skips its
    status line and its sleep, and the loop goes on; so with callbacks that
    raise nothing else the loop runs until it sees the cancellation and never
    ends because of a callback. *)
Theorem callback_exception_reaches_loop_handler :
  (forall (k : MetricKind) (pm : PerformanceMonitor) (e : Exn),
     reached k pm = true ->
     snd (check_alert k pm) = Raised e ->
     snd (checkAlerts pm) = Raised e) /\
  (forall (env : TickEnv) (pm : PerformanceMonitor) (what : string),
     snd (checkAlerts (sample_gauges env pm)) = Raised (StdException what) ->
     loop_body env pm =
     (fst (checkAlerts (sample_gauges env pm)) ++
        [Log ERROR ("Error in performance monitoring loop: " ++ what)],
      sample_gauges env pm, true)) /\
  (forall (envs : list TickEnv) (pm : PerformanceMonitor),
     callbacks_std_only pm ->
     monitoring_enabled_ pm = true ->
     snd (monitoringLoop envs pm) = if List.existsb cancelled envs then Exited else Running).
Proof.
  split; [|split].
  - intros k pm e Hr He. rewrite checkAlerts_outcome. unfold first_raised.
    unfold reached, completes in Hr. destruct k.
    + rewrite He. reflexivity.
    + destruct (snd (check_alert LatencyKind pm)) as [[]|e1]; [|discriminate Hr].
      rewrite He. reflexivity.
    + destruct (snd (check_alert LatencyKind pm)) as [[]|e1]; [|discriminate Hr].
      destruct (snd (check_alert MemoryKind pm)) as [[]|e2]; [|discriminate Hr].
      exact He.
  - intros env pm what H. pose proof (loop_body_cases env pm) as C. simpl in C.
    rewrite H in C. exact C.
  - apply monitoringLoop_status.
Qed.

Lemma breaching_monitor_std_only :
  callbacks_std_only (with_lifecycle true true (Some (mkThread 0 true)) breaching_monitor).
Proof.
  intros [] f alert msg H; simpl in H; try discriminate;
    injection H as <-; discriminate.
Qed.

(** The three parts at a monitor whose latency handler throws a
    [std::exception] on every call, over three iterations. *)
Lemma callback_exception_reaches_loop_handler_witness :
  snd (checkAlerts breaching_monitor) = Raised (StdException "alert handler failed") /\
  loop_body plain_tick breaching_monitor =
    (fst (checkAlerts (sample_gauges plain_tick breaching_monitor)) ++
       [Log ERROR ("Error in performance monitoring loop: " ++ "alert handler failed")],
     sample_gauges plain_tick breaching_monitor, true) /\
  snd (monitoringLoop [plain_tick; plain_tick; plain_tick]
         (with_lifecycle true true (Some (mkThread 0 true)) breaching_monitor)) = Running.
Proof.
  destruct callback_exception_reaches_loop_handler as (A & B & C).
  split; [|split].
  - apply (A LatencyKind breaching_monitor); vm_compute; reflexivity.
  - apply (B plain_tick breaching_monitor). vm_compute. reflexivity.
  - apply (C [plain_tick; plain_tick; plain_tick]
             (with_lifecycle true true (Some (mkThread 0 true)) breaching_monitor)).
    + exact breaching_monitor_std_only.
    + reflexivity.
Defined.

(** C7 as stated fails: the exception of the latency handler leaves
    [checkAlerts], and the pass does not continue, since the memory alert
    that is due is not delivered. A handler that throws something that is not
    a [std::exception] ends the sampler thread. *)
Lemma callback_exception_counterexample :
  snd (checkAlerts breaching_monitor) = Raised (StdException "alert handler failed") /\
  alert_due MemoryKind breaching_monitor = true /\
  invocations MemoryKind (fst (checkAlerts breaching_monitor)) = 0%nat /\
  snd (monitoringLoop [plain_tick; plain_tick] foreign_monitor) = Died.
Proof. repeat split; vm_compute; reflexivity. Qed.

(** C8 (amended). The monitor keeps no record of [initialize] having been
    called, and no operation checks for it: after any operations that do not
    include [initialize], every operation returns normally and the monitor
    still has the default interval of 1000 ms; in particular [start] sets
    [running_] and leaves one live sampler thread. *)
Theorem operations_before_initialize_proceed (ops : list Op) (o : Op) :
  never_initialized (ops ++ [o]) = true ->
  exists p p',
    run_ops ops fresh_process = Ok p /\
    apply_op o p = Ok p' /\
    monitoring_interval_ms_ (monitor p') = 1000%Z /\
    (exists p1,
       start p = Ok p1 /\
       running_ (monitor p1) = true /\
       List.length (live p1) = 1%nat /\
       monitoring_interval_ms_ (monitor p1) = 1000%Z).
Proof.
  intros Hn. unfold never_initialized in Hn. rewrite forallb_app in Hn.
  apply andb_prop in Hn. destruct Hn as [Hops Ho]. simpl in Ho. rewrite andb_true_r in Ho.
  apply negb_true_iff in Ho.
  destruct (run_ops_inv ops fresh_process fresh_process_inv) as (p & Hrun & Hinv).
  destruct (apply_op_inv o p Hinv) as (p' & Hop & _).
  pose proof (run_ops_interval ops fresh_process p Hops Hrun) as Hi. simpl in Hi.
  exists p, p'. split; [exact Hrun|]. split; [exact Hop|]. split.
  - rewrite (apply_op_interval o p p' Ho Hop). exact Hi.
  - destruct (start_inv p Hinv) as (p1 & Hs & Hinv1).
    assert (R1 : running_ (monitor p1) = true).
    { unfold start in Hs. destruct (running_ (monitor p)) eqn:R.
      - injection Hs as <-. exact R.
      - destruct (monitoring_thread_ (monitor p)) as [old|];
          [destruct (joinable old); [discriminate|]|]; injection Hs as <-; reflexivity. }
    exists p1. split; [exact Hs|]. split; [exact R1|]. split.
    + rewrite (lifecycle_inv_live p1 Hinv1), R1. reflexivity.
    + rewrite (apply_op_interval OpStart p p1 eq_refl Hs). exact Hi.
Qed.

(** The statement for [start] as the very first call. *)
Lemma operations_before_initialize_proceed_witness :
  exists p p',
    run_ops [] fresh_process = Ok p /\
    apply_op OpStart p = Ok p' /\
    monitoring_interval_ms_ (monitor p') = 1000%Z /\
    (exists p1,
       start p = Ok p1 /\
       running_ (monitor p1) = true /\
       List.length (live p1) = 1%nat /\
       monitoring_interval_ms_ (monitor p1) = 1000%Z).
Proof.
  apply (operations_before_initialize_proceed [] OpStart). reflexivity.
Defined.

(** C8 as stated fails: [start] on a monitor that was never initialized is
    not rejected. It returns normally with [running_] set, one sampler thread
    spawned and the default interval in place. *)
Lemma start_before_initialize_counterexample :
  start fresh_process =
    Ok (mkProcess (with_lifecycle true true (Some (mkThread 0 true)) default_monitor)
          [0%nat] 1 [Spawn 0; Log INFO "Performance monitor started"]) /\
  monitoring_interval_ms_ (with_lifecycle true true (Some (mkThread 0 true)) default_monitor)
    = 1000%Z /\
  (start fresh_process = Terminate -> False).
Proof. repeat split. discriminate. Qed.

(** C9. An increment always returns, adds one to the counter it names,
    modulo [2^64], and leaves the other counters alone. The [fetch_add]s of
    any number of producer threads can always be run to their end, and when
    they have been, in whatever order they were interleaved, each counter has
    advanced by the total number of its increments: no update is lost. For
    [N] threads of [M] increments of one counter starting from zero the
    result is [N * M] (with [N * M < 2^64]). *)
Theorem concurrent_increments_not_lost :
  (forall (ps : Programs) (pm : PerformanceMonitor),
     exists sched ps' pm', run_schedule sched ps pm = Some (ps', pm') /\ all_done ps') /\
  (forall (k k' : CounterKind) (pm : PerformanceMonitor),
     counter_of k (incrementCounter k' pm) =
     if counter_kind_eqb k k' then U64.wrap (counter_of k pm + 1) else counter_of k pm) /\
  (forall (k : CounterKind) (pm : PerformanceMonitor),
     (0 <= counter_of k pm < U64.modulus - 1)%Z ->
     counter_of k (incrementCounter k pm) = (counter_of k pm + 1)%Z) /\
  (forall (k : CounterKind) (sched : list nat) (ps ps' : Programs) (pm pm' : PerformanceMonitor),
     U64.in_range (counter_of k pm) ->
     run_schedule sched ps pm = Some (ps', pm') ->
     all_done ps' ->
     counter_of k pm' = U64.wrap (counter_of k pm + total_calls k ps)) /\
  (forall (k : CounterKind) (N M : nat) (sched : list nat) (ps' : Programs)
          (pm' : PerformanceMonitor),
     (Z.of_nat N * Z.of_nat M < U64.modulus)%Z ->
     run_schedule sched (List.repeat (List.repeat k M) N) default_monitor = Some (ps', pm') ->
     all_done ps' ->
     counter_of k pm' = (Z.of_nat N * Z.of_nat M)%Z).
Proof.
  split; [intros ps pm; exact (complete_schedule_exists _ ps pm eq_refl)|].
  split; [exact incrementCounter_counter|]. split; [|split].
  - intros k pm H. rewrite incrementCounter_counter.
    replace (counter_kind_eqb k k) with true by (destruct k; reflexivity).
    apply wrap_small. unfold U64.in_range. lia.
  - intros k sched ps ps' pm pm' Hr Hrun Hdone.
    rewrite (run_schedule_counter k sched ps ps' pm pm' Hr Hrun).
    rewrite (total_calls_done k ps' Hdone). f_equal. lia.
  - intros k N M sched ps' pm' Hlt Hrun Hdone.
    assert (Hr : U64.in_range (counter_of k default_monitor))
      by (destruct k; (split; [apply Z.le_refl | reflexivity])).
    rewrite (run_schedule_counter k sched _ ps' _ pm' Hr Hrun).
    rewrite (total_calls_done k ps' Hdone), total_calls_repeat.
    replace (counter_of k default_monitor) with 0%Z by (destruct k; reflexivity).
    replace (0 + (Z.of_nat N * Z.of_nat M - 0))%Z with (Z.of_nat N * Z.of_nat M)%Z by lia.
    apply wrap_small. unfold U64.in_range. lia.
Qed.

(** Eight producers, a thousand increments each, taking turns. *)
Lemma concurrent_increments_not_lost_witness :
  counter_of MessagesCounter
    (match run_schedule (round_robin 8 1000)
             (List.repeat (List.repeat MessagesCounter 1000) 8) default_monitor with
     | Some (_, pm') => pm'
     | None => default_monitor
     end) = 8000%Z.
Proof.
  destruct (run_schedule (round_robin 8 1000)
              (List.repeat (List.repeat MessagesCounter 1000) 8) default_monitor)
    as [[ps' pm']|] eqn:E.
  - apply (proj2 (proj2 (proj2 (proj2 concurrent_increments_not_lost)))
             MessagesCounter 8%nat 1000%nat (round_robin 8 1000) ps' pm').
    + reflexivity.
    + exact E.
    + assert (Hps : ps' = List.repeat [] 8).
      { assert (F : option_map fst (run_schedule (round_robin 8 1000)
                      (List.repeat (List.repeat MessagesCounter 1000) 8) default_monitor)
                    = Some (List.repeat [] 8)) by (vm_compute; reflexivity).
        rewrite E in F. simpl in F. injection F as F. exact F. }
      rewrite Hps. repeat constructor.
  - exfalso.
    assert (F : option_map fst (run_schedule (round_robin 8 1000)
                  (List.repeat (List.repeat MessagesCounter 1000) 8) default_monitor)
                = Some (List.repeat [] 8)) by (vm_compute; reflexivity).
    rewrite E in F. discriminate F.
Defined.

(** C10. Each within-threshold query is the comparison [value <= t], and at
    a value equal to a configured alert threshold the query answers true
    while the pass of [checkAlerts] does not call the callback of that
    kind. *)
Theorem within_threshold_inclusive (k : MetricKind) (t : float) (pm : PerformanceMonitor) :
  (within_threshold k t pm = true <-> (current_of k pm <=? t) = true) /\
  (isLatencyWithinThreshold t pm = (getAverageLatency pm <=? t) /\
   isMemoryWithinThreshold t pm = (getMemoryUsage pm <=? t) /\
   isCpuWithinThreshold t pm = (getCpuUsage pm <=? t)) /\
  ((current_of k pm =? threshold_of k pm) = true ->
   within_threshold k (threshold_of k pm) pm = true /\
   invocations k (fst (checkAlerts pm)) = 0%nat).
Proof.
  split; [destruct k; reflexivity|]. split; [repeat split|].
  intros He. split.
  - replace (within_threshold k (threshold_of k pm) pm)
      with (current_of k pm <=? threshold_of k pm) by (destruct k; reflexivity).
    apply DoubleFacts.eqb_leb, He.
  - rewrite invocations_checkAlerts.
    replace (alert_due k pm) with false; [rewrite andb_false_r; reflexivity|].
    unfold alert_due. destruct (callback_of k pm); [|reflexivity].
    rewrite (DoubleFacts.eqb_not_gt _ _ He), andb_false_r. reflexivity.
Qed.

(** The statement at a latency average of exactly the threshold 10. *)
Lemma within_threshold_inclusive_witness :
  within_threshold LatencyKind (threshold_of LatencyKind at_threshold_monitor)
    at_threshold_monitor = true /\
  invocations LatencyKind (fst (checkAlerts at_threshold_monitor)) = 0%nat.
Proof.
  apply (proj2 (proj2 (within_threshold_inclusive LatencyKind 10 at_threshold_monitor))).
  vm_compute. reflexivity.
Defined.
End Claims.

(** * Further properties of the sampler loop *)

Section SamplerExtras.
Open Scope float_scope.

Lemma sample_gauges_untouched (env : TickEnv) (pm : PerformanceMonitor) :
  producer_state (sample_gauges env pm) = producer_state pm /\
  alert_rules (sample_gauges env pm) = alert_rules pm /\
  lifecycle_state (sample_gauges env pm) = lifecycle_state pm.
Proof.
  unfold sample_gauges.
  destruct (getCurrentCpuUsage_frame (proc_stat env) (steady_now env)
              (recordMemoryUsage (getCurrentMemoryUsage (ru_maxrss env)) pm)) as [E|[t E]];
    destruct (getCurrentCpuUsage _ _ _) as [cpu pm2]; simpl in E; subst pm2;
    repeat split.
Qed.

Lemma loop_body_state (env : TickEnv) (pm : PerformanceMonitor) :
  snd (fst (loop_body env pm)) = sample_gauges env pm.
Proof.
  unfold loop_body. destruct (checkAlerts (sample_gauges env pm)) as [t [[]|[w|]]]; reflexivity.
Qed.

Lemma sample_gauges_cpu (env : TickEnv) (pm : PerformanceMonitor) :
  getCpuUsage (sample_gauges env pm) = 0.
Proof.
  unfold sample_gauges.
  pose proof (getCurrentCpuUsage_zero (proc_stat env) (steady_now env)
                (recordMemoryUsage (getCurrentMemoryUsage (ru_maxrss env)) pm)) as Z0.
  destruct (getCurrentCpuUsage _ _ _) as [cpu pm2]. simpl in Z0. subst cpu. reflexivity.
Qed.

Lemma sample_gauges_memory (env : TickEnv) (pm : PerformanceMonitor) :
  getMemoryUsage (sample_gauges env pm) = getCurrentMemoryUsage (ru_maxrss env).
Proof.
  unfold sample_gauges.
  destruct (getCurrentCpuUsage_frame (proc_stat env) (steady_now env)
              (recordMemoryUsage (getCurrentMemoryUsage (ru_maxrss env)) pm)) as [E|[t E]];
    destruct (getCurrentCpuUsage _ _ _) as [cpu pm2]; simpl in E; subst pm2; reflexivity.
Qed.

Lemma invocations_app (k : MetricKind) (a b : list Event) :
  invocations k (a ++ b) = (invocations k a + invocations k b)%nat.
Proof. unfold invocations. rewrite filter_app, length_app. reflexivity. Qed.

Lemma count_events_app (f : Event -> bool) (a b : list Event) :
  count_events f (a ++ b) = (count_events f a + count_events f b)%nat.
Proof. unfold count_events. rewrite filter_app, length_app. reflexivity. Qed.

(** X1. The sampler loop writes the two gauges, the CPU baseline and, when
    it sees the cancellation, [monitoring_enabled_]; whatever ticks it runs
    over, it leaves the counters, the latency accumulator, the alert rules,
    [running_], the thread object and the interval as they were. *)
Theorem sampler_touches_gauges_only (envs : list TickEnv) (pm : PerformanceMonitor) :
  let pm' := snd (fst (monitoringLoop envs pm)) in
  producer_state pm' = producer_state pm /\
  alert_rules pm' = alert_rules pm /\
  running_ pm' = running_ pm /\
  monitoring_thread_ pm' = monitoring_thread_ pm /\
  monitoring_interval_ms_ pm' = monitoring_interval_ms_ pm.
Proof.
  revert pm. induction envs as [|env rest IH]; intros pm; [repeat split|].
  simpl.
  set (pm0 := if cancelled env
              then with_lifecycle (running_ pm) false (monitoring_thread_ pm) pm else pm).
  assert (H0 : producer_state pm0 = producer_state pm /\ alert_rules pm0 = alert_rules pm /\
               running_ pm0 = running_ pm /\ monitoring_thread_ pm0 = monitoring_thread_ pm /\
               monitoring_interval_ms_ pm0 = monitoring_interval_ms_ pm)
    by (unfold pm0; destruct (cancelled env); repeat split).
  destruct (monitoring_enabled_ pm0); [|exact H0].
  pose proof (loop_body_state env pm0) as Hs.
  destruct (loop_body env pm0) as [[t pm1] go]. simpl in Hs. subst pm1.
  destruct (sample_gauges_untouched env pm0) as (P & A & L).
  assert (H1 : producer_state (sample_gauges env pm0) = producer_state pm /\
               alert_rules (sample_gauges env pm0) = alert_rules pm /\
               running_ (sample_gauges env pm0) = running_ pm /\
               monitoring_thread_ (sample_gauges env pm0) = monitoring_thread_ pm /\
               monitoring_interval_ms_ (sample_gauges env pm0) = monitoring_interval_ms_ pm).
  { destruct H0 as (P0 & A0 & R0 & T0 & I0). unfold lifecycle_state in L.
    injection L as L1 L2 L3 L4. repeat split; congruence. }
  destruct go; [|exact H1].
  specialize (IH (sample_gauges env pm0)). simpl in IH.
  destruct (monitoringLoop rest (sample_gauges env pm0)) as [[t' pm2] st]. simpl in IH |- *.
  destruct IH as (P2 & A2 & R2 & T2 & I2). destruct H1 as (P1 & A1 & R1 & T1 & I1).
  repeat split; congruence.
Qed.

Lemma loop_body_no_cpu_alert (env : TickEnv) (pm : PerformanceMonitor) :
  invocations CpuKind (fst (fst (loop_body env pm))) = 0%nat.
Proof.
  assert (H : invocations CpuKind (fst (checkAlerts (sample_gauges env pm))) = 0%nat).
  { rewrite invocations_checkAlerts.
    replace (alert_due CpuKind (sample_gauges env pm)) with false;
      [rewrite andb_false_r; reflexivity|].
    unfold alert_due. destruct (callback_of CpuKind (sample_gauges env pm)); [|reflexivity].
    unfold current_of. rewrite sample_gauges_cpu.
    destruct (0 <? threshold_of CpuKind (sample_gauges env pm)) eqn:E; [|reflexivity].
    rewrite (DoubleFacts.leb_not_gt _ _ (DoubleFacts.ltb_leb _ _ E)). reflexivity. }
  unfold loop_body.
  destruct (checkAlerts (sample_gauges env pm)) as [t [[]|[w|]]]; simpl in *;
    rewrite ?invocations_app, ?H; reflexivity.
Qed.

(** X2. Every iteration of the sampler loop stores a CPU gauge of zero, so
    the loop never calls the CPU alert callback, whatever callback and
    threshold are registered and whatever [/proc/stat] holds. *)
Theorem sampler_never_raises_cpu_alert :
  (forall (env : TickEnv) (pm : PerformanceMonitor),
     getCpuUsage (snd (fst (loop_body env pm))) = 0) /\
  (forall (envs : list TickEnv) (pm : PerformanceMonitor),
     invocations CpuKind (fst (fst (monitoringLoop envs pm))) = 0%nat).
Proof.
  split.
  - intros env pm. rewrite loop_body_state. apply sample_gauges_cpu.
  - intros envs. induction envs as [|env rest IH]; intros pm; [reflexivity|].
    simpl.
    destruct (monitoring_enabled_ _); [|reflexivity].
    pose proof (loop_body_no_cpu_alert env
                  (if cancelled env
                   then with_lifecycle (running_ pm) false (monitoring_thread_ pm) pm
                   else pm)) as H.
    destruct (loop_body env _) as [[t pm1] go]. simpl in H.
    destruct go; [|exact H].
    specialize (IH pm1).
    destruct (monitoringLoop rest pm1) as [[t' pm2] st]. simpl in IH |- *.
    rewrite invocations_app, H, IH. reflexivity.
Qed.

Lemma check_alert_only_invokes (k : MetricKind) (pm : PerformanceMonitor) (f : Event -> bool) :
  (forall k' a m, f (Invoke k' a m) = false) ->
  count_events f (fst (check_alert k pm)) = 0%nat.
Proof.
  intros Hf.
  destruct (check_alert_shape k pm) as [[_ ->]|[_ (a & m & r & ->)]]; [reflexivity|].
  unfold count_events. simpl. rewrite Hf. reflexivity.
Qed.

Lemma checkAlerts_only_invokes (pm : PerformanceMonitor) (f : Event -> bool) :
  (forall k' a m, f (Invoke k' a m) = false) ->
  count_events f (fst (checkAlerts pm)) = 0%nat.
Proof.
  intros Hf. unfold checkAlerts, bind.
  pose proof (check_alert_only_invokes LatencyKind pm f Hf) as H1.
  pose proof (check_alert_only_invokes MemoryKind pm f Hf) as H2.
  pose proof (check_alert_only_invokes CpuKind pm f Hf) as H3.
  destruct (check_alert LatencyKind pm) as [t1 [[]|e1]]; [|exact H1].
  destruct (check_alert MemoryKind pm) as [t2 [[]|e2]]; simpl in *.
  - destruct (check_alert CpuKind pm) as [t3 r3]. simpl in *.
    rewrite !count_events_app, H1, H2, H3. reflexivity.
  - rewrite count_events_app, H1, H2. reflexivity.
Qed.

(** What one iteration adds to the trace when no callback throws a foreign
    object: the calls of the alert pass, then either the status line and the
    sleep, or the error line. *)
Lemma loop_body_trace (env : TickEnv) (pm : PerformanceMonitor) :
  callbacks_std_only pm ->
  let t := fst (fst (loop_body env pm)) in
  (count_events is_sleep t + count_events is_error_line t = 1)%nat /\
  count_events is_status_line t = count_events is_sleep t /\
  List.Forall (fun e => is_sleep e = true -> e = Sleep (monitoring_interval_ms_ pm)) t.
Proof.
  intros Hcb. simpl.
  pose proof (loop_body_cases env pm) as C. simpl in C.
  pose proof (checkAlerts_std_only _ (callbacks_std_only_sample env pm Hcb)) as N.
  pose proof (checkAlerts_only_invokes (sample_gauges env pm) is_sleep (fun _ _ _ => eq_refl)) as S1.
  pose proof (checkAlerts_only_invokes (sample_gauges env pm) is_error_line
                (fun _ _ _ => eq_refl)) as S2.
  pose proof (checkAlerts_only_invokes (sample_gauges env pm) is_status_line
                (fun _ _ _ => eq_refl)) as S3.
  assert (F : List.Forall (fun e => is_sleep e = true -> e = Sleep (monitoring_interval_ms_ pm))
                (fst (checkAlerts (sample_gauges env pm)))).
  { apply Forall_forall. intros e He Hs. exfalso.
    unfold count_events in S1. apply length_zero_iff_nil in S1.
    assert (Hin : List.In e (List.filter is_sleep (fst (checkAlerts (sample_gauges env pm)))))
      by (apply filter_In; split; assumption).
    rewrite S1 in Hin. exact Hin. }
  destruct (snd (checkAlerts (sample_gauges env pm))) as [[]|[w|]]; [| |contradiction];
    rewrite C; simpl fst; rewrite !count_events_app, S1, S2, S3;
    (split; [reflexivity|split; [reflexivity|]]);
    apply Forall_app; (split; [exact F|]); repeat constructor; try discriminate.
  intros _. rewrite (proj2 (proj2 (sample_gauges_frame env pm))). reflexivity.
Qed.

(** X3. With callbacks that throw nothing but standard exceptions, every
    iteration the enabled sampler loop runs ends either with one sleep or
    with one error line, never both; it logs exactly one status line per
    sleep, and every sleep lasts the configured interval. *)
Theorem sampler_trace_accounting (envs : list TickEnv) (pm : PerformanceMonitor) :
  callbacks_std_only pm ->
  monitoring_enabled_ pm = true ->
  let t := fst (fst (monitoringLoop envs pm)) in
  (count_events is_sleep t + count_events is_error_line t = executed envs)%nat /\
  count_events is_status_line t = count_events is_sleep t /\
  List.Forall (fun e => is_sleep e = true -> e = Sleep (monitoring_interval_ms_ pm)) t.
Proof.
  revert pm. induction envs as [|env rest IH]; intros pm Hcb Hen.
  - simpl. repeat split. constructor.
  - simpl. destruct (cancelled env); simpl; [repeat split; constructor|].
    rewrite Hen.
    destruct (loop_body_trace env pm Hcb) as (T1 & T2 & T3).
    destruct (loop_body_continues env pm Hcb) as [Hgo Hpm].
    destruct (loop_body env pm) as [[t pm1] go]. simpl in Hgo, Hpm, T1, T2, T3. subst go pm1.
    specialize (IH (sample_gauges env pm) (callbacks_std_only_sample env pm Hcb)).
    rewrite (proj1 (proj2 (sample_gauges_frame env pm))) in IH. specialize (IH Hen).
    rewrite (proj2 (proj2 (sample_gauges_frame env pm))) in IH.
    destruct (monitoringLoop rest (sample_gauges env pm)) as [[t' pm2] st]. simpl in IH |- *.
    destruct IH as (I1 & I2 & I3).
    rewrite !count_events_app. split; [lia|]. split; [lia|].
    apply Forall_app. split; assumption.
Qed.

Lemma plain_monitor_std_only : callbacks_std_only default_monitor.
Proof. intros [] f alert msg H; discriminate H. Qed.

(** The accounting over three ticks of a started monitor without alert
    rules. *)
Lemma sampler_trace_accounting_witness :
  let t := fst (fst (monitoringLoop [plain_tick; plain_tick; plain_tick]
                       (with_lifecycle true true (Some (mkThread 0 true)) default_monitor))) in
  (count_events is_sleep t + count_events is_error_line t = 3)%nat /\
  count_events is_status_line t = count_events is_sleep t /\
  List.Forall (fun e => is_sleep e = true -> e = Sleep 1000) t.
Proof.
  apply (sampler_trace_accounting [plain_tick; plain_tick; plain_tick]
           (with_lifecycle true true (Some (mkThread 0 true)) default_monitor)).
  - intros [] f alert msg H; discriminate H.
  - reflexivity.
Defined.

Lemma of_u64_nonneg (z : Z) :
  (0 <= z < 2 ^ 64)%Z -> Double.SF_nonneg (Prim2SF (Double.of_u64 z)) = true.
Proof.
  intros H. destruct (Z.eq_dec z 0) as [->|N]; [vm_compute; reflexivity|].
  destruct (RoundingFacts.of_u64_finite z) as (m & e & ->); [lia|reflexivity].
Qed.

Lemma getCurrentMemoryUsage_nonneg (z : Z) :
  (0 <= z < 2 ^ 63)%Z -> (0 <=? getCurrentMemoryUsage z) = true.
Proof.
  intros H. unfold getCurrentMemoryUsage, Double.of_i64.
  replace (z <? 0)%Z with false by (symmetry; apply Z.ltb_ge; lia).
  rewrite <- RoundingFacts.nonneg_leb, div_spec.
  change (Prim2SF 1024) with (S754_finite false 4503599627370496 (-42)).
  apply RoundingFacts.SFdiv_nonneg, of_u64_nonneg. lia.
Qed.

(** X4. After the enabled sampler loop has run over ticks none of which
    carried the cancellation, the memory gauge holds the reading of the last
    tick only, [ru_maxrss / 1024]; that value is at or above zero whenever
    the reading is a non-negative [long]. *)
Theorem sampler_memory_gauge :
  (forall z : Z, (0 <= z < 2 ^ 63)%Z -> (0 <=? getCurrentMemoryUsage z) = true) /\
  (forall (envs : list TickEnv) (env : TickEnv) (pm : PerformanceMonitor),
     callbacks_std_only pm ->
     monitoring_enabled_ pm = true ->
     List.existsb cancelled (envs ++ [env]) = false ->
     getMemoryUsage (snd (fst (monitoringLoop (envs ++ [env]) pm))) =
     getCurrentMemoryUsage (ru_maxrss env)).
Proof.
  split; [exact getCurrentMemoryUsage_nonneg|].
  intros envs. induction envs as [|e rest IH]; intros env pm Hcb Hen Hc.
  - simpl in Hc |- *. rewrite orb_false_r in Hc. rewrite Hc, Hen.
    destruct (loop_body_continues env pm Hcb) as [Hgo Hpm].
    destruct (loop_body env pm) as [[t pm1] go]. simpl in Hgo, Hpm. subst go pm1.
    simpl. apply sample_gauges_memory.
  - simpl in Hc. apply orb_false_iff in Hc. destruct Hc as [Hc1 Hc2].
    simpl. rewrite Hc1, Hen.
    destruct (loop_body_continues e pm Hcb) as [Hgo Hpm].
    destruct (loop_body e pm) as [[t pm1] go]. simpl in Hgo, Hpm. subst go pm1.
    specialize (IH env (sample_gauges e pm) (callbacks_std_only_sample e pm Hcb)).
    rewrite (proj1 (proj2 (sample_gauges_frame e pm))) in IH. specialize (IH Hen Hc2).
    destruct (monitoringLoop (rest ++ [env]) (sample_gauges e pm)) as [[t' pm2] st].
    exact IH.
Qed.

(** The gauge after two ticks reading 1024 kB and then 2048 kB. *)
Lemma sampler_memory_gauge_witness :
  getMemoryUsage
    (snd (fst (monitoringLoop ([mkTickEnv false 1024 None 0 0] ++ [plain_tick])
                 (with_lifecycle true true (Some (mkThread 0 true)) default_monitor)))) =
  getCurrentMemoryUsage (ru_maxrss plain_tick).
Proof.
  apply (proj2 sampler_memory_gauge [mkTickEnv false 1024 None 0 0] plain_tick
           (with_lifecycle true true (Some (mkThread 0 true)) default_monitor)).
  - exact plain_monitor_std_only.
  - reflexivity.
  - reflexivity.
Defined.

Lemma alert_due_latency_sample (env : TickEnv) (pm : PerformanceMonitor) :
  alert_due LatencyKind (sample_gauges env pm) = alert_due LatencyKind pm.
Proof.
  destruct (sample_gauges_untouched env pm) as (P & A & _).
  unfold producer_state in P. unfold alert_rules in A.
  injection P as _ _ _ Pa _ _ _. injection A as Ac _ _ At _ _.
  unfold alert_due, callback_of, threshold_of, current_of. rewrite Ac, At, Pa. reflexivity.
Qed.

Lemma loop_body_latency_invocations (env : TickEnv) (pm : PerformanceMonitor) :
  invocations LatencyKind (fst (fst (loop_body env pm))) =
  if alert_due LatencyKind pm then 1%nat else 0%nat.
Proof.
  pose proof (loop_body_cases env pm) as C. simpl in C.
  pose proof (invocations_checkAlerts LatencyKind (sample_gauges env pm)) as I.
  rewrite alert_due_latency_sample in I. simpl in I.
  destruct (snd (checkAlerts (sample_gauges env pm))) as [[]|[w|]];
    rewrite C; simpl fst; rewrite ?invocations_app, I;
    destruct (alert_due LatencyKind pm); reflexivity.
Qed.

(** X21. There is no suppression of a sustained breach: while the average
    latency stays above its positive threshold and a callback is
    registered, the enabled sampler loop calls the latency callback once in
    every iteration it runs, also when the callback throws a standard
    exception each time; when the alert is not due it is never called. *)
Theorem sustained_breach_refires_every_tick (envs : list TickEnv) (pm : PerformanceMonitor) :
  callbacks_std_only pm ->
  monitoring_enabled_ pm = true ->
  invocations LatencyKind (fst (fst (monitoringLoop envs pm))) =
  if alert_due LatencyKind pm then executed envs else 0%nat.
Proof.
  revert pm. induction envs as [|env rest IH]; intros pm Hcb Hen.
  - simpl. destruct (alert_due LatencyKind pm); reflexivity.
  - simpl. destruct (cancelled env); simpl.
    { destruct (alert_due LatencyKind pm); reflexivity. }
    rewrite Hen.
    pose proof (loop_body_latency_invocations env pm) as L.
    destruct (loop_body_continues env pm Hcb) as [Hgo Hpm].
    destruct (loop_body env pm) as [[t pm1] go]. simpl in Hgo, Hpm, L. subst go pm1.
    specialize (IH (sample_gauges env pm) (callbacks_std_only_sample env pm Hcb)).
    rewrite (proj1 (proj2 (sample_gauges_frame env pm))) in IH. specialize (IH Hen).
    rewrite alert_due_latency_sample in IH.
    destruct (monitoringLoop rest (sample_gauges env pm)) as [[t' pm2] st]. simpl in IH |- *.
    rewrite invocations_app, L, IH. destruct (alert_due LatencyKind pm); reflexivity.
Qed.

(** Three ticks of a started monitor whose average latency of 10 ms is over
    the threshold of 5 ms, with a handler that throws each time. *)
Lemma sustained_breach_refires_every_tick_witness :
  invocations LatencyKind
    (fst (fst (monitoringLoop [plain_tick; plain_tick; plain_tick]
                 (with_lifecycle true true (Some (mkThread 0 true))
                    (setLatencyAlertCallback (Some throwing_callback) 5
                       (recordLatency 10 default_monitor)))))) = 3%nat.
Proof.
  apply (sustained_breach_refires_every_tick [plain_tick; plain_tick; plain_tick]
           (with_lifecycle true true (Some (mkThread 0 true))
              (setLatencyAlertCallback (Some throwing_callback) 5
                 (recordLatency 10 default_monitor)))).
  - intros [] f alert msg H; try discriminate H.
    injection H as <-. discriminate.
  - reflexivity.
Defined.
End SamplerExtras.

(** * Further properties of the metrics *)

Section MetricsExtras.
Open Scope float_scope.

Lemma recordLatency_latency_state (x : float) (pm pm' : PerformanceMonitor) :
  latency_state pm = latency_state pm' ->
  latency_state (recordLatency x pm) = latency_state (recordLatency x pm').
Proof.
  unfold latency_state. intros H. injection H as Ha Hm Hc Hs.
  rewrite !recordLatency_average, !recordLatency_max, !recordLatency_count, !recordLatency_sum.
  rewrite Hm, Hc, Hs. reflexivity.
Qed.

Lemma record_all_latency_state (l : list float) :
  forall pm pm' : PerformanceMonitor,
    latency_state pm = latency_state pm' ->
    latency_state (record_all l pm) = latency_state (record_all l pm').
Proof.
  induction l as [|x l IH]; intros pm pm' H; [exact H|].
  simpl. apply IH, recordLatency_latency_state, H.
Qed.

(** X5. [resetMetrics] forgets the latency history and nothing else of the
    configuration: whatever was recorded before, the recordings made after a
    reset leave the same average, maximum, count and sum as the same
    recordings on a fresh monitor, while the alert rules, the lifecycle
    fields and the CPU baseline are as before the reset. *)
Theorem reset_forgets_latency_history (pm : PerformanceMonitor) (l : list float) :
  latency_state (record_all l (snd (resetMetrics pm))) =
    latency_state (record_all l default_monitor) /\
  alert_rules (snd (resetMetrics pm)) = alert_rules pm /\
  lifecycle_state (snd (resetMetrics pm)) = lifecycle_state pm /\
  last_cpu_time_ (snd (resetMetrics pm)) = last_cpu_time_ pm /\
  last_cpu_check_ (snd (resetMetrics pm)) = last_cpu_check_ pm.
Proof.
  split; [apply record_all_latency_state; reflexivity|]. repeat split.
Qed.

Lemma SFeqb_self_false (x : spec_float) : SFeqb x x = false -> x = S754_nan.
Proof.
  unfold SFeqb. destruct x as [s|s| |s m e]; simpl; try discriminate; try reflexivity.
  - destruct s; discriminate.
  - destruct s; rewrite Z.compare_refl;
      change (Pos.compare_cont Eq m m) with (Pos.compare m m);
      rewrite Pos.compare_refl; discriminate.
Qed.

Lemma SFcompare_total (x y : spec_float) :
  SFeqb x x = true -> SFeqb y y = true -> SFcompare x y <> None.
Proof.
  destruct x as [sx|sx| |sx mx ex], y as [sy|sy| |sy my ey]; simpl; try discriminate.
Qed.

(** A NaN is neither below nor above anything. *)
Lemma nan_incomparable (x t : float) :
  comparable x = false -> (x <=? t) = false /\ (t <? x) = false.
Proof.
  unfold comparable. rewrite FloatAxioms.eqb_spec, FloatAxioms.leb_spec, FloatAxioms.ltb_spec.
  intros H. rewrite (SFeqb_self_false _ H).
  unfold SFleb, SFltb. destruct (Prim2SF t); split; reflexivity.
Qed.

(** For two values that are not NaN, [x <= t] fails exactly when [t < x]. *)
Lemma leb_ltb_complement (x t : float) :
  comparable x = true -> comparable t = true -> (x <=? t) = negb (t <? x).
Proof.
  unfold comparable. rewrite !FloatAxioms.eqb_spec, FloatAxioms.leb_spec, FloatAxioms.ltb_spec.
  intros Hx Ht. pose proof (SFcompare_total _ _ Hx Ht) as N.
  unfold SFleb, SFltb. rewrite (DoubleFacts.SFcompare_swap (Prim2SF x) (Prim2SF t)).
  destruct (SFcompare (Prim2SF x) (Prim2SF t)) as [[]|]; try reflexivity. contradiction.
Qed.

Lemma ltb_comparable_r (x y : float) : (x <? y) = true -> comparable y = true.
Proof.
  unfold comparable. rewrite FloatAxioms.ltb_spec, FloatAxioms.eqb_spec.
  unfold SFltb, SFeqb.
  destruct (Prim2SF x) as [sx|sx| |sx mx ex], (Prim2SF y) as [sy|sy| |sy my ey];
    simpl; try discriminate; try reflexivity; intros _;
    try (destruct sy; reflexivity);
    destruct sy; rewrite Z.compare_refl;
    change (Pos.compare_cont Eq my my) with (Pos.compare my my);
    rewrite Pos.compare_refl; reflexivity.
Qed.

Lemma within_threshold_leb (k : MetricKind) (t : float) (pm : PerformanceMonitor) :
  within_threshold k t pm = (current_of k pm <=? t).
Proof. destruct k; reflexivity. Qed.

(** X6. When the current value of a metric is a NaN, every within-threshold
    query on it answers false, whatever the threshold, and yet the alert
    pass does not call the callback of that metric: the value is reported as
    out of bounds and never alerted on. *)
Theorem nan_value_is_outside_and_silent (k : MetricKind) (pm : PerformanceMonitor) :
  comparable (current_of k pm) = false ->
  (forall t, within_threshold k t pm = false) /\
  invocations k (fst (checkAlerts pm)) = 0%nat.
Proof.
  intros H. split.
  - intros t. rewrite within_threshold_leb. apply (nan_incomparable _ t H).
  - rewrite invocations_checkAlerts.
    replace (alert_due k pm) with false; [rewrite andb_false_r; reflexivity|].
    unfold alert_due. destruct (callback_of k pm); [|reflexivity].
    rewrite (proj2 (nan_incomparable _ (threshold_of k pm) H)), andb_false_r. reflexivity.
Qed.

(** A monitor whose latency handler is registered at 50 ms and whose only
    recording was a NaN. *)
Lemma nan_value_is_outside_and_silent_witness :
  (forall t, within_threshold LatencyKind t
               (setLatencyAlertCallback (Some quiet_callback) 50
                  (recordLatency nan default_monitor)) = false) /\
  invocations LatencyKind
    (fst (checkAlerts (setLatencyAlertCallback (Some quiet_callback) 50
                         (recordLatency nan default_monitor)))) = 0%nat.
Proof.
  apply (nan_value_is_outside_and_silent LatencyKind
           (setLatencyAlertCallback (Some quiet_callback) 50 (recordLatency nan default_monitor))).
  vm_compute. reflexivity.
Defined.

(** X7. For a metric with a registered callback and a positive threshold
    whose current value is not a NaN, in a pass that gets to its block: the
    value is outside its own alert threshold, as the within-threshold query
    reports it, exactly when the pass calls the callback. *)
Theorem outside_threshold_iff_alert (k : MetricKind) (pm : PerformanceMonitor)
    (cb : AlertCallback) :
  callback_of k pm = Some cb ->
  (0 <? threshold_of k pm) = true ->
  comparable (current_of k pm) = true ->
  reached k pm = true ->
  (within_threshold k (threshold_of k pm) pm = false <->
   invocations k (fst (checkAlerts pm)) = 1%nat).
Proof.
  intros Hcb Hpos Hc Hr.
  rewrite within_threshold_leb, invocations_checkAlerts, Hr. simpl.
  rewrite (leb_ltb_complement _ _ Hc (ltb_comparable_r _ _ Hpos)).
  unfold alert_due. rewrite Hcb, Hpos. simpl.
  destruct (threshold_of k pm <? current_of k pm); simpl; split; intros H;
    try reflexivity; discriminate.
Qed.

(** The memory block of the monitor with latency 10 over 5 and memory 100
    over 50, whose latency handler returns. *)
Lemma outside_threshold_iff_alert_witness :
  within_threshold MemoryKind
    (threshold_of MemoryKind
       (setLatencyAlertCallback (Some quiet_callback) 5 breaching_monitor))
    (setLatencyAlertCallback (Some quiet_callback) 5 breaching_monitor) = false <->
  invocations MemoryKind
    (fst (checkAlerts (setLatencyAlertCallback (Some quiet_callback) 5 breaching_monitor)))
    = 1%nat.
Proof.
  apply (outside_threshold_iff_alert MemoryKind
           (setLatencyAlertCallback (Some quiet_callback) 5 breaching_monitor) quiet_callback).
  - reflexivity.
  - vm_compute. reflexivity.
  - vm_compute. reflexivity.
  - vm_compute. reflexivity.
Defined.

(** X8. Calls that write different metrics commute: the order in which
    counter increments, a latency recording and the two gauge writes reach
    the monitor makes no difference to the state they leave. *)
Theorem producer_operations_commute (pm : PerformanceMonitor) :
  (forall k x, incrementCounter k (recordLatency x pm) = recordLatency x (incrementCounter k pm)) /\
  (forall k k', incrementCounter k (incrementCounter k' pm) =
                incrementCounter k' (incrementCounter k pm)) /\
  (forall k m, incrementCounter k (recordMemoryUsage m pm) =
               recordMemoryUsage m (incrementCounter k pm)) /\
  (forall k c, incrementCounter k (recordCpuUsage c pm) =
               recordCpuUsage c (incrementCounter k pm)) /\
  (forall x m, recordLatency x (recordMemoryUsage m pm) =
               recordMemoryUsage m (recordLatency x pm)) /\
  (forall x c, recordLatency x (recordCpuUsage c pm) = recordCpuUsage c (recordLatency x pm)) /\
  (forall m c, recordMemoryUsage m (recordCpuUsage c pm) =
               recordCpuUsage c (recordMemoryUsage m pm)).
Proof.
  destruct pm as [[mp od te al ml mu cu] r en th iv lc ls c1 c2 c3 t1 t2 t3 ck ct].
  repeat split; intros; try (destruct k); try (destruct k');
    unfold recordLatency, Double.gtb; simpl;
    try (destruct (ml <? x)); reflexivity.
Qed.
End MetricsExtras.

(** * Histories of operations *)

Section HistoryExtras.
Open Scope Z_scope.

Lemma counter_of_with_lifecycle (k : CounterKind) (r e : bool) (t : option Thread)
    (pm : PerformanceMonitor) :
  counter_of k (with_lifecycle r e t pm) = counter_of k pm.
Proof. destruct k; reflexivity. Qed.

Lemma start_counter (k : CounterKind) (p p' : Process) :
  start p = Ok p' -> counter_of k (monitor p') = counter_of k (monitor p).
Proof.
  unfold start. destruct (running_ (monitor p)).
  - intros E. injection E as <-. reflexivity.
  - destruct (monitoring_thread_ (monitor p)) as [old|]; [destruct (joinable old)|];
      try discriminate; intros E; injection E as <-; apply counter_of_with_lifecycle.
Qed.

Lemma stop_counter (k : CounterKind) (p : Process) :
  counter_of k (monitor (stop p)) = counter_of k (monitor p).
Proof.
  unfold stop. destruct (running_ (monitor p)); simpl; [|reflexivity].
  destruct (monitoring_thread_ (monitor p)) as [t|]; [destruct (joinable t)|];
    apply counter_of_with_lifecycle.
Qed.

(** What one operation does to a counter. *)
Lemma apply_op_counter (k : CounterKind) (o : Op) (p p' : Process) :
  apply_op o p = Ok p' ->
  counter_of k (monitor p') =
  match o with
  | OpIncrement k' =>
      if counter_kind_eqb k k' then U64.wrap (counter_of k (monitor p) + 1)
      else counter_of k (monitor p)
  | OpResetMetrics => 0
  | _ => counter_of k (monitor p)
  end.
Proof.
  destruct o; simpl; intros E.
  - injection E as <-. destruct k; reflexivity.
  - apply start_counter, E.
  - injection E as <-. apply stop_counter.
  - injection E as <-. apply incrementCounter_counter.
  - injection E as <-. simpl. unfold recordLatency.
    destruct (Double.gtb latency_ms _); destruct k; reflexivity.
  - injection E as <-. destruct k; reflexivity.
  - injection E as <-. destruct k; reflexivity.
  - injection E as <-. destruct k; reflexivity.
Qed.

Lemma run_ops_counter (k : CounterKind) (ops : list Op) :
  forall (p : Process) (acc : Z),
    lifecycle_inv p ->
    counter_of k (monitor p) = U64.wrap acc ->
    exists p', run_ops ops p = Ok p' /\
               counter_of k (monitor p') = U64.wrap (increments_since_reset k ops acc).
Proof.
  induction ops as [|o rest IH]; intros p acc Hi Hc; simpl.
  - eauto.
  - destruct (apply_op_inv o p Hi) as (p1 & E & H1). rewrite E.
    pose proof (apply_op_counter k o p p1 E) as C.
    destruct o; try (apply IH; [exact H1|rewrite C; exact Hc]).
    + apply IH; [exact H1|]. rewrite C.
      destruct (counter_kind_eqb k k0); [|exact Hc].
      rewrite Hc. apply wrap_add_l.
    + apply IH; [exact H1|]. rewrite C. reflexivity.
Qed.

(** X9. After any sequence of operations on a fresh monitor, each counter
    holds, modulo [2^64], the number of its increments made since the last
    [resetMetrics]: nothing but its own increments and a reset changes a
    counter, whatever lifecycle calls, recordings and increments of the
    other counters come in between. *)
Theorem counters_count_increments_since_reset (ops : list Op) (k : CounterKind) :
  exists p,
    run_ops ops fresh_process = Ok p /\
    counter_of k (monitor p) = U64.wrap (increments_since_reset k ops 0).
Proof.
  apply run_ops_counter; [apply fresh_process_inv|]. destruct k; reflexivity.
Qed.

Lemma thread_events_app (t u : list Event) :
  thread_events (t ++ u) = (thread_events t ++ thread_events u)%list.
Proof. apply List.filter_app. Qed.

Lemma fresh_process_history : thread_history_inv fresh_process.
Proof. unfold thread_history_inv. simpl. auto. Qed.

Lemma on_monitor_history (f : PerformanceMonitor -> PerformanceMonitor) (p : Process) :
  (forall pm, running_ (f pm) = running_ pm /\
              monitoring_enabled_ (f pm) = monitoring_enabled_ pm /\
              monitoring_thread_ (f pm) = monitoring_thread_ pm) ->
  thread_history_inv p -> thread_history_inv (on_monitor f p).
Proof.
  intros Hf. unfold thread_history_inv, on_monitor. simpl.
  destruct (Hf (monitor p)) as (-> & _ & ->). auto.
Qed.

Lemma emit_log_history (lv : Level) (s : string) (p : Process) :
  thread_history_inv p -> thread_history_inv (emit [Log lv s] p).
Proof.
  unfold thread_history_inv, emit. simpl.
  rewrite thread_events_app. simpl. rewrite List.app_nil_r. auto.
Qed.

Lemma start_history (p p' : Process) :
  thread_history_inv p -> start p = Ok p' -> thread_history_inv p'.
Proof.
  unfold start. destruct (running_ (monitor p)) eqn:R.
  - intros H E. injection E as <-. apply emit_log_history, H.
  - unfold thread_history_inv at 1. rewrite R. intros (He & Ht).
    assert (G : thread_history_inv
                  (mkProcess (with_lifecycle true true (Some (mkThread (next_tid p) true))
                                (monitor p))
                     (next_tid p :: live p) (S (next_tid p))
                     (events p ++ [Spawn (next_tid p); Log INFO "Performance monitor started"]))).
    { unfold thread_history_inv. simpl. exists (next_tid p).
      repeat split. rewrite thread_events_app, He. reflexivity. }
    destruct (monitoring_thread_ (monitor p)) as [old|]; [destruct (joinable old)|];
      try discriminate; intros E; injection E as <-; exact G.
Qed.

Lemma stop_history (p : Process) : thread_history_inv p -> thread_history_inv (stop p).
Proof.
  unfold stop. intros H. pose proof H as H'. unfold thread_history_inv in H'.
  destruct (running_ (monitor p)) eqn:R; simpl; [|exact H].
  destruct H' as (n & Hn & -> & He). simpl.
  unfold thread_history_inv. simpl. split; [|reflexivity].
  rewrite thread_events_app, He, Hn. simpl. rewrite <- List.app_assoc. reflexivity.
Qed.

Lemma apply_op_history (o : Op) (p p' : Process) :
  thread_history_inv p -> apply_op o p = Ok p' -> thread_history_inv p'.
Proof.
  intros H. destruct o; simpl; intros E.
  - injection E as <-. apply emit_log_history, on_monitor_history; [|exact H].
    intros pm. repeat split.
  - exact (start_history p p' H E).
  - injection E as <-. apply stop_history, H.
  - injection E as <-. apply on_monitor_history; [|exact H].
    intros pm. destruct (incrementCounter_lifecycle k pm) as (A & B & C & _). auto.
  - injection E as <-. apply on_monitor_history; [|exact H].
    intros pm. destruct (recordLatency_lifecycle latency_ms pm) as (A & B & C & _). auto.
  - injection E as <-. apply on_monitor_history; [|exact H]. intros pm. repeat split.
  - injection E as <-. apply on_monitor_history; [|exact H]. intros pm. repeat split.
  - injection E as <-. apply emit_log_history.
    unfold thread_history_inv, on_monitor in *. simpl. exact H.
Qed.

Lemma run_ops_history (ops : list Op) :
  forall p : Process,
    lifecycle_inv p -> thread_history_inv p ->
    exists p', run_ops ops p = Ok p' /\ thread_history_inv p'.
Proof.
  induction ops as [|o rest IH]; intros p Hi Hh; simpl.
  - eauto.
  - destruct (apply_op_inv o p Hi) as (p1 & E & H1). rewrite E.
    apply IH; [exact H1|]. exact (apply_op_history o p p1 Hh E).
Qed.

(** X10. Sampler threads never overlap and none is left unjoined: after
    any sequence of operations on a fresh monitor the thread events are
    [Spawn 0; Join 0; Spawn 1; Join 1; ...] with thread ids in the order of
    creation, followed by the spawn of the one running sampler exactly when
    [running_] is set; and after the [stop] that the destructor makes every
    thread ever spawned has been joined. *)
Theorem sampler_threads_joined_in_turn (ops : list Op) :
  exists p n,
    run_ops ops fresh_process = Ok p /\
    thread_events (events p) =
      (completed_threads n ++ (if running_ (monitor p) then [Spawn n] else []))%list /\
    next_tid p = (if running_ (monitor p) then S n else n) /\
    thread_events (events (stop p)) = completed_threads (next_tid p).
Proof.
  destruct (run_ops_history ops fresh_process fresh_process_inv fresh_process_history)
    as (p & E & H).
  pose proof (stop_history p H) as Hs.
  assert (Rs : running_ (monitor (stop p)) = false).
  { unfold stop. destruct (running_ (monitor p)) eqn:R; simpl; [|exact R].
    destruct (monitoring_thread_ (monitor p)) as [t|]; [destruct (joinable t)|]; reflexivity. }
  assert (Ns : next_tid (stop p) = next_tid p).
  { unfold stop. destruct (running_ (monitor p)); simpl; [|reflexivity].
    destruct (monitoring_thread_ (monitor p)) as [t|]; [destruct (joinable t)|]; reflexivity. }
  unfold thread_history_inv in Hs. rewrite Rs, Ns in Hs. destruct Hs as (Hs & _).
  unfold thread_history_inv in H. destruct (running_ (monitor p)) eqn:R.
  - destruct H as (n & Hn & _ & He). exists p, n. rewrite R. auto.
  - destruct H as (He & _). exists p, (next_tid p).
    rewrite R, List.app_nil_r. auto.
Qed.
End HistoryExtras.

(** * Names and order books of [types.hpp] *)

Section TypesExtras.
Import Types.
Open Scope float_scope.

(** X11. The names of exchanges and instrument types survive a round
    trip: converting a value to its name and back gives the value, and a
    string that does not come back from the round trip unchanged is one that
    parses to [UNKNOWN]. Parsing is exact: only the four, respectively
    five, names written by the printers are understood. *)
Theorem enum_names_round_trip :
  (forall e, stringToExchange (exchangeToString e) = e) /\
  (forall s, exchangeToString (stringToExchange s) = s \/ stringToExchange s = UNKNOWN) /\
  (forall t, stringToInstrumentType (instrumentTypeToString t) = t) /\
  (forall s, instrumentTypeToString (stringToInstrumentType s) = s \/
             stringToInstrumentType s = InstrumentType.UNKNOWN).
Proof.
  split; [intros []; reflexivity|]. split.
  - intros s. unfold stringToExchange.
    destruct (String.eqb_spec s "OKX") as [->|_]; [left; reflexivity|].
    destruct (String.eqb_spec s "BINANCE") as [->|_]; [left; reflexivity|].
    destruct (String.eqb_spec s "BYBIT") as [->|_]; [left; reflexivity|].
    right. reflexivity.
  - split; [intros []; reflexivity|].
    intros s. unfold stringToInstrumentType.
    destruct (String.eqb_spec s "SPOT") as [->|_]; [left; reflexivity|].
    destruct (String.eqb_spec s "PERPETUAL_SWAP") as [->|_]; [left; reflexivity|].
    destruct (String.eqb_spec s "FUTURES") as [->|_]; [left; reflexivity|].
    destruct (String.eqb_spec s "OPTION") as [->|_]; [left; reflexivity|].
    right. reflexivity.
Qed.

Lemma SFleb_trans (x y z : spec_float) :
  SFleb x y = true -> SFleb y z = true -> SFleb x z = true.
Proof.
  unfold SFleb.
  destruct x as [sx|sx| |sx mx ex], y as [sy|sy| |sy my ey], z as [sz|sz| |sz mz ez];
    simpl; try discriminate; try reflexivity;
    try (destruct sx; simpl; try discriminate);
    try (destruct sy; simpl; try discriminate);
    try (destruct sz; simpl; try discriminate);
    try reflexivity;
    intros H1 H2; DoubleFacts.cmp_cases; simpl in *; try discriminate; try reflexivity;
    subst; lia.
Qed.

Lemma leb_trans (x y z : float) :
  (x <=? y) = true -> (y <=? z) = true -> (x <=? z) = true.
Proof. rewrite !FloatAxioms.leb_spec. apply SFleb_trans. Qed.

(** In a list whose neighbours are in order, every later element is at or
    below the first. *)
Lemma descending_below_head (l : list OrderBookEntry) (d : OrderBookEntry) :
  (forall i, (i + 1 < List.length l)%nat ->
     (price (List.nth (i + 1) l d) <=? price (List.nth i l d)) = true) ->
  forall i, (i + 1 < List.length l)%nat ->
    (price (List.nth (i + 1) l d) <=? price (List.nth 0 l d)) = true.
Proof.
  intros H i. induction i as [|i IH]; intros Hi.
  - apply (H 0%nat Hi).
  - apply (leb_trans _ (price (List.nth (i + 1) l d))).
    + replace (S i + 1)%nat with ((i + 1) + 1)%nat by lia. apply H. lia.
    + apply IH. lia.
Qed.

Lemma ascending_above_head (l : list OrderBookEntry) (d : OrderBookEntry) :
  (forall i, (i + 1 < List.length l)%nat ->
     (price (List.nth i l d) <=? price (List.nth (i + 1) l d)) = true) ->
  forall i, (i + 1 < List.length l)%nat ->
    (price (List.nth 0 l d) <=? price (List.nth (i + 1) l d)) = true.
Proof.
  intros H i. induction i as [|i IH]; intros Hi.
  - apply (H 0%nat Hi).
  - apply (leb_trans _ (price (List.nth (i + 1) l d))).
    + apply IH. lia.
    + replace (S i + 1)%nat with ((i + 1) + 1)%nat by lia. apply H. lia.
Qed.

(** X12. On a book whose sides are listed from the best price on, no bid
    is above [getBestBid] and no ask is below [getBestAsk]; when a side is
    empty its best price is reported as 0, so that an empty book has best
    bid, best ask, spread and mid price all 0. *)
Theorem best_prices_bound_the_book (b : OrderBook) :
  bids_descending b -> asks_ascending b ->
  (forall e, List.In e (bids b) -> (getBestBid b <? price e) = false) /\
  (forall e, List.In e (asks b) -> (price e <? getBestAsk b) = false) /\
  (bids b = [] -> getBestBid b = 0) /\
  (asks b = [] -> getBestAsk b = 0) /\
  (bids b = [] -> asks b = [] -> getSpread b = 0 /\ getMidPrice b = 0).
Proof.
  unfold bids_descending, asks_ascending, getSpread, getMidPrice, getBestBid, getBestAsk.
  intros Hb Ha. repeat split.
  - intros e He. destruct (List.In_nth _ _ (mkEntry 0 0 0) He) as (i & Hi & <-).
    destruct (bids b) as [|e0 l] eqn:E; [simpl in Hi; lia|].
    destruct i as [|i]; [apply DoubleFacts.ltb_irrefl|].
    apply DoubleFacts.leb_not_gt.
    replace (S i) with (i + 1)%nat by lia.
    apply (descending_below_head (e0 :: l) (mkEntry 0 0 0) Hb i). simpl in *. lia.
  - intros e He. destruct (List.In_nth _ _ (mkEntry 0 0 0) He) as (i & Hi & <-).
    destruct (asks b) as [|e0 l] eqn:E; [simpl in Hi; lia|].
    destruct i as [|i]; [apply DoubleFacts.ltb_irrefl|].
    apply DoubleFacts.leb_not_gt.
    replace (S i) with (i + 1)%nat by lia.
    apply (ascending_above_head (e0 :: l) (mkEntry 0 0 0) Ha i). simpl in *. lia.
  - intros ->. reflexivity.
  - intros ->. reflexivity.
  - rewrite H, H0. reflexivity.
  - rewrite H, H0. reflexivity.
Qed.

(** A book with bids at 101, 100.5 and 99 and asks at 102 and 103. *)
Lemma best_prices_bound_the_book_witness :
  (forall e,
     List.In e (bids (mkOrderBook [mkEntry 101 1 0; mkEntry 100.5 2 0; mkEntry 99 3 0]
                        [mkEntry 102 1 0; mkEntry 103 4 0] 0 "BTC-USDT" "OKX")) ->
     (getBestBid (mkOrderBook [mkEntry 101 1 0; mkEntry 100.5 2 0; mkEntry 99 3 0]
                    [mkEntry 102 1 0; mkEntry 103 4 0] 0 "BTC-USDT" "OKX") <? price e) = false) /\
  (forall e,
     List.In e (asks (mkOrderBook [mkEntry 101 1 0; mkEntry 100.5 2 0; mkEntry 99 3 0]
                        [mkEntry 102 1 0; mkEntry 103 4 0] 0 "BTC-USDT" "OKX")) ->
     (price e <? getBestAsk (mkOrderBook [mkEntry 101 1 0; mkEntry 100.5 2 0; mkEntry 99 3 0]
                    [mkEntry 102 1 0; mkEntry 103 4 0] 0 "BTC-USDT" "OKX")) = false).
Proof.
  pose proof (best_prices_bound_the_book
                (mkOrderBook [mkEntry 101 1 0; mkEntry 100.5 2 0; mkEntry 99 3 0]
                   [mkEntry 102 1 0; mkEntry 103 4 0] 0 "BTC-USDT" "OKX")) as H.
  assert (Hb : bids_descending
                 (mkOrderBook [mkEntry 101 1 0; mkEntry 100.5 2 0; mkEntry 99 3 0]
                    [mkEntry 102 1 0; mkEntry 103 4 0] 0 "BTC-USDT" "OKX")).
  { intros i Hi. simpl in Hi.
    destruct i as [|[|i]]; [vm_compute; reflexivity|vm_compute; reflexivity|lia]. }
  assert (Ha : asks_ascending
                 (mkOrderBook [mkEntry 101 1 0; mkEntry 100.5 2 0; mkEntry 99 3 0]
                    [mkEntry 102 1 0; mkEntry 103 4 0] 0 "BTC-USDT" "OKX")).
  { intros i Hi. simpl in Hi. destruct i as [|i]; [vm_compute; reflexivity|lia]. }
  destruct (H Hb Ha) as (A & B & _). split; [exact A|exact B].
Defined.
End TypesExtras.

(** * The configuration manager *)

Section ConfigExtras.
Import Types Config.
Open Scope float_scope.

Lemma validate_exchanges_accepts (m : list (string * ExchangeConfig)) :
  forall b : bool,
    validate_exchanges m b = inr true <->
    List.Forall exchange_ok m /\
    (b = true \/ List.Exists (fun entry => enabled (snd entry) = true) m).
Proof.
  induction m as [|[k c] m IH]; intros b; simpl.
  - split.
    + intros E. injection E as ->. split; [constructor|left; reflexivity].
    + intros (_ & [->|H]); [reflexivity|inversion H].
  - destruct (enabled c) eqn:En.
    + destruct (is_empty (websocket_url c)) eqn:W.
      * split; [discriminate|]. intros (F & _).
        inversion F as [|x l Hok Hrest]; subst.
        destruct (Hok En) as (A & _). simpl in A. congruence.
      * destruct (Z.leb_spec (connection_timeout_ms c) 0) as [L|L].
        -- split; [discriminate|]. intros (F & _).
           inversion F as [|x l Hok Hrest]; subst.
           destruct (Hok En) as (_ & B). simpl in B. lia.
        -- rewrite IH. split.
           ++ intros (F & _). split.
              ** constructor; [|exact F]. intros _. simpl. split; [exact W|lia].
              ** right. constructor. exact En.
           ++ intros (F & _). inversion F; subst. split; [assumption|left; reflexivity].
    + rewrite IH. split.
      * intros (F & H). split.
        -- constructor; [|exact F]. intros E. simpl in E. congruence.
        -- destruct H as [H|H]; [left; exact H|right; constructor 2; exact H].
      * intros (F & H). inversion F; subst. split; [assumption|].
        destruct H as [H|H]; [left; exact H|].
        inversion H as [x l E|x l E]; subst; [simpl in E; congruence|right; exact E].
Qed.

Lemma validate_instruments_accepts (l : list Instrument) :
  forall b : bool,
    validate_instruments l b = inr true <->
    List.Forall instrument_ok l /\
    (b = true \/ List.Exists (fun i => is_active i = true) l).
Proof.
  induction l as [|i l IH]; intros b; simpl.
  - split.
    + intros E. injection E as ->. split; [constructor|left; reflexivity].
    + intros (_ & [->|H]); [reflexivity|inversion H].
  - destruct (is_active i) eqn:En.
    + destruct (is_empty (symbol i)) eqn:W.
      * split; [discriminate|]. intros (F & _).
        inversion F as [|x l' Hok Hrest]; subst.
        destruct (Hok En) as (A & _). congruence.
      * destruct (tick_size i <=? 0) eqn:L.
        -- split; [discriminate|]. intros (F & _).
           inversion F as [|x l' Hok Hrest]; subst.
           destruct (Hok En) as (_ & B). congruence.
        -- rewrite IH. split.
           ++ intros (F & _). split.
              ** constructor; [|exact F]. intros _. split; [exact W|exact L].
              ** right. constructor. exact En.
           ++ intros (F & _). inversion F; subst. split; [assumption|left; reflexivity].
    + rewrite IH. split.
      * intros (F & H). split.
        -- constructor; [|exact F]. intros E. congruence.
        -- destruct H as [H|H]; [left; exact H|right; constructor 2; exact H].
      * intros (F & H). inversion F; subst. split; [assumption|].
        destruct H as [H|H]; [left; exact H|].
        inversion H as [x l' E|x l' E]; subst; [congruence|right; exact E].
Qed.

Lemma validateConfiguration_true (c : SystemConfig) :
  snd (validateConfiguration c) = true <-> acceptable c.
Proof.
  unfold validateConfiguration, acceptable.
  destruct (is_empty (log_level c)) eqn:E1; simpl.
  { split; [discriminate|]. intros (A & _). discriminate. }
  destruct (Z.leb_spec (thread_pool_size c) 0) as [L|L]; simpl.
  { split; [discriminate|]. intros (_ & A & _). lia. }
  pose proof (validate_exchanges_accepts (exchanges c) false) as VE.
  pose proof (validate_instruments_accepts (instruments c) false) as VI.
  destruct (validate_exchanges (exchanges c) false) as [line|[|]]; simpl.
  - split; [discriminate|]. intros (_ & _ & A & B & _).
    assert (X : @inl string bool line = inr true) by (apply VE; auto). discriminate.
  - destruct (validate_instruments (instruments c) false) as [line|[|]]; simpl.
    + split; [discriminate|]. intros (_ & _ & _ & _ & A & B & _).
      assert (X : @inl string bool line = inr true) by (apply VI; auto). discriminate.
    + destruct (proj1 VE eq_refl) as (F1 & [X|X1]); [discriminate|].
      destruct (proj1 VI eq_refl) as (F2 & [X|X2]); [discriminate|].
      destruct (min_profit_threshold (arbitrage c) <=? 0) eqn:P; simpl.
      { split; [discriminate|]. intros (_ & _ & _ & _ & _ & _ & A & _). discriminate. }
      destruct (max_position_size (arbitrage c) <=? 0) eqn:Q; simpl.
      { split; [discriminate|]. intros (_ & _ & _ & _ & _ & _ & _ & A). discriminate. }
      split; [|reflexivity]. intros _. repeat split; auto.
    + split; [discriminate|]. intros (_ & _ & _ & _ & A & B & _).
      assert (X : @inr string bool false = inr true) by (apply VI; auto). discriminate.
  - split; [discriminate|]. intros (_ & _ & A & B & _).
    assert (X : @inr string bool false = inr true) by (apply VE; auto). discriminate.
Qed.

Lemma validateConfiguration_line (c : SystemConfig) :
  fst (validateConfiguration c) = None <-> snd (validateConfiguration c) = true.
Proof.
  unfold validateConfiguration.
  destruct (is_empty (log_level c)); simpl; [split; discriminate|].
  destruct (thread_pool_size c <=? 0)%Z; simpl; [split; discriminate|].
  destruct (validate_exchanges (exchanges c) false) as [line|[|]]; simpl;
    try (split; discriminate).
  destruct (validate_instruments (instruments c) false) as [line|[|]]; simpl;
    try (split; discriminate).
  destruct (min_profit_threshold (arbitrage c) <=? 0); simpl; [split; discriminate|].
  destruct (max_position_size (arbitrage c) <=? 0); simpl; [split; discriminate|].
  split; reflexivity.
Qed.

(** X13. [validateConfiguration] returns true exactly on the acceptable
    configurations: a log level is named, the thread pool size is positive,
    every enabled exchange has a WebSocket URL and a positive connection
    timeout and at least one exchange is enabled, every active instrument
    has a symbol and a tick size that is not at or below zero and at least
    one instrument is active, and neither the minimum profit threshold nor
    the maximum position size is at or below zero. Disabled exchanges and
    inactive instruments are not looked at. It writes a line to the console
    exactly when it returns false. *)
Theorem validateConfiguration_accepts_exactly (c : SystemConfig) :
  (snd (validateConfiguration c) = true <-> acceptable c) /\
  (fst (validateConfiguration c) = None <-> snd (validateConfiguration c) = true).
Proof. split; [apply validateConfiguration_true|apply validateConfiguration_line]. Qed.

Lemma In_keys_filter (f : string * ExchangeConfig -> bool) (name : string)
    (m : list (string * ExchangeConfig)) :
  List.In name (List.map fst (List.filter f m)) -> List.In name (List.map fst m).
Proof.
  rewrite !List.in_map_iff. intros (x & Hx & Hin).
  apply List.filter_In in Hin. exists x. tauto.
Qed.

Lemma find_enabled_listed (name : string) (m : list (string * ExchangeConfig)) :
  List.NoDup (List.map fst m) ->
  (exists c, find name m = Some c /\ enabled c = true) <->
  List.In name (List.map fst (List.filter (fun entry => enabled (snd entry)) m)).
Proof.
  induction m as [|[k c] m IH]; simpl; intros ND.
  - split; [intros (c & E & _); discriminate|contradiction].
  - inversion ND as [|x l Hk ND']; subst.
    destruct (String.eqb_spec k name) as [->|N].
    + split.
      * intros (c' & E & En). injection E as <-. rewrite En. left. reflexivity.
      * destruct (enabled c) eqn:En; simpl.
        -- intros _. exists c. auto.
        -- intros H. apply In_keys_filter in H. contradiction.
    + rewrite (IH ND'). destruct (enabled c); simpl; [|tauto].
      split; [auto|]. intros [E|H]; [contradiction|exact H].
Qed.

(** X14. [isExchangeEnabled] never raises: on a manager that is not
    loaded, or for a name that is not configured, it answers false. It
    answers true exactly for the names that [getEnabledExchanges] lists. *)
Theorem isExchangeEnabled_matches_enabled_list (name : string) (cm : ConfigManager) :
  distinct_keys cm ->
  (exists b, isExchangeEnabled name cm = Normal b) /\
  (config_loaded_ cm = false -> isExchangeEnabled name cm = Normal false) /\
  (find name (exchanges (system_config_ cm)) = None ->
   isExchangeEnabled name cm = Normal false) /\
  (isExchangeEnabled name cm = Normal true <->
   exists l, getEnabledExchanges cm = Normal l /\ List.In name l).
Proof.
  unfold distinct_keys. intros ND.
  pose proof (find_enabled_listed name _ ND) as F.
  unfold isExchangeEnabled, getExchangeConfig, getEnabledExchanges.
  destruct (config_loaded_ cm); simpl.
  - destruct (find name (exchanges (system_config_ cm))) as [c|] eqn:E.
    + repeat split; eauto; try discriminate.
      * intros H. injection H as H. eexists. split; [reflexivity|].
        apply F. eauto.
      * intros (l & El & Hin). injection El as <-.
        apply F in Hin. destruct Hin as (c' & Ec & En). injection Ec as <-.
        rewrite En. reflexivity.
    + repeat split; eauto; try discriminate.
      intros (l & El & Hin). injection El as <-.
      apply F in Hin. destruct Hin as (c' & Ec & _). discriminate.
  - repeat split; eauto; try discriminate.
    intros (l & El & _). discriminate.
Qed.

Lemma isExchangeEnabled_matches_enabled_list_witness :
  (exists b, isExchangeEnabled "okx" (mkConfigManager sample_config true "config.json")
             = Normal b) /\
  (isExchangeEnabled "okx" (mkConfigManager sample_config true "config.json") = Normal true <->
   exists l, getEnabledExchanges (mkConfigManager sample_config true "config.json") = Normal l /\
             List.In "okx"%string l).
Proof.
  destruct (isExchangeEnabled_matches_enabled_list "okx"
              (mkConfigManager sample_config true "config.json")) as (A & _ & _ & B).
  - unfold distinct_keys. simpl. constructor; [simpl; tauto|constructor].
  - split; [exact A|exact B].
Defined.

Lemma find_set_enabled_same (name : string) (b : bool) (m : list (string * ExchangeConfig)) :
  find name (set_enabled name b m) = option_map (with_enabled b) (find name m).
Proof.
  induction m as [|[k c] m IH]; simpl; [reflexivity|].
  destruct (String.eqb k name) eqn:E; simpl; rewrite E; [reflexivity|exact IH].
Qed.

Lemma find_set_enabled_other (name other : string) (b : bool)
    (m : list (string * ExchangeConfig)) :
  other <> name -> find other (set_enabled name b m) = find other m.
Proof.
  intros N. induction m as [|[k c] m IH]; simpl; [reflexivity|].
  destruct (String.eqb_spec k name) as [->|Nk]; simpl.
  - destruct (String.eqb_spec name other) as [E|_]; [congruence|reflexivity].
  - rewrite IH. reflexivity.
Qed.

Lemma set_enabled_unknown (name : string) (b : bool) (m : list (string * ExchangeConfig)) :
  find name m = None -> set_enabled name b m = m.
Proof.
  induction m as [|[k c] m IH]; simpl; [reflexivity|].
  destruct (String.eqb k name); [discriminate|]. intros H. rewrite (IH H). reflexivity.
Qed.

Lemma set_enabled_keys (name : string) (b : bool) (m : list (string * ExchangeConfig)) :
  List.map fst (set_enabled name b m) = List.map fst m.
Proof.
  induction m as [|[k c] m IH]; simpl; [reflexivity|].
  destruct (String.eqb k name); simpl; [reflexivity|]. rewrite IH. reflexivity.
Qed.

(** X15. [enableExchange] overwrites the flag of the named exchange and
    nothing else: the entry read back is the old one with the new flag,
    every other name reads as before, the set of configured names does not
    change, and for a name that is not configured the call does nothing at
    all (no entry is created, nothing is reported). *)
Theorem enableExchange_touches_one_entry (name : string) (b : bool) (cm : ConfigManager) :
  (forall c, getExchangeConfig name cm = Normal c ->
             getExchangeConfig name (enableExchange name b cm) = Normal (with_enabled b c)) /\
  (forall other, other <> name ->
     getExchangeConfig other (enableExchange name b cm) = getExchangeConfig other cm) /\
  List.map fst (exchanges (system_config_ (enableExchange name b cm))) =
    List.map fst (exchanges (system_config_ cm)) /\
  (find name (exchanges (system_config_ cm)) = None -> enableExchange name b cm = cm) /\
  getEnabledInstruments (enableExchange name b cm) = getEnabledInstruments cm /\
  getArbitrageConfig (enableExchange name b cm) = getArbitrageConfig cm.
Proof.
  repeat split.
  - intros c. unfold getExchangeConfig, enableExchange. simpl.
    destruct (config_loaded_ cm); simpl; [|discriminate].
    rewrite find_set_enabled_same.
    destruct (find name (exchanges (system_config_ cm))); [|discriminate].
    intros E. injection E as ->. reflexivity.
  - intros other N. unfold getExchangeConfig, enableExchange. simpl.
    rewrite (find_set_enabled_other name other b _ N). reflexivity.
  - apply set_enabled_keys.
  - intros H. unfold enableExchange. rewrite (set_enabled_unknown name b _ H).
    destruct cm as [[ll lf pf mp tp ex ins ar] ld fp]. reflexivity.
Qed.

Lemma Exists_filter_nonempty (A : Type) (f : A -> bool) (l : list A) :
  List.Exists (fun x => f x = true) l -> List.filter f l <> [].
Proof.
  intros H. apply List.Exists_exists in H. destruct H as (x & Hin & Hx).
  intros E. assert (X : List.In x (List.filter f l)) by (apply List.filter_In; auto).
  rewrite E in X. contradiction.
Qed.

Lemma sample_config_acceptable : snd (validateConfiguration sample_config) = true.
Proof. vm_compute. reflexivity. Qed.

(** X16. When [loadConfig] returns true, the manager is loaded, remembers
    the file name, and holds a configuration that [validateConfiguration]
    accepts; the getters then succeed, the lists of enabled exchanges and
    of active instruments are not empty, and the only line written is the
    success message. *)
Theorem loadConfig_true_means_valid (config_file : string) (file_opens : bool)
    (parse : SystemConfig -> SystemConfig * option Exn) (cm : ConfigManager) :
  snd (loadConfig config_file file_opens parse cm) = Normal true ->
  config_loaded_ (snd (fst (loadConfig config_file file_opens parse cm))) = true /\
  config_file_path_ (snd (fst (loadConfig config_file file_opens parse cm))) = config_file /\
  acceptable (system_config_ (snd (fst (loadConfig config_file file_opens parse cm)))) /\
  getSystemConfig (snd (fst (loadConfig config_file file_opens parse cm))) =
    Normal (fst (parse (system_config_ cm))) /\
  (exists l, getEnabledExchanges (snd (fst (loadConfig config_file file_opens parse cm)))
             = Normal l /\ l <> []) /\
  (exists l, getEnabledInstruments (snd (fst (loadConfig config_file file_opens parse cm)))
             = Normal l /\ l <> []) /\
  fst (fst (loadConfig config_file file_opens parse cm)) =
    [("Configuration loaded successfully from: " ++ config_file)%string].
Proof.
  unfold loadConfig. destruct file_opens; simpl; [|discriminate].
  destruct (parse (system_config_ cm)) as [c [[what|]|]]; simpl; try discriminate.
  pose proof (validateConfiguration_true c) as V.
  pose proof (validateConfiguration_line c) as L.
  destruct (validateConfiguration c) as [line [|]]; simpl in *; [|discriminate].
  intros _. destruct (proj1 V eq_refl) as (A1 & A2 & A3 & A4 & A5 & A6 & A7 & A8).
  rewrite (proj2 L eq_refl). simpl.
  repeat split; auto.
  - eexists. split; [reflexivity|]. intros E. apply List.map_eq_nil in E.
    revert E. apply (Exists_filter_nonempty _ (fun entry => enabled (snd entry))). exact A4.
  - eexists. split; [reflexivity|]. apply Exists_filter_nonempty. exact A6.
Qed.

Lemma loadConfig_true_means_valid_witness :
  config_loaded_ (snd (fst (loadConfig "config.json" true (fun _ => (sample_config, None))
                              fresh_manager))) = true /\
  acceptable (system_config_ (snd (fst (loadConfig "config.json" true
                                          (fun _ => (sample_config, None)) fresh_manager)))).
Proof.
  destruct (loadConfig_true_means_valid "config.json" true (fun _ => (sample_config, None))
              fresh_manager) as (A & _ & B & _).
  - vm_compute. reflexivity.
  - split; [exact A|exact B].
Defined.

Lemma apply_call_loaded (c : Call) (cm : ConfigManager) :
  config_loaded_ cm = true -> config_loaded_ (apply_call c cm) = true.
Proof.
  intros H. destruct c as [f o parse|a|n b]; simpl; [|exact H|exact H].
  unfold loadConfig. destruct o; simpl; [|exact H].
  destruct (parse (system_config_ cm)) as [c [[what|]|]]; simpl; try exact H.
  destruct (validateConfiguration c) as [line [|]]; reflexivity.
Qed.

Lemma apply_calls_loaded (calls : list Call) :
  forall cm, config_loaded_ cm = true -> config_loaded_ (apply_calls calls cm) = true.
Proof.
  unfold apply_calls. induction calls as [|c calls IH]; intros cm H; simpl; [exact H|].
  apply IH, apply_call_loaded, H.
Qed.

(** X17. A load whose validation fails returns false but leaves the
    manager loaded with the rejected configuration: [config_loaded_] is set
    before [validateConfiguration] runs, so afterwards [getSystemConfig]
    hands out the configuration that was just rejected. Nothing clears the
    flag again: whatever calls follow, failed loads included, the getters
    never throw "Configuration not loaded". *)
Theorem rejected_config_stays_loaded (config_file : string)
    (parse : SystemConfig -> SystemConfig * option Exn) (cm : ConfigManager)
    (calls : list Call) :
  snd (parse (system_config_ cm)) = None ->
  snd (validateConfiguration (fst (parse (system_config_ cm)))) = false ->
  snd (loadConfig config_file true parse cm) = Normal false /\
  List.In "Configuration validation failed"%string
    (fst (fst (loadConfig config_file true parse cm))) /\
  getSystemConfig (snd (fst (loadConfig config_file true parse cm))) =
    Normal (fst (parse (system_config_ cm))) /\
  exists c,
    getSystemConfig (apply_calls calls (snd (fst (loadConfig config_file true parse cm))))
    = Normal c.
Proof.
  intros Hp Hv.
  assert (Hl : config_loaded_ (snd (fst (loadConfig config_file true parse cm))) = true).
  { unfold loadConfig. simpl.
    destruct (parse (system_config_ cm)) as [c [e|]]; simpl in *; [discriminate|].
    destruct (validateConfiguration c) as [line [|]]; reflexivity. }
  repeat split.
  - unfold loadConfig. simpl.
    destruct (parse (system_config_ cm)) as [c [e|]]; simpl in *; [discriminate|].
    destruct (validateConfiguration c) as [line [|]]; simpl in *; [discriminate|reflexivity].
  - unfold loadConfig. simpl.
    destruct (parse (system_config_ cm)) as [c [e|]]; simpl in *; [discriminate|].
    destruct (validateConfiguration c) as [line [|]]; simpl in *; [discriminate|].
    apply List.in_or_app. right. left. reflexivity.
  - unfold getSystemConfig. rewrite Hl. simpl. unfold loadConfig. simpl.
    destruct (parse (system_config_ cm)) as [c [e|]]; simpl in *; [discriminate|].
    destruct (validateConfiguration c) as [line [|]]; reflexivity.
  - unfold getSystemConfig. rewrite (apply_calls_loaded calls _ Hl). simpl. eauto.
Qed.

(** A first load of a file whose thread pool size is zero, followed by a
    load of a file that cannot be opened. *)
Lemma rejected_config_stays_loaded_witness :
  snd (loadConfig "config.json" true (fun _ => (rejected_config, None)) fresh_manager)
    = Normal false /\
  getSystemConfig (snd (fst (loadConfig "config.json" true
                               (fun _ => (rejected_config, None)) fresh_manager)))
    = Normal rejected_config.
Proof.
  destruct (rejected_config_stays_loaded "config.json" (fun _ => (rejected_config, None))
              fresh_manager [CallLoad "missing.json" false (fun c => (c, None))])
    as (A & _ & B & _).
  - reflexivity.
  - vm_compute. reflexivity.
  - split; [exact A|exact B].
Defined.

Lemma disable_only_enabled (name : string) (m : list (string * ExchangeConfig)) :
  List.NoDup (List.map fst m) ->
  List.map fst (List.filter (fun entry => enabled (snd entry)) m) = [name] ->
  List.filter (fun entry => enabled (snd entry)) (set_enabled name false m) = [].
Proof.
  induction m as [|[k c] m IH]; simpl; intros ND H; [discriminate|].
  inversion ND as [|x l Hk ND']; subst.
  destruct (enabled c) eqn:En; simpl in H.
  - injection H as -> H. rewrite String.eqb_refl. simpl.
    apply List.map_eq_nil in H. exact H.
  - destruct (String.eqb_spec k name) as [->|N].
    + exfalso. apply Hk. apply (In_keys_filter (fun entry => enabled (snd entry))).
      rewrite H. left. reflexivity.
    + simpl. rewrite En. apply IH; assumption.
Qed.

Lemma rejected_of_not_acceptable (c : SystemConfig) :
  (acceptable c -> False) -> snd (validateConfiguration c) = false.
Proof.
  intros H. destruct (snd (validateConfiguration c)) eqn:E; [|reflexivity].
  exfalso. apply H, validateConfiguration_true, E.
Qed.

(** X18. The two mutators do not validate what they store. After
    [updateArbitrageConfig] the getter returns the new parameters, also
    when their minimum profit threshold is at or below zero, which
    [validateConfiguration] rejects; and disabling the only enabled
    exchange leaves a loaded manager with no exchange enabled, which
    [validateConfiguration] rejects as well. In both cases the manager stays
    loaded and goes on handing out the configuration. *)
Theorem mutators_do_not_revalidate (cm : ConfigManager) :
  config_loaded_ cm = true ->
  distinct_keys cm ->
  (forall a,
     getArbitrageConfig (updateArbitrageConfig a cm) = Normal a /\
     getSystemConfig (updateArbitrageConfig a cm) =
       Normal (with_arbitrage a (system_config_ cm)) /\
     ((min_profit_threshold a <=? 0) = true ->
      snd (validateConfiguration (system_config_ (updateArbitrageConfig a cm))) = false)) /\
  (forall name,
     getEnabledExchanges cm = Normal [name] ->
     getEnabledExchanges (enableExchange name false cm) = Normal [] /\
     isExchangeEnabled name (enableExchange name false cm) = Normal false /\
     snd (validateConfiguration (system_config_ (enableExchange name false cm))) = false).
Proof.
  unfold distinct_keys. intros Hl ND. split.
  - intros a. unfold getArbitrageConfig, getSystemConfig, updateArbitrageConfig. simpl.
    rewrite Hl. simpl. repeat split.
    intros Hn. apply rejected_of_not_acceptable.
    intros (_ & _ & _ & _ & _ & _ & A & _). simpl in A. congruence.
  - intros name. unfold getEnabledExchanges. rewrite Hl. simpl.
    intros E. injection E as E.
    pose proof (disable_only_enabled name _ ND E) as D.
    rewrite D. simpl. rewrite ?Hl. simpl. split; [reflexivity|]. split.
    + unfold isExchangeEnabled, getExchangeConfig, enableExchange. simpl. rewrite Hl. simpl.
      rewrite find_set_enabled_same.
      destruct (find name (exchanges (system_config_ cm))); reflexivity.
    + apply rejected_of_not_acceptable.
      intros (_ & _ & _ & A & _). simpl in A.
      apply (Exists_filter_nonempty _ (fun entry => enabled (snd entry))) in A.
      contradiction.
Qed.

Lemma mutators_do_not_revalidate_witness :
  getEnabledExchanges (enableExchange "okx" false
                         (mkConfigManager sample_config true "config.json")) = Normal [] /\
  snd (validateConfiguration
         (system_config_ (enableExchange "okx" false
                            (mkConfigManager sample_config true "config.json")))) = false.
Proof.
  destruct (mutators_do_not_revalidate (mkConfigManager sample_config true "config.json"))
    as (_ & B).
  - reflexivity.
  - unfold distinct_keys. simpl. constructor; [simpl; tauto|constructor].
  - destruct (B "okx"%string) as (B1 & _ & B3); [reflexivity|].
    split; [exact B1|exact B3].
Defined.
End ConfigExtras.

(** * The level names of the logger *)

Section LoggerExtras.
Import Spdlog.
Open Scope string_scope.

(** X19. [stringToLogLevel] understands exactly five names besides
    [info]: each of [trace], [debug], [warn] and [critical] selects the
    level of that name, [error] selects [err], and every other string, the
    empty one and names in capitals included, selects [info]; no string
    selects [off]. *)
Theorem stringToLogLevel_names (level : string) :
  (stringToLogLevel level = trace <-> level = "trace") /\
  (stringToLogLevel level = debug <-> level = "debug") /\
  (stringToLogLevel level = warn <-> level = "warn") /\
  (stringToLogLevel level = err <-> level = "error") /\
  (stringToLogLevel level = critical <-> level = "critical") /\
  (stringToLogLevel level = info <->
   (List.In level ["trace"; "debug"; "warn"; "error"; "critical"] -> False)) /\
  stringToLogLevel level <> off.
Proof.
  unfold stringToLogLevel.
  destruct (String.eqb_spec level "trace") as [->|N1].
  { repeat split; intros; try discriminate; try reflexivity.
    exfalso. apply H. simpl. auto. }
  destruct (String.eqb_spec level "debug") as [->|N2].
  { repeat split; intros; try discriminate; try reflexivity.
    exfalso. apply H. simpl. auto. }
  destruct (String.eqb_spec level "info") as [->|N3].
  { repeat split; intros; try discriminate; try reflexivity.
    match goal with
    | G : List.In _ _ |- _ =>
        simpl in G; repeat (destruct G as [G|G]; try discriminate); contradiction
    end. }
  destruct (String.eqb_spec level "warn") as [->|N4].
  { repeat split; intros; try discriminate; try reflexivity.
    exfalso. apply H. simpl. auto. }
  destruct (String.eqb_spec level "error") as [->|N5].
  { repeat split; intros; try discriminate; try reflexivity.
    exfalso. apply H. simpl. auto 6. }
  destruct (String.eqb_spec level "critical") as [->|N6].
  { repeat split; intros; try discriminate; try reflexivity.
    exfalso. apply H. simpl. auto 7. }
  repeat split; intros; try discriminate; try contradiction; try reflexivity.
  match goal with
  | G : List.In _ _ |- _ =>
      simpl in G; repeat (destruct G as [G|G]; try (symmetry in G; contradiction));
      contradiction
  end.
Qed.
End LoggerExtras.

(** * The main loop of the engine *)

Section EngineExtras.
Import Engine.
Open Scope Z_scope.

Lemma div_step (c k : Z) :
  0 <= c -> 0 < k ->
  (c + 1) / k - c / k = if (c + 1) mod k =? 0 then 1 else 0.
Proof.
  intros Hc Hk. destruct (Z.eqb_spec ((c + 1) mod k) 0) as [E|E];
    Z.div_mod_to_equations; nia.
Qed.

Lemma rem_hundred_ten (c : Z) : 0 <= c -> Z.rem c 100 = 0 -> Z.rem c 10 = 0.
Proof.
  intros Hc. rewrite !Z.rem_mod_nonneg by lia. Z.div_mod_to_equations. lia.
Qed.

Lemma five_plus_zero : (5 + Double.of_i64 0 = 5)%float.
Proof. vm_compute. reflexivity. Qed.

Lemma max_with_five_idem (m : float) : max_with_five (max_with_five m) = max_with_five m.
Proof.
  unfold max_with_five. destruct (m <? 5)%float eqn:E.
  - rewrite DoubleFacts.ltb_irrefl. reflexivity.
  - rewrite E. reflexivity.
Qed.

(** What one pass through the loop body does. *)
Lemma loop_iteration_effect (c : Z) (pm : PerformanceMonitor) :
  0 <= c ->
  fst (fst (loop_iteration c pm)) = c + 1 /\
  getMessagesProcessed (snd (loop_iteration c pm)) =
    (if (c + 1) mod 10 =? 0 then U64.wrap (getMessagesProcessed pm + 1)
     else getMessagesProcessed pm) /\
  getOpportunitiesDetected (snd (loop_iteration c pm)) =
    (if (c + 1) mod 100 =? 0 then U64.wrap (getOpportunitiesDetected pm + 1)
     else getOpportunitiesDetected pm) /\
  getTradesExecuted (snd (loop_iteration c pm)) = getTradesExecuted pm /\
  latency_count_ (snd (loop_iteration c pm)) =
    (if (c + 1) mod 10 =? 0 then U64.wrap (latency_count_ pm + 1) else latency_count_ pm) /\
  getMaxLatency (snd (loop_iteration c pm)) =
    (if (c + 1) mod 10 =? 0 then max_with_five (getMaxLatency pm) else getMaxLatency pm) /\
  count_events is_sleep (snd (fst (loop_iteration c pm))) = 1%nat /\
  getMemoryUsage (snd (loop_iteration c pm)) = getMemoryUsage pm /\
  getCpuUsage (snd (loop_iteration c pm)) = getCpuUsage pm /\
  alert_rules (snd (loop_iteration c pm)) = alert_rules pm /\
  lifecycle_state (snd (loop_iteration c pm)) = lifecycle_state pm.
Proof.
  intros Hc. unfold loop_iteration.
  rewrite !Z.rem_mod_nonneg by lia.
  destruct (Z.eqb_spec ((c + 1) mod 10) 0) as [E|E].
  - rewrite E, five_plus_zero.
    destruct pm as [[mp od te al ml mu cu] r en th iv lc ls c1 c2 c3 t1 t2 t3 ck ct].
    unfold recordLatency, Double.gtb, max_with_five, getMaxLatency, getMessagesProcessed,
      getOpportunitiesDetected, getTradesExecuted, getMemoryUsage, getCpuUsage,
      recordMessageProcessed, recordOpportunityDetected. simpl.
    destruct (Z.eqb_spec ((c + 1) mod 100) 0) as [E2|E2];
      destruct (ml <? 5)%float; simpl; repeat split.
  - destruct (Z.eqb_spec ((c + 1) mod 100) 0) as [E2|E2].
    + exfalso. apply E. revert E2. Z.div_mod_to_equations. lia.
    + simpl. repeat split.
Qed.

Lemma run_iterations_effect (n : nat) :
  forall (c0 : Z) (pm : PerformanceMonitor),
    0 <= c0 ->
    U64.in_range (getMessagesProcessed pm) ->
    U64.in_range (getOpportunitiesDetected pm) ->
    U64.in_range (latency_count_ pm) ->
    fst (fst (run_iterations n c0 pm)) = c0 + Z.of_nat n /\
    getMessagesProcessed (snd (run_iterations n c0 pm)) =
      U64.wrap (getMessagesProcessed pm + ((c0 + Z.of_nat n) / 10 - c0 / 10)) /\
    getOpportunitiesDetected (snd (run_iterations n c0 pm)) =
      U64.wrap (getOpportunitiesDetected pm + ((c0 + Z.of_nat n) / 100 - c0 / 100)) /\
    getTradesExecuted (snd (run_iterations n c0 pm)) = getTradesExecuted pm /\
    latency_count_ (snd (run_iterations n c0 pm)) =
      U64.wrap (latency_count_ pm + ((c0 + Z.of_nat n) / 10 - c0 / 10)) /\
    getMaxLatency (snd (run_iterations n c0 pm)) =
      (if (c0 + Z.of_nat n) / 10 - c0 / 10 =? 0 then getMaxLatency pm
       else max_with_five (getMaxLatency pm)) /\
    count_events is_sleep (snd (fst (run_iterations n c0 pm))) = n /\
    getMemoryUsage (snd (run_iterations n c0 pm)) = getMemoryUsage pm /\
    getCpuUsage (snd (run_iterations n c0 pm)) = getCpuUsage pm /\
    alert_rules (snd (run_iterations n c0 pm)) = alert_rules pm /\
    lifecycle_state (snd (run_iterations n c0 pm)) = lifecycle_state pm.
Proof.
  induction n as [|n IH]; intros c0 pm Hc Hm Ho Hl.
  - simpl run_iterations. simpl fst. simpl snd. simpl Z.of_nat.
    rewrite Z.add_0_r, !Z.sub_diag, !Z.add_0_r. simpl.
    rewrite !wrap_small by assumption. repeat split.
  - simpl run_iterations.
    pose proof (loop_iteration_effect c0 pm Hc) as Eff.
    destruct (loop_iteration c0 pm) as [[c1 t1] pm1]. simpl in Eff.
    destruct Eff as (E1 & E2 & E3 & E4 & E5 & E6 & E7 & E8 & E9 & E10 & E11).
    subst c1.
    assert (Hm1 : U64.in_range (getMessagesProcessed pm1)).
    { rewrite E2. destruct ((c0 + 1) mod 10 =? 0); [apply wrap_range|exact Hm]. }
    assert (Ho1 : U64.in_range (getOpportunitiesDetected pm1)).
    { rewrite E3. destruct ((c0 + 1) mod 100 =? 0); [apply wrap_range|exact Ho]. }
    assert (Hl1 : U64.in_range (latency_count_ pm1)).
    { rewrite E5. destruct ((c0 + 1) mod 10 =? 0); [apply wrap_range|exact Hl]. }
    specialize (IH (c0 + 1) pm1 ltac:(lia) Hm1 Ho1 Hl1).
    destruct (run_iterations n (c0 + 1) pm1) as [[c t'] pm2]. simpl in IH. simpl.
    destruct IH as (I1 & I2 & I3 & I4 & I5 & I6 & I7 & I8 & I9 & I10 & I11).
    replace (c0 + Z.pos (Pos.of_succ_nat n)) with (c0 + 1 + Z.of_nat n) by lia.
    pose proof (div_step c0 10 Hc ltac:(lia)) as S10.
    pose proof (div_step c0 100 Hc ltac:(lia)) as S100.
    assert (G10 : 0 <= (c0 + 1 + Z.of_nat n) / 10 - (c0 + 1) / 10).
    { pose proof (Z.div_le_mono (c0 + 1) (c0 + 1 + Z.of_nat n) 10 ltac:(lia) ltac:(lia)). lia. }
    split; [exact I1|].
    split.
    { rewrite I2, E2. destruct ((c0 + 1) mod 10 =? 0).
      - rewrite wrap_add_l. f_equal. lia.
      - f_equal. lia. }
    split.
    { rewrite I3, E3. destruct ((c0 + 1) mod 100 =? 0).
      - rewrite wrap_add_l. f_equal. lia.
      - f_equal. lia. }
    split; [rewrite I4; exact E4|].
    split.
    { rewrite I5, E5. destruct ((c0 + 1) mod 10 =? 0).
      - rewrite wrap_add_l. f_equal. lia.
      - f_equal. lia. }
    split.
    { rewrite I6, E6. destruct ((c0 + 1) mod 10 =? 0).
      - destruct (Z.eqb_spec ((c0 + 1 + Z.of_nat n) / 10 - c0 / 10) 0) as [Z0|Z0]; [lia|].
        destruct ((c0 + 1 + Z.of_nat n) / 10 - (c0 + 1) / 10 =? 0);
          [reflexivity|apply max_with_five_idem].
      - replace ((c0 + 1 + Z.of_nat n) / 10 - c0 / 10)
          with ((c0 + 1 + Z.of_nat n) / 10 - (c0 + 1) / 10) by lia.
        reflexivity. }
    split.
    { unfold count_events in *. rewrite List.filter_app, List.length_app, E7, I7.
      reflexivity. }
    split; [rewrite I8; exact E8|].
    split; [rewrite I9; exact E9|].
    split; [rewrite I10; exact E10|rewrite I11; exact E11].
Qed.

(** X20. The simulated activity of the main loop. Entered with its
    counter at zero and a monitor on which nothing has been recorded, after
    [n] passes (short of the overflow of the [int] counter) the loop has
    slept [n] times, the monitor counts [n / 10] messages, [n / 10]
    latencies, [n / 100] opportunities and no trade, and the maximum latency
    is 5 ms once a tenth pass has been made, because every latency the loop
    records is [5.0 + counter % 10] at a pass where [counter % 10] is zero.
    The loop writes neither the gauges nor the alert rules nor the
    lifecycle fields. *)
Theorem engine_loop_counts (n : nat) (pm : PerformanceMonitor) :
  Z.of_nat n <= INT_MAX ->
  producer_state pm = producer_state default_monitor ->
  fst (fst (run_iterations n 0 pm)) = Z.of_nat n /\
  getMessagesProcessed (snd (run_iterations n 0 pm)) = Z.of_nat n / 10 /\
  getOpportunitiesDetected (snd (run_iterations n 0 pm)) = Z.of_nat n / 100 /\
  getTradesExecuted (snd (run_iterations n 0 pm)) = 0 /\
  latency_count_ (snd (run_iterations n 0 pm)) = Z.of_nat n / 10 /\
  getMaxLatency (snd (run_iterations n 0 pm)) = (if Z.of_nat n <? 10 then 0%float else 5%float) /\
  count_events is_sleep (snd (fst (run_iterations n 0 pm))) = n /\
  getMemoryUsage (snd (run_iterations n 0 pm)) = getMemoryUsage pm /\
  getCpuUsage (snd (run_iterations n 0 pm)) = getCpuUsage pm /\
  alert_rules (snd (run_iterations n 0 pm)) = alert_rules pm /\
  lifecycle_state (snd (run_iterations n 0 pm)) = lifecycle_state pm.
Proof.
  unfold INT_MAX, producer_state. intros Hn Hp.
  injection Hp as Hm Ho Ht Ha Hx Hc Hs.
  change (getMessagesProcessed default_monitor) with 0 in Hm.
  change (getOpportunitiesDetected default_monitor) with 0 in Ho.
  change (getTradesExecuted default_monitor) with 0 in Ht.
  change (latency_count_ default_monitor) with 0 in Hc.
  change (getMaxLatency default_monitor) with 0%float in Hx.
  assert (R0 : U64.in_range 0) by (unfold U64.in_range, U64.modulus; lia).
  destruct (run_iterations_effect n 0 pm ltac:(lia)) as
    (I1 & I2 & I3 & I4 & I5 & I6 & I7 & I8 & I9 & I10 & I11);
    try (rewrite ?Hm, ?Ho, ?Hc; exact R0).
  rewrite Hm in I2. rewrite Ho in I3. rewrite Ht in I4. rewrite Hc in I5. rewrite Hx in I6.
  simpl in I1, I2, I3, I5, I6. rewrite Z.sub_0_r in I2, I3, I5, I6.
  assert (B10 : 0 <= Z.of_nat n / 10 < U64.modulus).
  { unfold U64.modulus. split; [apply Z.div_pos; lia|].
    apply Z.div_lt_upper_bound; lia. }
  assert (B100 : 0 <= Z.of_nat n / 100 < U64.modulus).
  { unfold U64.modulus. split; [apply Z.div_pos; lia|].
    apply Z.div_lt_upper_bound; lia. }
  rewrite wrap_small in I2, I3, I5 by assumption.
  repeat split; try assumption.
  rewrite I6. destruct (Z.ltb_spec (Z.of_nat n) 10) as [L|L].
  - rewrite Z.div_small by lia. reflexivity.
  - destruct (Z.eqb_spec (Z.of_nat n / 10) 0) as [E|E]; [|reflexivity].
    exfalso. revert E. Z.div_mod_to_equations. lia.
Qed.

(** Two hundred and fifty passes on the monitor as constructed. *)
Lemma engine_loop_counts_witness :
  getMessagesProcessed (snd (run_iterations 250 0 default_monitor)) = 25 /\
  getOpportunitiesDetected (snd (run_iterations 250 0 default_monitor)) = 2 /\
  getMaxLatency (snd (run_iterations 250 0 default_monitor)) = 5%float.
Proof.
  destruct (engine_loop_counts 250 default_monitor) as (_ & A & B & _ & _ & C & _).
  - unfold INT_MAX. lia.
  - reflexivity.
  - split; [exact A|]. split; [exact B|exact C].
Defined.
End EngineExtras.
